(** * Rollout planner: budget, duration, phases, timeline and milestones

    A shallow embedding of [src/planners/rollout_planner.py]
    (class [RolloutPlanner]) and the verification of its documented
    properties.

    Conventions of the embedding.

    - Python [int] is [Z]; [len(...)] is a [nat].
    - Python [float] is an exact rational [Q]: every value is finite, and
      the rounding of binary64 arithmetic is not represented; the statements
      on amounts and percentages leave it room. The conversion of an [int]
      beyond the range of float raises [OverflowError]
      ([parameters_overflow]). [round], [int], [math.ceil], [min] and [max]
      are written out below.
    - [datetime] is the number of microseconds since 0001-01-01T00:00:00 and
      [timedelta] a number of microseconds; the two range checks of the
      [datetime] module (years 1..9999, at most 999999999 days) raise
      [OverflowError].
    - An exception that no [except] clause catches ends the call: the
      functions that can raise return a [result].
    - The text that [strftime('%Y-%m-%d')] prints is represented, in the
      records of the plan, by the proleptic Gregorian ordinal of the day it
      denotes ([toordinal]); [date_text] gives the text itself, whose year
      is not padded, and the code that parses such a text back or compares
      two of them is modelled on the texts.
    - A dict with string keys holding arbitrary values is a
      [gmap string PyVal].
    - The rationale log keeps one constructor per f-string of the source,
      carrying the values the string interpolates. *)

From Stdlib Require Import ZArith QArith Qround Lqa Lia Ascii String.
From stdpp Require Import base option list sorting gmap strings.

#[local] Open Scope Z_scope.

(** ** Exceptions *)

Inductive exn : Set := OverflowError | ValueError | TypeError | AttributeError.

Inductive result (T : Type) : Type :=
| Ok (v : T)
| Raise (e : exn).
Arguments Ok {T} v.
Arguments Raise {T} e.

#[global] Instance result_ret : MRet result := fun _ v => Ok v.
#[global] Instance result_bind : MBind result := fun _ _ f r =>
  match r with
  | Ok v => f v
  | Raise e => Raise e
  end.

(** ** Python numbers *)

Module Py.

Definition Qltb (x y : Q) : bool := negb (Qle_bool y x).

(** [min(a, b)]: the first argument unless the second is strictly less. *)
Definition min (a b : Q) : Q := if Qltb b a then b else a.

(** [max(a, b)]: the first argument unless the second is strictly
    greater. *)
Definition max (a b : Q) : Q := if Qltb a b then b else a.

(** [round(x)]: nearest integer, ties to the even one. *)
Definition round (x : Q) : Z :=
  let f := Qfloor x in
  match (x - inject_Z f ?= 1 # 2)%Q with
  | Lt => f
  | Gt => f + 1
  | Eq => if Z.even f then f else f + 1
  end.

(** [round(x, n)] for [n] decimals. *)
Definition round_nd (x : Q) (n : nat) : Q :=
  (inject_Z (round (x * inject_Z (10 ^ Z.of_nat n))) / inject_Z (10 ^ Z.of_nat n))%Q.

(** [int(x)] of a float: truncation towards zero. *)
Definition int (x : Q) : Z := Z.quot (Qnum x) (Z.pos (Qden x)).

(** [math.ceil(x)]. *)
Definition ceil (x : Q) : Z := Qceiling x.

(** [sum(xs)]: starts at 0 and adds from the left. *)
Definition sum (xs : list Q) : Q := fold_left Qplus xs 0%Q.

End Py.

(** ** Dynamically typed values of the movie profile *)

Inductive PyVal : Type :=
| PNone
| PBool (b : bool)
| PInt (z : Z)
| PFloat (q : Q)
| PStr (s : string)
| PObj (nonempty : bool).
(** [PObj] stands for any other object (list, dict, ...): only its truth
    value is observable here, and [float()] and [int()] raise [TypeError]
    on it. *)

Definition truthy (v : PyVal) : bool :=
  match v with
  | PNone => false
  | PBool b => b
  | PInt z => negb (z =? 0)
  | PFloat q => negb (Qeq_bool q 0)
  | PStr s => negb (String.eqb s "")
  | PObj b => b
  end.

(** [v or d] *)
Definition py_or (v d : PyVal) : PyVal := if truthy v then v else d.

(** ** Dates *)

Definition datetime := Z.
Definition timedelta := Z.

Definition US_PER_DAY : Z := 86400000000.
Definition MAX_ORDINAL : Z := 3652059.
Definition MAX_DELTA_DAYS : Z := 999999999.

Definition days (n : Z) : timedelta := n * US_PER_DAY.
Definition weeks (n : Z) : timedelta := days (7 * n).

(** [timedelta(weeks=n)], with the constructor's range check. *)
Definition timedelta_weeks (n : Z) : result timedelta :=
  if Z.abs (7 * n) <=? MAX_DELTA_DAYS then Ok (weeks n) else Raise OverflowError.

(** [td.days]: whole days, rounded down. *)
Definition td_days (d : timedelta) : Z := d / US_PER_DAY.

Definition datetime_ok (t : Z) : bool :=
  (0 <=? t) && (t <? MAX_ORDINAL * US_PER_DAY).

(** [t + d] and [t - d] on a datetime. *)
Definition dt_add (t : datetime) (d : timedelta) : result datetime :=
  if datetime_ok (t + d) then Ok (t + d) else Raise OverflowError.

Definition dt_sub (t : datetime) (d : timedelta) : result datetime :=
  if datetime_ok (t - d) then Ok (t - d) else Raise OverflowError.

(** The day [strftime('%Y-%m-%d')] prints. *)
Definition toordinal (t : datetime) : Z := t / US_PER_DAY + 1.

(** [datetime.strptime(s, '%Y-%m-%d')] of the text of day [d]. *)
Definition midnight (d : Z) : datetime := (d - 1) * US_PER_DAY.

Module Calendar.

Definition is_leap (y : Z) : bool :=
  (y mod 4 =? 0) && (negb (y mod 100 =? 0) || (y mod 400 =? 0)).

Definition days_in_month (y m : Z) : Z :=
  if m =? 2 then (if is_leap y then 29 else 28)
  else if (m =? 4) || (m =? 6) || (m =? 9) || (m =? 11) then 30
  else 31.

Definition days_before_year (y : Z) : Z :=
  let p := y - 1 in p * 365 + p / 4 - p / 100 + p / 400.

Fixpoint days_before_month_aux (y : Z) (k : nat) : Z :=
  match k with
  | O => 0
  | S k' => days_before_month_aux y k' + days_in_month y (Z.of_nat k)
  end.

Definition days_before_month (y m : Z) : Z :=
  days_before_month_aux y (Z.to_nat (m - 1)).

Definition ymd2ord (y m d : Z) : Z :=
  days_before_year y + days_before_month y m + d.

Definition digit (c : ascii) : option Z :=
  let n := Z.of_N (Ascii.N_of_ascii c) in
  if (48 <=? n) && (n <=? 57) then Some (n - 48) else None.

Definition in_range (c : ascii) (lo hi : Z) : option Z :=
  match digit c with
  | Some n => if (lo <=? n) && (n <=? hi) then Some n else None
  | None => None
  end.

(** The group [(?P<m>1[0-2]|0[1-9]|[1-9])] followed by ["-"]: the month
    and the text after the dash. *)
Definition month_token (s : list ascii) : option (Z * list ascii) :=
  match s with
  | c1 :: c2 :: rest =>
      if Ascii.eqb c2 "-" then n ← in_range c1 1 9; Some (n, rest)
      else
        match rest with
        | c3 :: rest' =>
            if negb (Ascii.eqb c3 "-") then None
            else if Ascii.eqb c1 "1" then
              n ← in_range c2 0 2; Some (10 + n, rest')
            else if Ascii.eqb c1 "0" then
              n ← in_range c2 1 9; Some (n, rest')
            else None
        | [] => None
        end
  | _ => None
  end.

(** The group [(?P<d>3[0-1]|[1-2]\d|0[1-9]|[1-9]| [1-9])], which must
    end the text. *)
Definition day_token (s : list ascii) : option Z :=
  match s with
  | [c] => in_range c 1 9
  | [c1; c2] =>
      if Ascii.eqb c1 "3" then n ← in_range c2 0 1; Some (30 + n)
      else if Ascii.eqb c1 "0" || Ascii.eqb c1 " " then in_range c2 1 9
      else a ← in_range c1 1 2; b ← digit c2; Some (10 * a + b)
  | _ => None
  end.

(** Year, month and day matched by the format ['%Y-%m-%d']. *)
Definition match_ymd (s : list ascii) : option (Z * Z * Z) :=
  match s with
  | y1 :: y2 :: y3 :: y4 :: dash :: rest =>
      if negb (Ascii.eqb dash "-") then None
      else
        a ← digit y1; b ← digit y2; c ← digit y3; d ← digit y4;
        '(m, rest') ← month_token rest;
        dd ← day_token rest';
        Some (1000 * a + 100 * b + 10 * c + d, m, dd)
  | _ => None
  end.

(** [datetime.strptime(s, '%Y-%m-%d')]; [None] is [ValueError]. *)
Definition strptime (s : string) : option datetime :=
  '(y, m, d) ← match_ymd (list_ascii_of_string s);
  if (1 <=? y) && (d <=? days_in_month y m)
  then Some (midnight (ymd2ord y m d))
  else None.

End Calendar.

(** ** The text of a date *)

(** The character of a decimal digit. *)
Definition digit_char (n : Z) : ascii := Ascii.ascii_of_N (Z.to_N (48 + n)).

Definition two_digits (n : Z) : list ascii :=
  [digit_char (n / 10); digit_char (n mod 10)].

Definition four_digits (n : Z) : list ascii :=
  [digit_char (n / 1000); digit_char (n / 100 mod 10);
   digit_char (n / 10 mod 10); digit_char (n mod 10)].

(** A date written as YYYY-MM-DD, each part padded with zeros. *)
Definition format_ymd (y m d : Z) : string :=
  string_of_list_ascii
    (four_digits y ++ "-"%char :: two_digits m ++ "-"%char :: two_digits d).

(** The date of the day of ordinal [n], as [_ord2ymd] of the [datetime]
    module finds the year: by the cycles of 400, 100, 4 and 1 years. *)
Definition year_of (n : Z) : Z :=
  let n0 := n - 1 in
  let n400 := n0 / 146097 in
  let n0 := n0 mod 146097 in
  let n100 := n0 / 36524 in
  let n0 := n0 mod 36524 in
  let n4 := n0 / 1461 in
  let n0 := n0 mod 1461 in
  let n1 := n0 / 365 in
  let year := n400 * 400 + n100 * 100 + n4 * 4 + n1 + 1 in
  if (n1 =? 4) || (n100 =? 4) then year - 1 else year.

(** The last of the months 1 .. [k] + 1 that starts before day
    [day_of_year] of year [y]. *)
Fixpoint month_upto (k : nat) (y day_of_year : Z) : Z :=
  match k with
  | O => 1
  | S k' =>
      if Calendar.days_before_month y (Z.of_nat (S k)) <? day_of_year
      then Z.of_nat (S k)
      else month_upto k' y day_of_year
  end.

Definition ord2ymd (n : Z) : Z * Z * Z :=
  let y := year_of n in
  let day_of_year := n - Calendar.days_before_year y in
  let m := month_upto 11 y day_of_year in
  (y, m, day_of_year - Calendar.days_before_month y m).

(** The year as [%Y] prints it: without padding. *)
Definition year_digits (y : Z) : list ascii :=
  if y <? 10 then [digit_char y]
  else if y <? 100 then two_digits y
  else if y <? 1000 then digit_char (y / 100) :: two_digits (y mod 100)
  else four_digits y.

(** [strftime('%Y-%m-%d')] of the day of ordinal [n]: the text that the
    ordinal stands for in the records of the plan. *)
Definition date_text (n : Z) : string :=
  let '(y, m, d) := ord2ymd n in
  string_of_list_ascii
    (year_digits y ++ "-"%char :: two_digits m ++ "-"%char :: two_digits d).

(** [a <= b] on strings: the comparison of the sort of line 413. *)
Fixpoint text_leb (a b : list ascii) : bool :=
  match a, b with
  | [], _ => true
  | _ :: _, [] => false
  | x :: a', y :: b' =>
      if (N_of_ascii x <? N_of_ascii y)%N then true
      else if (N_of_ascii y <? N_of_ascii x)%N then false
      else text_leb a' b'
  end.

Definition str_leb (a b : string) : bool :=
  text_leb (list_ascii_of_string a) (list_ascii_of_string b).

(** The order of dates given by year, month and day. *)
Definition ymd_leb (a b : Z * Z * Z) : bool :=
  let '(y1, m1, d1) := a in
  let '(y2, m2, d2) := b in
  (y1 <? y2) || (y1 =? y2) && ((m1 <? m2) || (m1 =? m2) && (d1 <=? d2)).

(** The first day of year 1000: the dates before it have a year of fewer
    than four digits. *)
Definition YEAR_1000 : Z := Calendar.ymd2ord 1000 1 1.

(** ** Data model *)

(** Modelled from the spec: the tier of a region score, which the missing
    scorer assigns. The spec gives it as the enumeration A, B, C; the
    planner compares it with the texts 'A', 'B' and 'C'. *)
Inductive Tier : Set := TierA | TierB | TierC.

#[global] Instance Tier_eq_dec : EqDecision Tier.
Proof. solve_decision. Defined.

Inductive Intensity : Set := Low | Medium | High.

(** One entry of [comparison['ranked_regions']]. *)
Record RegionScore : Type := {
  region : string;
  total_score : Q;
  tier : Tier;
  suggested_budget_pct : Q;
  recommendation : string
}.

(** The dict returned by the regional scorer. *)
Record Comparison : Type := {
  ranked_regions : list RegionScore;
  recommendations : list string
}.

(** The dict returned by [_extract_movie_signature]. *)
Record MovieSignature : Type := {
  sig_title : string;
  sig_primary_genre : string;
  sig_genre_focus : string;
  sig_hook : string;
  sig_lead : string;
  sig_tagline : string;
  sig_audience_callout : string
}.

(** Lines of [duration_logic] and [budget_logic]. *)
Inductive DurationDriver : Type :=
| DurOverridden (w : Z)
| DurRunway (gap base : Z)
| DurSustain
| DurHighPopularity (popularity : Q)
| DurTierA (n : nat)
| DurTentpole.

Inductive BudgetDriver : Type :=
| BudOverridden (v : Z)
| BudProductionBaseline (ratio production_budget : Q)
| BudIndieBaseline
| BudPopularity (popularity factor : Q)
| BudTierMix (a b : nat) (factor : Q)
| BudInterest (index factor : Q)
| BudFanProof (votes : Z) (factor : Q).

Record Signals : Type := {
  tier_a_markets : nat;
  tier_b_markets : nat;
  sg_interest_index : Q;
  sg_popularity : Q;
  sg_release_gap_weeks : Z
}.

Record Logic : Type := {
  budget_drivers : list BudgetDriver;
  duration_drivers : list DurationDriver;
  signals : Signals
}.

(** The dict returned by [_derive_campaign_parameters]. *)
Record CampaignParameters : Type := {
  cp_total_budget : Z;
  cp_campaign_weeks : Z;
  cp_logic : Logic
}.

Record Phase : Type := {
  phase : nat;
  ph_name : string;
  ph_start_date : Z;
  duration_weeks : Z;
  regions : list string;
  intensity : Intensity;
  focus : string;
  budget_percentage : Z;
  movie_hook : string
}.

Record BudgetAllocation : Type := {
  ba_region : string;
  budget_amount : Q;
  percentage : Q;
  ba_tier : Tier;
  justification : string
}.

Record TimelineWeek : Type := {
  week : Z;
  tw_start_date : Z;
  tw_end_date : Z;
  tw_phase : string;
  active_regions : list string;
  key_activities : list string;
  tw_intensity : Intensity
}.

Record Milestone : Type := {
  ms_date : Z;
  milestone : string;
  description : string
}.

Record CampaignOverview : Type := {
  release_date : string;
  campaign_start : Z;
  ov_duration_weeks : Z;
  ov_total_budget : Z;
  target_regions : nat;
  movie_positioning : MovieSignature
}.

Record ChannelPlan : Type := {
  ch_regions : list string;
  channels : list string;
  investment_level : string
}.

Record Plan : Type := {
  campaign_overview : CampaignOverview;
  phases : list Phase;
  budget_allocation : list BudgetAllocation;
  timeline : list TimelineWeek;
  channel_strategy : list ChannelPlan;
  key_milestones : list Milestone;
  plan_recommendations : list string;
  plan_logic : Logic
}.

Definition in_tier (t : Tier) (rs : list RegionScore) : list RegionScore :=
  filter (fun r => tier r = t) rs.

(** ** Campaign parameters *)

Section Derive.

(** [float(s)] and [int(s)] of a string, the built-in conversions;
    [None] is [ValueError]. *)
Variable float_of_str : string -> option Q.
Variable int_of_str : string -> option Z.

(** [float(v)] of a value that [float] converts; [None] is [TypeError] or
    [ValueError]. An int beyond the range of float is not converted:
    see [float_overflows]. *)
Definition py_float (v : PyVal) : option Q :=
  match v with
  | PBool b => Some (if b then 1%Q else 0%Q)
  | PInt z => Some (inject_Z z)
  | PFloat q => Some q
  | PStr s => float_of_str s
  | PNone | PObj _ => None
  end.

(** [int(v)]; [None] is [TypeError] or [ValueError]. *)
Definition py_int (v : PyVal) : option Z :=
  match v with
  | PBool b => Some (if b then 1 else 0)
  | PInt z => Some z
  | PFloat q => Some (Py.int q)
  | PStr s => int_of_str s
  | PNone | PObj _ => None
  end.

(** Lines 430-433. *)
Definition profile_popularity (movie_profile : gmap string PyVal) : Q :=
  default 45%Q
    (py_float (py_or (default (PInt 45) (movie_profile !! "popularity")) (PInt 45))).

(** Lines 435-438. *)
Definition profile_production_budget (movie_profile : gmap string PyVal) : Q :=
  default 0%Q
    (py_float (py_or (default PNone (movie_profile !! "budget")) (PInt 0))).

(** Lines 504-507. *)
Definition profile_vote_count (movie_profile : gmap string PyVal) : Z :=
  default 0
    (py_int (py_or (default PNone (movie_profile !! "vote_count")) (PInt 0))).

(** The least int that has no float: 2^1024 - 2^970 rounds to 2^1024.
    On an int [z] that large, or the opposite of one, [float(z)] raises
    [OverflowError]; so does [z / 50000] from 50000 times as much. *)
Definition FLOAT_LIMIT : Z := 2 ^ 1024 - 2 ^ 970.

Definition float_overflows (v : PyVal) : bool :=
  match v with
  | PInt z => FLOAT_LIMIT <=? Z.abs z
  | _ => false
  end.

(** The [OverflowError] of [_derive_campaign_parameters], which its
    [except (TypeError, ValueError)] clauses do not catch: [float()] of the
    popularity (line 431) or of the budget (line 436), and, when the budget
    is derived, [vote_count / 50000] (line 509). *)
Definition parameters_overflow (movie_profile : gmap string PyVal)
    (override_budget : option Q) : bool :=
  float_overflows
    (py_or (default (PInt 45) (movie_profile !! "popularity")) (PInt 45))
  || float_overflows
       (py_or (default PNone (movie_profile !! "budget")) (PInt 0))
  || match override_budget with
     | Some _ => false
     | None => 50000 * FLOAT_LIMIT <=? Z.abs (profile_vote_count movie_profile)
     end.

(** Line 428. *)
Definition interest_index_of (ranked : list RegionScore) : Q :=
  let top_scores := take 3 (total_score <$> ranked) in
  match top_scores with
  | [] => 0.55%Q
  | _ => (Py.sum top_scores / inject_Z (Z.of_nat (length top_scores)) / 100)%Q
  end.

(** Lines 440-441. *)
Definition release_gap_weeks_of (release_dt now : datetime) : Z :=
  let release_gap_days := Z.max 0 (td_days (release_dt - now)) in
  if release_gap_days =? 0 then 0
  else Py.ceil (inject_Z release_gap_days / 7)%Q.

(** Lines 474-481. *)
Definition marketing_ratio_of (production_budget : Q) : Q :=
  if Qle_bool 150000000 production_budget then 0.4%Q
  else if Qle_bool 75000000 production_budget then 0.32%Q
  else if Qle_bool 25000000 production_budget then 0.25%Q
  else 0.18%Q.

(** Lines 490-491. *)
Definition pop_score_of (popularity : Q) : Q :=
  Py.max 0 (Py.min popularity 100).

Definition popularity_factor_of (popularity : Q) : Q :=
  (1 + pop_score_of popularity / 100 * 0.35)%Q.

(** Lines 513-514. *)
Definition finalize_budget (base_budget : Q) : Z :=
  let computed_budget := Py.max 250000 (Py.min base_budget 20000000) in
  Z.max 250000 (Py.round (computed_budget / 50000) * 50000).

(** Lines 445-465: weeks and the duration log. *)
Definition derive_duration (override_duration : option Z)
    (release_gap_weeks : Z) (popularity : Q) (tier_a_count : nat)
    (production_budget : Q) : Z * list DurationDriver :=
  match override_duration with
  | Some d =>
      let campaign_weeks := Z.max 1 d in
      (campaign_weeks, [DurOverridden campaign_weeks])
  | None =>
      let '(base_weeks, log) :=
        if 0 <? release_gap_weeks
        then
          let base_weeks := Z.min (Z.max release_gap_weeks 4) 16 in
          (base_weeks, [DurRunway release_gap_weeks base_weeks])
        else (6, [DurSustain]) in
      let campaign_weeks := base_weeks in
      let '(campaign_weeks, log) :=
        if Qle_bool 70 popularity
        then (campaign_weeks + 1, log ++ [DurHighPopularity popularity])
        else (campaign_weeks, log) in
      let '(campaign_weeks, log) :=
        if (3 <=? tier_a_count)%nat
        then (campaign_weeks + 1, log ++ [DurTierA tier_a_count])
        else (campaign_weeks, log) in
      let '(campaign_weeks, log) :=
        if Qle_bool 150000000 production_budget
        then (campaign_weeks + 1, log ++ [DurTentpole])
        else (campaign_weeks, log) in
      (Z.max 4 (Z.min campaign_weeks 16), log)
  end.

(** Lines 469-512: budget and the budget log. *)
Definition derive_budget (movie_profile : gmap string PyVal)
    (override_budget : option Q) (popularity production_budget : Q)
    (tier_a_count tier_b_count : nat) (interest_index : Q)
    : Z * list BudgetDriver :=
  match override_budget with
  | Some b =>
      let total_budget_value := Py.int b in
      (total_budget_value, [BudOverridden total_budget_value])
  | None =>
      let '(base_budget, log) :=
        if Py.Qltb 0 production_budget
        then
          let marketing_ratio := marketing_ratio_of production_budget in
          ((production_budget * marketing_ratio)%Q,
           [BudProductionBaseline marketing_ratio production_budget])
        else (350000%Q, [BudIndieBaseline]) in
      let pop_score := pop_score_of popularity in
      let popularity_factor := popularity_factor_of popularity in
      let base_budget := (base_budget * popularity_factor)%Q in
      let log :=
        if Qeq_bool pop_score 0 then log
        else log ++ [BudPopularity popularity popularity_factor] in
      let tier_factor :=
        (1 + inject_Z (Z.of_nat (Nat.min tier_a_count 4)) * 0.08
           + inject_Z (Z.of_nat (Nat.min tier_b_count 4)) * 0.03)%Q in
      let base_budget := (base_budget * tier_factor)%Q in
      let log := log ++ [BudTierMix tier_a_count tier_b_count tier_factor] in
      let interest_factor :=
        (1 + Py.max 0 (interest_index - 0.55) * 0.5)%Q in
      let base_budget := (base_budget * interest_factor)%Q in
      let log := log ++ [BudInterest interest_index interest_factor] in
      let vote_count := profile_vote_count movie_profile in
      let '(base_budget, log) :=
        if vote_count =? 0 then (base_budget, log)
        else
          let audience_factor :=
            (1 + Py.min (inject_Z vote_count / 50000) 1 * 0.15)%Q in
          ((base_budget * audience_factor)%Q,
           log ++ [BudFanProof vote_count audience_factor]) in
      (finalize_budget base_budget, log)
  end.

(** [_derive_campaign_parameters], with [datetime.now()] as [now]. *)
Definition _derive_campaign_parameters (movie_profile : gmap string PyVal)
    (regional_summary : Comparison) (override_budget : option Q)
    (override_duration : option Z) (release_dt now : datetime)
    : CampaignParameters :=
  let ranked := ranked_regions regional_summary in
  let tier_a_count := length (in_tier TierA ranked) in
  let tier_b_count := length (in_tier TierB ranked) in
  let interest_index := interest_index_of ranked in
  let popularity := profile_popularity movie_profile in
  let production_budget := profile_production_budget movie_profile in
  let release_gap_weeks := release_gap_weeks_of release_dt now in
  let '(campaign_weeks, duration_logic) :=
    derive_duration override_duration release_gap_weeks popularity
      tier_a_count production_budget in
  let '(total_budget_value, budget_logic) :=
    derive_budget movie_profile override_budget popularity
      production_budget tier_a_count tier_b_count interest_index in
  {| cp_total_budget := total_budget_value;
     cp_campaign_weeks := campaign_weeks;
     cp_logic :=
       {| budget_drivers := budget_logic;
          duration_drivers := duration_logic;
          signals :=
            {| tier_a_markets := tier_a_count;
               tier_b_markets := tier_b_count;
               sg_interest_index := Py.round_nd (interest_index * 100) 1;
               sg_popularity := Py.round_nd popularity 1;
               sg_release_gap_weeks := release_gap_weeks |} |} |}.

End Derive.

(** ** Sorting

    [sorted(xs, key=...)] is stable; so is insertion from the right, where
    an element goes in front of the first one it may precede. *)

Fixpoint insert_by {T : Type} (before : T -> T -> bool) (x : T) (l : list T)
    : list T :=
  match l with
  | [] => [x]
  | y :: l' => if before x y then x :: y :: l' else y :: insert_by before x l'
  end.

Definition sorted_by {T : Type} (before : T -> T -> bool) (l : list T)
    : list T :=
  foldr (insert_by before) [] l.

(** ** Phases *)

Definition lower_ascii (c : ascii) : ascii :=
  let n := Ascii.N_of_ascii c in
  if ((65 <=? n) && (n <=? 90))%N then Ascii.ascii_of_N (n + 32) else c.

(** [s.lower()] on ASCII text. *)
Fixpoint lower (s : string) : string :=
  match s with
  | EmptyString => EmptyString
  | String c s' => String (lower_ascii c) (lower s')
  end.

(** [s or d] on strings. *)
Definition str_or (s d : string) : string :=
  if String.eqb s "" then d else s.

(** The local function [_offset] of [_create_phases]. *)
Definition _offset (total_weeks : Z) (multiplier : Q) (min_week : Z) : Z :=
  if total_weeks <=? min_week then Z.max 0 (total_weeks - 1)
  else
    let tentative := Py.round (inject_Z total_weeks * multiplier) in
    let tentative := Z.max min_week tentative in
    Z.min (total_weeks - 1) tentative.

(** Lines 134-138: the dict [offsets]. *)
Definition offsets (total_weeks : Z) (t : Tier) : Z :=
  match t with
  | TierA => 0
  | TierB => _offset total_weeks 0.35 1
  | TierC => _offset total_weeks 0.65 2
  end.

(** Lines 141-147: [weight_map], listed in the order A, B, C of
    [ordered_keys]. *)
Definition weight_map (na nb nc : nat) : list (Tier * Z) :=
  (if (0 <? na)%nat then [(TierA, 40 + Z.min (Z.of_nat na * 4) 20)] else [])
  ++ (if (0 <? nb)%nat then [(TierB, 30 + Z.min (Z.of_nat nb * 3) 15)] else [])
  ++ (if (0 <? nc)%nat then [(TierC, 20 + Z.min (Z.of_nat nc * 2) 10)] else []).

(** Lines 153-158: the loop over [ordered_keys]. *)
Fixpoint normalize (total_weight : Z) (keys : list (Tier * Z))
    (running_total : Z) : list (Tier * Z) :=
  match keys with
  | [] => []
  | (key, w) :: rest =>
      let pct := Py.round (inject_Z w / inject_Z total_weight * 100) in
      let pct :=
        match rest with
        | [] => 100 - running_total
        | _ => pct
        end in
      (key, pct) :: normalize total_weight rest (running_total + pct)
  end.

(** Lines 149-158. *)
Definition normalized_pct (na nb nc : nat) : list (Tier * Z) :=
  let wm := weight_map na nb nc in
  let s := foldl Z.add 0 (snd <$> wm) in
  let total_weight := if s =? 0 then 1 else s in
  normalize total_weight wm 0.

(** [d.get(key, 0)] *)
Fixpoint get_pct (key : Tier) (d : list (Tier * Z)) : Z :=
  match d with
  | [] => 0
  | (k, v) :: d' => if decide (k = key) then v else get_pct key d'
  end.

(** The local function [_phase_duration]. *)
Definition _phase_duration (release_date start : datetime) : Z :=
  Z.max 1 (Py.ceil (inject_Z (td_days (release_date - start)%Z) / 7)%Q).

(** [_create_phases]. Every datetime built here lies between [start_date]
    and [release_date] when [start_date] is [campaign_weeks] weeks before
    [release_date], so the range check of [datetime] is never hit. *)
Definition _create_phases (ranked : list RegionScore)
    (start_date release_date : datetime) (movie_signature : MovieSignature)
    (campaign_weeks : Z) : list Phase :=
  let tier_a := in_tier TierA ranked in
  let tier_b := in_tier TierB ranked in
  let tier_c := in_tier TierC ranked in
  match tier_a, tier_b, tier_c with
  | [], [], [] => []
  | _, _, _ =>
      let total_weeks := Z.max 1 campaign_weeks in
      let pcts := normalized_pct (length tier_a) (length tier_b) (length tier_c) in
      let genre_focus := sig_genre_focus movie_signature in
      let lead_name := str_or (sig_lead movie_signature) "the ensemble cast" in
      let audience := sig_audience_callout movie_signature in
      let hook :=
        str_or (sig_hook movie_signature)
          (str_or (sig_title movie_signature) "the film") in
      let title_short := sig_title movie_signature in
      let phases1 :=
        match tier_a with
        | [] => []
        | _ =>
            [ {| phase := 1;
                 ph_name := sig_primary_genre movie_signature ++ " Fan Ignition";
                 ph_start_date := toordinal start_date;
                 duration_weeks := _phase_duration release_date start_date;
                 regions := region <$> tier_a;
                 intensity := High;
                 focus :=
                   "Position " ++ title_short ++ " as the must-see "
                   ++ lower (sig_primary_genre movie_signature)
                   ++ " event. Lead with " ++ genre_focus ++ " and "
                   ++ lead_name ++ " interviews to rally " ++ audience
                   ++ " and drive premium pre-sales.";
                 budget_percentage := get_pct TierA pcts;
                 movie_hook := hook |} ]
        end in
      let phases2 :=
        match tier_b with
        | [] => phases1
        | _ =>
            if start_date <? release_date then
              let offset_weeks := offsets total_weeks TierB in
              let phase_start := Z.min release_date (start_date + weeks offset_weeks) in
              if phase_start <? release_date then
                phases1 ++
                [ {| phase := length phases1 + 1;
                     ph_name := "Social Proof Expansion";
                     ph_start_date := toordinal phase_start;
                     duration_weeks := _phase_duration release_date phase_start;
                     regions := region <$> tier_b;
                     intensity := Medium;
                     focus :=
                       "Capitalize on Tier-A reactions by localizing social proof clips, critic quotes, and "
                       ++ lower hook
                       ++ " callouts. Balance paid reach with experiential moments for regional partners.";
                     budget_percentage := get_pct TierB pcts;
                     movie_hook := "Localized " ++ genre_focus |} ]
              else phases1
            else phases1
        end in
      match tier_c with
      | [] => phases2
      | _ =>
          if start_date <? release_date then
            let offset_weeks := offsets total_weeks TierC in
            let phase_start := Z.min release_date (start_date + weeks offset_weeks) in
            if phase_start <? release_date then
              phases2 ++
              [ {| phase := length phases2 + 1;
                   ph_name := "Long-tail Sustain & Emerging Markets";
                   ph_start_date := toordinal phase_start;
                   duration_weeks := _phase_duration release_date phase_start;
                   regions := region <$> tier_c;
                   intensity := Low;
                   focus :=
                     "Keep " ++ title_short
                     ++ " top-of-mind with cost-efficient retargeting, fan community drops, and partner bundles that celebrate "
                     ++ genre_focus ++ ".";
                   budget_percentage := get_pct TierC pcts;
                   movie_hook := "Community-driven " ++ title_short |} ]
            else phases2
          else phases2
      end
  end.

(** ** Budget allocation *)

(** Lines 243-253: the body of the loop of [_allocate_budget]. *)
Definition allocate_region (total_pct total_budget : Q)
    (region_data : RegionScore) : BudgetAllocation :=
  let pct :=
    if Py.Qltb 0 total_pct
    then (suggested_budget_pct region_data / total_pct * 100)%Q
    else 0%Q in
  let amount := (pct / 100 * total_budget)%Q in
  {| ba_region := region region_data;
     budget_amount := Py.round_nd amount 2;
     percentage := Py.round_nd pct 2;
     ba_tier := tier region_data;
     justification := recommendation region_data |}.

(** [_allocate_budget]. *)
Definition _allocate_budget (ranked : list RegionScore) (total_budget : Q)
    : list BudgetAllocation :=
  let total_pct := Py.sum (suggested_budget_pct <$> ranked) in
  let allocations := allocate_region total_pct total_budget <$> ranked in
  sorted_by (fun x y => Qle_bool (budget_amount y) (budget_amount x))
    allocations.

(** ** Timeline *)

(** [_get_weekly_activities]. *)
Definition _get_weekly_activities (weeks_to_release : Z) : list string :=
  if 6 <=? weeks_to_release then
    ["Launch teaser campaign"; "Build social media presence";
     "Secure media partnerships"]
  else if 4 <=? weeks_to_release then
    ["Release official trailer"; "Start paid social campaigns";
     "Begin PR tour"]
  else if 2 <=? weeks_to_release then
    ["Intensify digital ads"; "Launch ticket pre-sales";
     "Host premiere events"]
  else
    ["Final push - all channels"; "Leverage reviews & testimonials";
     "Drive ticket sales"].

(** Lines 272-276: the scan for the active phase, which parses the start
    text of every phase; [strptime] raises [ValueError] on a text that
    ['%Y-%m-%d'] does not match. *)
Fixpoint scan_active_phase (phases : list Phase) (current : datetime)
    (active_phase : option Phase) : result (option Phase) :=
  match phases with
  | [] => Ok active_phase
  | p :: rest =>
      match Calendar.strptime (date_text (ph_start_date p)) with
      | Some phase_start =>
          scan_active_phase rest current
            (if phase_start <=? current then Some p else active_phase)
      | None => Raise ValueError
      end
  end.

(** The entry that lines 282-290 append. *)
Definition week_entry (week : Z) (current week_end release_date : datetime)
    (active_phase : option Phase) : TimelineWeek :=
  let weeks_to_release := td_days (release_date - current) / 7 in
  {| week := week;
     tw_start_date := toordinal current;
     tw_end_date := toordinal week_end;
     tw_phase := from_option ph_name "Pre-campaign" active_phase;
     active_regions := from_option regions [] active_phase;
     key_activities := _get_weekly_activities weeks_to_release;
     tw_intensity := from_option intensity Low active_phase |}.

(** The [while current < release_date] loop of lines 268-293, at most
    [fuel] rounds. Line 269 adds the seven days before it takes the
    minimum. *)
Fixpoint timeline_while (fuel : nat) (phases : list Phase)
    (release_date current : datetime) (week : Z)
    : result (list TimelineWeek) :=
  match fuel with
  | O => Ok []
  | S fuel' =>
      if current <? release_date then
        next ← dt_add current (days 7);
        let week_end := Z.min next release_date in
        active_phase ← scan_active_phase phases current None;
        rest ← timeline_while fuel' phases release_date week_end (week + 1);
        mret (week_entry week current week_end release_date active_phase
              :: rest)
      else Ok []
  end.

(** ** The weeks of a timeline that is returned

    The same loop without the two checks: what [_create_timeline] returns
    when it returns ([create_timeline_weeks]). *)

Definition active_phase_at (phases : list Phase) (current : datetime)
    : option Phase :=
  foldl
    (fun active_phase p =>
       if midnight (ph_start_date p) <=? current then Some p else active_phase)
    None phases.

(** One round of the [while] loop of [_create_timeline]. *)
Definition timeline_entry (phases : list Phase) (release_date current : datetime)
    (week : Z) : TimelineWeek :=
  let week_end := Z.min (current + days 7) release_date in
  let active_phase := active_phase_at phases current in
  let weeks_to_release := td_days (release_date - current) / 7 in
  {| week := week;
     tw_start_date := toordinal current;
     tw_end_date := toordinal week_end;
     tw_phase := from_option ph_name "Pre-campaign" active_phase;
     active_regions := from_option regions [] active_phase;
     key_activities := _get_weekly_activities weeks_to_release;
     tw_intensity := from_option intensity Low active_phase |}.

(** The [while current < release_date] loop, at most [fuel] rounds. *)
Fixpoint timeline_loop (fuel : nat) (phases : list Phase)
    (release_date current : datetime) (week : Z) : list TimelineWeek :=
  match fuel with
  | O => []
  | S fuel' =>
      if current <? release_date then
        timeline_entry phases release_date current week
        :: timeline_loop fuel' phases release_date
             (Z.min (current + days 7) release_date) (week + 1)
      else []
  end.

(** The number of rounds the loop makes: each but the last advances
    [current] by seven days. *)
Definition timeline_rounds (start_date release_date : datetime) : nat :=
  Z.to_nat ((release_date - start_date + days 7 - 1) / days 7).

Definition timeline_weeks (phases : list Phase)
    (start_date release_date : datetime) : list TimelineWeek :=
  timeline_loop (timeline_rounds start_date release_date) phases release_date
    start_date 1.

(** [_create_timeline]. *)
Definition _create_timeline (phases : list Phase)
    (start_date release_date : datetime) : result (list TimelineWeek) :=
  timeline_while (timeline_rounds start_date release_date) phases
    release_date start_date 1.

(** ** Channels *)

(** [_recommend_channels]: tiers A, B and C in turn. *)
Definition _recommend_channels (ranked : list RegionScore) : list ChannelPlan :=
  [ {| ch_regions := region <$> in_tier TierA ranked;
       channels :=
         ["TV spots (prime time)"; "YouTube pre-roll"; "Instagram/Facebook ads";
          "Outdoor billboards (major cities)"; "Influencer partnerships";
          "Podcast sponsorships"];
       investment_level := "High" |};
    {| ch_regions := region <$> in_tier TierB ranked;
       channels :=
         ["Digital video ads"; "Social media ads"; "Streaming platform ads";
          "Local radio spots"];
       investment_level := "Medium" |};
    {| ch_regions := region <$> in_tier TierC ranked;
       channels :=
         ["Social media organic"; "Display ads"; "Email campaigns";
          "Search engine marketing"];
       investment_level := "Low-Medium" |} ].

(** ** Milestones *)

Definition LAUNCH : string := "Campaign Launch".
Definition TRAILER : string := "Official Trailer Release".
Definition PRESALES : string := "Ticket Pre-Sales Open".
Definition PREMIERE : string := "World Premiere".
Definition RELEASE_DAY : string := "RELEASE DAY".

Definition milestone_if (cond : bool) (m : Milestone) : list Milestone :=
  if cond then [m] else [].

(** Lines 370-411: the milestones in the order they are appended. The
    three subtractions are made whatever the campaign length, and each can
    leave the range of [datetime]. The name of the last milestone is
    written without its leading pictograph. *)
Definition milestone_list (start_date release_date : datetime)
    : result (list Milestone) :=
  let launch :=
    {| ms_date := toordinal start_date; milestone := LAUNCH;
       description := "Teaser release, social media kickoff" |} in
  trailer_date ← dt_sub release_date (weeks 4);
  let trailer :=
    milestone_if (start_date <? trailer_date)
      {| ms_date := toordinal trailer_date; milestone := TRAILER;
         description := "Major media push, paid amplification" |} in
  presale_date ← dt_sub release_date (weeks 2);
  let presale :=
    milestone_if (start_date <? presale_date)
      {| ms_date := toordinal presale_date; milestone := PRESALES;
         description := "Drive early bookings, create urgency" |} in
  premiere_date ← dt_sub release_date (weeks 1);
  let premiere :=
    milestone_if (start_date <? premiere_date)
      {| ms_date := toordinal premiere_date; milestone := PREMIERE;
         description := "Red carpet event, press coverage, reviews" |} in
  let release :=
    {| ms_date := toordinal release_date; milestone := RELEASE_DAY;
       description := "Full availability, maximize opening weekend" |} in
  mret ([launch] ++ trailer ++ presale ++ premiere ++ [release]).

(** [_generate_milestones]: line 413 sorts the milestones by the text of
    their date. *)
Definition _generate_milestones (start_date release_date : datetime)
    : result (list Milestone) :=
  milestones ← milestone_list start_date release_date;
  mret (sorted_by
          (fun x y => str_leb (date_text (ms_date x)) (date_text (ms_date y)))
          milestones).

(** The milestones in the order of their days, which is the order of the
    texts among days of four-digit years ([date_text_leb]). *)
Definition milestones_by_day (start_date release_date : datetime)
    : result (list Milestone) :=
  milestones ← milestone_list start_date release_date;
  mret (sorted_by (fun x y => ms_date x <=? ms_date y) milestones).

(** ** The plan *)

Section Planner.

Variable float_of_str : string -> option Q.
Variable int_of_str : string -> option Z.

(** Modelled from the spec: [RegionalScorer.compare_regions] of
    [analyzers/regional_scorer.py], which is not part of the sources at
    hand. The spec describes it as the region ranking provider that, for
    a mapping of region codes to metrics, returns the ranked sequence of
    region scores and the recommendations. *)
Variable compare_regions : gmap string (gmap string PyVal) -> Comparison.

(** [_extract_movie_signature] (lines 543-634) builds the positioning
    text from the title, genres, cast, directors and tagline of the
    profile, or raises on a profile whose entries are not of the types it
    handles (a genre that is a number has no [lower], line 580). No date,
    count or amount depends on that text. *)
Variable _extract_movie_signature :
  option (gmap string PyVal) -> result MovieSignature.

(** Lines 44-47. [now] is the reading of [datetime.now()] in the
    handler. *)
Definition parse_release_date (release_date : string) (now : datetime)
    : result datetime :=
  match Calendar.strptime release_date with
  | Some release_dt => Ok release_dt
  | None => dt_add now (days 60)
  end.

(** Lines 37-40. *)
Definition comparison_of
    (regional_data : option (gmap string (gmap string PyVal)))
    (precomputed_comparison : option Comparison) : Comparison :=
  let regional_payload := default ∅ regional_data in
  default (compare_regions regional_payload) precomputed_comparison.

(** Lines 51-57. *)
Definition planning_parameters_of (comparison : Comparison)
    (budget_total : option Q) (campaign_weeks : option Z)
    (movie_profile : option (gmap string PyVal))
    (release_dt now : datetime) : CampaignParameters :=
  _derive_campaign_parameters float_of_str int_of_str
    (default ∅ movie_profile) comparison budget_total campaign_weeks
    release_dt now.

(** Lines 51-57, when the call raises. *)
Definition planning_parameters_raise (budget_total : option Q)
    (movie_profile : option (gmap string PyVal)) : result unit :=
  if parameters_overflow int_of_str (default ∅ movie_profile) budget_total
  then Raise OverflowError
  else Ok tt.

(** [create_rollout_plan]. [now0] is the clock reading of line 47 and
    [now1] the one of line 440. *)
Definition create_rollout_plan
    (regional_data : option (gmap string (gmap string PyVal)))
    (release_date : string) (budget_total : option Q)
    (campaign_weeks : option Z)
    (movie_profile : option (gmap string PyVal))
    (precomputed_comparison : option Comparison)
    (now0 now1 : datetime) : result Plan :=
  let comparison := comparison_of regional_data precomputed_comparison in
  let ranked_regions := ranked_regions comparison in
  release_dt ← parse_release_date release_date now0;
  movie_signature ← _extract_movie_signature movie_profile;
  _ ← planning_parameters_raise budget_total movie_profile;
  let planning_parameters :=
    planning_parameters_of comparison budget_total campaign_weeks
      movie_profile release_dt now1 in
  let budget_total := cp_total_budget planning_parameters in
  let campaign_weeks := cp_campaign_weeks planning_parameters in
  span ← timedelta_weeks campaign_weeks;
  campaign_start ← dt_sub release_dt span;
  let phases :=
    _create_phases ranked_regions campaign_start release_dt movie_signature
      campaign_weeks in
  let budget_allocation :=
    _allocate_budget ranked_regions (inject_Z budget_total) in
  timeline ← _create_timeline phases campaign_start release_dt;
  let channels := _recommend_channels ranked_regions in
  key_milestones ← _generate_milestones campaign_start release_dt;
  mret
    {| campaign_overview :=
         {| release_date := release_date;
            campaign_start := toordinal campaign_start;
            ov_duration_weeks := campaign_weeks;
            ov_total_budget := budget_total;
            target_regions := length ranked_regions;
            movie_positioning := movie_signature |};
       phases := phases;
       budget_allocation := budget_allocation;
       timeline := timeline;
       channel_strategy := channels;
       key_milestones := key_milestones;
       plan_recommendations := recommendations comparison;
       plan_logic := cp_logic planning_parameters |}.

End Planner.

(** ** The documented behaviour, in the words of the specification *)

Module Spec.

Definition clamp (x lo hi : Z) : Z := Z.max lo (Z.min x hi).

Definition bonus (b : bool) : Z := if b then 1 else 0.

(** "Base weeks = clamp(release_gap_weeks, 4, 16) if gap > 0, else a
    fixed 6; +1 if popularity >= 70, +1 if the count of Tier-A regions
    >= 3, +1 if production budget >= 150,000,000; finally clamped to
    [4, 16]. An override is used verbatim, clamped to >= 1 week." *)
Definition campaign_weeks (override : option Z) (release_gap_weeks : Z)
    (popularity : Q) (tier_a_count : nat) (production_budget : Q) : Z :=
  match override with
  | Some w => Z.max 1 w
  | None =>
      let base :=
        if 0 <? release_gap_weeks then clamp release_gap_weeks 4 16 else 6 in
      clamp
        (base + bonus (Qle_bool 70 popularity)
         + bonus (3 <=? tier_a_count)%nat
         + bonus (Qle_bool 150000000 production_budget))
        4 16
  end.

(** "Tier A weight = 40 + min(region_count x 4, 20); Tier B = 30 +
    min(region_count x 3, 15); Tier C = 20 + min(region_count x 2, 10)." *)
Definition weight (t : Tier) (region_count : nat) : Z :=
  match t with
  | TierA => 40 + Z.min (Z.of_nat region_count * 4) 20
  | TierB => 30 + Z.min (Z.of_nat region_count * 3) 15
  | TierC => 20 + Z.min (Z.of_nat region_count * 2) 10
  end.

Definition has_regions (ranked : list RegionScore) (t : Tier) : bool :=
  match in_tier t ranked with
  | [] => false
  | _ => true
  end.

(** The tiers with at least one region, in A, B, C order. *)
Definition present (ranked : list RegionScore) : list Tier :=
  List.filter (has_regions ranked) [TierA; TierB; TierC].

Definition tier_weight (ranked : list RegionScore) (t : Tier) : Z :=
  weight t (length (in_tier t ranked)).

Definition total_weight (ranked : list RegionScore) : Z :=
  foldr Z.add 0 (tier_weight ranked <$> present ranked).

(** A tier's weight as a rounded percentage of the total weight. *)
Definition share (ranked : list RegionScore) (t : Tier) : Z :=
  Py.round
    (inject_Z (tier_weight ranked t) / inject_Z (total_weight ranked) * 100).

(** "... with the remainder assigned to the last present tier". *)
Fixpoint with_remainder (shares : list Z) (remainder : Z) : list Z :=
  match shares with
  | [] => []
  | [_] => [remainder]
  | s :: rest => s :: with_remainder rest (remainder - s)
  end.

Definition percentages (ranked : list RegionScore) : list Z :=
  with_remainder (share ranked <$> present ranked) 100.

Definition intensity_of (t : Tier) : Intensity :=
  match t with
  | TierA => High
  | TierB => Medium
  | TierC => Low
  end.

End Spec.

(** ** Sample inputs *)

Module Sample.

Fixpoint digits (acc : Z) (s : string) : option Z :=
  match s with
  | EmptyString => Some acc
  | String c s' => n ← Calendar.digit c; digits (10 * acc + n) s'
  end.

(** The conversions on plain decimal numerals. *)
Definition int_of_str (s : string) : option Z :=
  if String.eqb s "" then None else digits 0 s.

Definition float_of_str (s : string) : option Q :=
  inject_Z <$> int_of_str s.

(** A scorer that ranks nothing. *)
Definition compare_regions (_ : gmap string (gmap string PyVal))
    : Comparison :=
  {| ranked_regions := []; recommendations := [] |}.

(** The default positioning of [_extract_movie_signature]. *)
Definition positioning : MovieSignature :=
  {| sig_title := "This film";
     sig_primary_genre := "Event";
     sig_genre_focus := "cinematic spectacle";
     sig_hook := "Fan-favorite moments";
     sig_lead := "the ensemble cast";
     sig_tagline := "";
     sig_audience_callout := "fans" |}.

Definition signature (_ : option (gmap string PyVal))
    : result MovieSignature :=
  Ok positioning.

Definition score (r : string) (s : Q) (t : Tier) (p : Q) : RegionScore :=
  {| region := r; total_score := s; tier := t; suggested_budget_pct := p;
     recommendation := "" |}.

(** Two Tier-A markets, one Tier-B, one Tier-C. *)
Definition comparison : Comparison :=
  {| ranked_regions :=
       [score "US" 90 TierA 40; score "GB" 85 TierA 30;
        score "IN" 70 TierB 20; score "BR" 50 TierC 10];
     recommendations := [] |}.

(** Six markets with the same suggested share. *)
Definition six_regions : list RegionScore :=
  [score "US" 60 TierA 10; score "GB" 60 TierA 10; score "IN" 60 TierB 10;
   score "BR" 60 TierB 10; score "MX" 60 TierC 10; score "JP" 60 TierC 10].

(** 2024-02-01T12:00:00. *)
Definition now : datetime := midnight 738917 + 12 * 3600000000.

Definition plan (release_date : string) (budget_total : option Q)
    (campaign_weeks : option Z) (movie_profile : option (gmap string PyVal))
    (precomputed : option Comparison) : result Plan :=
  create_rollout_plan float_of_str int_of_str compare_regions signature
    None release_date budget_total campaign_weeks movie_profile precomputed
    now now.

End Sample.

(** ** Views used in the statements *)

(** The fields of a phase that the schedule and the budget split decide. *)
Definition phase_view (p : Phase) : Z * Intensity * list string * Z :=
  (ph_start_date p, intensity p, regions p, budget_percentage p).

(** Date and name of a milestone. *)
Definition milestone_view (m : Milestone) : Z * string :=
  (ms_date m, milestone m).

(** A milestone of the given name is in the list. *)
Definition has_milestone (ms : list Milestone) (name : string) : Prop :=
  exists m, m ∈ ms /\ milestone m = name.

(** What a week shows of the phases: nothing when none has started by its
    first day; otherwise the phase with the latest start date among those
    started, the later one of the list between phases starting together. *)
Definition shows_latest_started (phases : list Phase) (wk : TimelineWeek)
    : Prop :=
  ((forall p, p ∈ phases -> tw_start_date wk < ph_start_date p)
   /\ tw_phase wk = "Pre-campaign"
   /\ active_regions wk = []
   /\ tw_intensity wk = Low)
  \/ exists (j : nat) p,
       phases !! j = Some p
       /\ ph_start_date p <= tw_start_date wk
       /\ (forall (j' : nat) q,
             phases !! j' = Some q ->
             ph_start_date q <= tw_start_date wk ->
             ph_start_date q < ph_start_date p
             \/ (ph_start_date q = ph_start_date p /\ (j' <= j)%nat))
       /\ tw_phase wk = ph_name p
       /\ active_regions wk = regions p
       /\ tw_intensity wk = intensity p.

(** ** The factors of the budget, by name *)

(** Line 496. *)
Definition tier_factor_of (tier_a_count tier_b_count : nat) : Q :=
  (1 + inject_Z (Z.of_nat (Nat.min tier_a_count 4)) * 0.08
     + inject_Z (Z.of_nat (Nat.min tier_b_count 4)) * 0.03)%Q.

(** Line 500. *)
Definition interest_factor_of (interest_index : Q) : Q :=
  (1 + Py.max 0 (interest_index - 0.55) * 0.5)%Q.

(** Line 509. *)
Definition audience_factor_of (vote_count : Z) : Q :=
  (1 + Py.min (inject_Z vote_count / 50000) 1 * 0.15)%Q.

(** Lines 473-512: the budget before it is clamped and rounded. *)
Definition base_budget_of (production_budget popularity : Q)
    (tier_a_count tier_b_count : nat) (interest_index : Q) (vote_count : Z)
    : Q :=
  let baseline :=
    if Py.Qltb 0 production_budget
    then (production_budget * marketing_ratio_of production_budget)%Q
    else 350000%Q in
  let scaled :=
    (baseline * popularity_factor_of popularity
     * tier_factor_of tier_a_count tier_b_count
     * interest_factor_of interest_index)%Q in
  if vote_count =? 0 then scaled
  else (scaled * audience_factor_of vote_count)%Q.

(** The tier, start, length and regions of a phase, as scheduled. *)
Definition phase_schedule (p : Phase) : Intensity * Z * Z * list string :=
  (intensity p, ph_start_date p, duration_weeks p, regions p).

(** * Export pack

    A shallow embedding of the helpers of [ExportPackBuilder]
    ([src/utils/export_pack.py]) that choose what goes into the pack.
    The rendering of the rows and payloads ([csv.DictWriter],
    [json.dumps], [zipfile]) is not represented: a CSV file is the list of
    the rows handed to the writer, the storyboard the list of its frames.
    [campaign['rollout_plan']] is a plan of [create_rollout_plan], so its
    phases are [Phase] records with every key present. A call that raises
    returns [None]. Text is a string of bytes (UTF-8). *)

Module ExportPack.

(** ** Call to action *)

(** The texts [_cta_for_release] returns. [Coming m d] is
    [f"Coming {release.strftime('%b %d')}"] for a release in month [m], on
    day [d] of the month. *)
Inductive Cta : Set :=
| LearnMore
| WatchNow
| GetTickets
| Coming (month day : Z).

(** [_cta_for_release] (lines 324-338). [now] is the reading of
    [datetime.now()]. A value that is not text makes [strptime] raise
    [TypeError], text that is not a date [ValueError]: both are caught. *)
Definition _cta_for_release (release_date : PyVal) (now : datetime) : Cta :=
  if negb (truthy release_date) then LearnMore
  else
    match release_date with
    | PStr s =>
        match Calendar.strptime s, Calendar.match_ymd (list_ascii_of_string s) with
        | Some release, Some (_, m, d) =>
            if release <=? now then WatchNow
            else if td_days (release - now) <=? 21 then GetTickets
            else Coming m d
        | _, _ => GetTickets
        end
    | _ => GetTickets
    end.

(** The [cta] of [_email_markdown] (lines 123 and 127). *)
Definition _email_markdown_cta (movie : gmap string PyVal) (now : datetime)
    : Cta :=
  let release_date :=
    py_or (default PNone (movie !! "release_date")) (PStr "TBD") in
  _cta_for_release release_date now.

(** The call to action of [_thumbnail_brief_markdown] (line 229). *)
Definition _thumbnail_brief_cta (movie : gmap string PyVal) (now : datetime)
    : Cta :=
  _cta_for_release
    (py_or (default PNone (movie !! "release_date")) (PStr "")) now.

(** ** Metadata *)

(** The class [[A-Za-z0-9\\-_ ]] of line 289: the letters, the digits, the
    range from the backslash to the underscore, and the space. *)
Definition kept (c : ascii) : bool :=
  let n := N_of_ascii c in
  ((65 <=? n) && (n <=? 90) || (97 <=? n) && (n <=? 122)
   || (48 <=? n) && (n <=? 57) || (92 <=? n) && (n <=? 95) || (n =? 32))%N.

(** [str.isspace] on a character of ASCII text. *)
Definition isspace (c : ascii) : bool :=
  let n := N_of_ascii c in
  ((9 <=? n) && (n <=? 13) || (28 <=? n) && (n <=? 32))%N.

Fixpoint lstrip (s : list ascii) : list ascii :=
  match s with
  | c :: s' => if isspace c then lstrip s' else s
  | [] => []
  end.

Definition rstrip (s : list ascii) : list ascii := rev (lstrip (rev s)).

(** [s.strip()]. The whitespace outside ASCII is not stripped; line 289
    strips a text from which [re.sub] has removed it. *)
Definition strip (s : list ascii) : list ascii := rstrip (lstrip s).

(** [re.sub(r'[^A-Za-z0-9\\-_ ]+', '', title).strip()] *)
Definition safe_title_of (title : string) : string :=
  string_of_list_ascii
    (strip (List.filter kept (list_ascii_of_string title))).

(** [generated_at]: the value of the campaign, or the ISO text of
    [datetime.now()]. *)
Inductive Stamp : Type :=
| Given (v : PyVal)
| IsoNow (now : datetime).

Record Metadata : Type := {
  md_title : string;
  md_generated_at : Stamp;
  md_assets : list string
}.

(** [_metadata] (lines 286-304). [generated_at] is
    [self.campaign.get('generated_at')]. [re.sub] raises [TypeError] on a
    title that is not text. *)
Definition _metadata (movie : gmap string PyVal) (generated_at : PyVal)
    (now : datetime) : option Metadata :=
  match default (PStr "campaign") (movie !! "title") with
  | PStr title =>
      let safe_title := safe_title_of title in
      let generated_at :=
        if truthy generated_at then Given generated_at else IsoNow now in
      Some {| md_title := str_or safe_title "campaign";
              md_generated_at := generated_at;
              md_assets :=
                ["ad_copy_ab.csv"; "social_posts.csv"; "email_campaign.md";
                 "storyboard.json"; "thumbnail_brief.md"; "rollout_plan.csv";
                 "citations.json"] |}
  | _ => None
  end.

(** ** A/B ad copy *)

(** A row handed to the CSV writer of [_ad_copy_csv]. *)
Record AdRow : Type := {
  ad_label : string;
  ad_variant : PyVal;
  ad_length : PyVal;
  ad_platform : PyVal;
  ad_text : string
}.

(** [text.replace('\n', ' ')] *)
Definition replace_newlines (text : string) : string :=
  string_of_list_ascii
    ((fun c => if Ascii.eqb c "010" then " "%char else c)
       <$> list_ascii_of_string text).

Definition labels : list string := ["A"; "B"].

(** Lines 76-82; [replace] is an [AttributeError] on a text that is not a
    string. *)
Definition variant_row (label : string) (variant : gmap string PyVal)
    : option AdRow :=
  match default (PStr "") (variant !! "text") with
  | PStr text =>
      Some {| ad_label := label;
              ad_variant := default (PStr "") (variant !! "variant");
              ad_length := default (PStr "") (variant !! "length");
              ad_platform := default (PStr "") (variant !! "platform");
              ad_text := replace_newlines text |}
  | _ => None
  end.

(** Lines 87-93. *)
Definition placeholder_row (label : string) : AdRow :=
  {| ad_label := label;
     ad_variant := PStr "N/A";
     ad_length := PStr "N/A";
     ad_platform := PStr "";
     ad_text := "No variant generated" |}.

(** The loop [while written < 2] of lines 86-94. *)
Fixpoint placeholders (fuel : nat) (written : nat) : list AdRow :=
  match fuel with
  | O => []
  | S fuel' =>
      if (written <? 2)%nat
      then placeholder_row (default "" (labels !! written))
             :: placeholders fuel' (S written)
      else []
  end.

(** The rows of [_ad_copy_csv] (lines 68-94) after the header, for the
    lists [ad_copy['variants']] and [ad_copy['ai_enhanced_variants']] of
    dicts. *)
Definition _ad_copy_csv (base_variants ai_variants : list (gmap string PyVal))
    : option (list AdRow) :=
  let combined := base_variants ++ ai_variants in
  rows ← mapM (fun '(label, variant) => variant_row label variant)
            (zip labels (take 2 combined));
  let written := length rows in
  Some (rows ++ placeholders 2 written).

(** ** Storyboard *)

(** [_visual_direction] (lines 315-322). *)
Definition palette : list string :=
  ["High-energy montage of hero shots";
   "Character close-up with moody lighting";
   "World-building wide shot with typography overlay";
   "Fan/community oriented collage"].

Definition _visual_direction (idx : Z) : string :=
  default "" (palette !! Z.to_nat ((idx - 1) mod Z.of_nat (length palette))).

(** The [copy] of a frame: the focus of the phase, or
    [f"Highlight why {title} is a must-see."]. *)
Inductive Copy : Type :=
| Focus (text : string)
| Highlight (title : PyVal).

Record Frame : Type := {
  frame : Z;
  fr_title : string;
  fr_visual_direction : string;
  fr_copy : Copy;
  fr_cta : string;
  fr_start_date : option Z;
  fr_regions : list string;
  fr_intensity : option Intensity
}.

(** Lines 192-201. [start_date] is [None] and [intensity] is [None] (the
    text ['']) for a phase dict without these keys. *)
Definition frame_of (title : PyVal) (idx : Z) (name focus : string)
    (start_date : option Z) (regions : list string)
    (intensity : option Intensity) : Frame :=
  {| frame := idx;
     fr_title := name;
     fr_visual_direction := _visual_direction idx;
     fr_copy := if String.eqb focus "" then Highlight title else Focus focus;
     fr_cta := if 2 <=? idx then "Get tickets" else "Watch the trailer";
     fr_start_date := start_date;
     fr_regions := regions;
     fr_intensity := intensity |}.

(** [enumerate(phases, start=idx)] into frames. *)
Fixpoint frames_from (title : PyVal) (idx : Z) (phases : list Phase)
    : list Frame :=
  match phases with
  | [] => []
  | p :: rest =>
      frame_of title idx (ph_name p) (focus p) (Some (ph_start_date p))
        (regions p) (Some (intensity p))
      :: frames_from title (idx + 1) rest
  end.

(** The frames of [_storyboard_json] (lines 180-201). [phases] is
    [self.rollout.get('phases', [])] and [target_regions] is
    [regional_analysis.target_regions] of the campaign. *)
Definition _storyboard_json (movie : gmap string PyVal) (phases : list Phase)
    (target_regions : list string) : list Frame :=
  let title := default (PStr "This Film") (movie !! "title") in
  match phases with
  | [] =>
      [frame_of title 1 "Teaser Drop"
         "Intro hero moments & release date reveal" None target_regions None]
  | _ => frames_from title 1 (take 4 phases)
  end.

End ExportPack.


(** * Verification *)

Module PyFacts.

Lemma Qltb_lt (x y : Q) : Py.Qltb x y = true <-> (x < y)%Q.
Proof.
  unfold Py.Qltb. rewrite negb_true_iff, <- not_true_iff_false, Qle_bool_iff.
  split; [apply Qnot_le_lt | apply Qlt_not_le].
Qed.

Lemma Qltb_ge (x y : Q) : Py.Qltb x y = false <-> (y <= x)%Q.
Proof.
  unfold Py.Qltb. rewrite negb_false_iff. apply Qle_bool_iff.
Qed.

Lemma min_spec (a b : Q) :
  (Py.min a b <= a)%Q /\ (Py.min a b <= b)%Q /\
  (Py.min a b == a \/ Py.min a b == b)%Q.
Proof.
  unfold Py.min. destruct (Py.Qltb b a) eqn:E.
  - apply Qltb_lt in E. repeat split; lra.
  - apply Qltb_ge in E. repeat split; lra.
Qed.

Lemma max_spec (a b : Q) :
  (a <= Py.max a b)%Q /\ (b <= Py.max a b)%Q /\
  (Py.max a b == a \/ Py.max a b == b)%Q.
Proof.
  unfold Py.max. destruct (Py.Qltb a b) eqn:E.
  - apply Qltb_lt in E. repeat split; lra.
  - apply Qltb_ge in E. repeat split; lra.
Qed.

(** Clamping as the source writes it: [max(lo, min(x, hi))]. *)
Lemma clamp_bounds (lo hi x : Q) :
  (lo <= hi)%Q ->
  (lo <= Py.max lo (Py.min x hi) <= hi)%Q.
Proof.
  intros Hlh.
  destruct (max_spec lo (Py.min x hi)) as (H1 & H2 & [H3 | H3]);
    destruct (min_spec x hi) as (H4 & H5 & H6); split; lra.
Qed.

Lemma round_floor (x : Q) : Qfloor x <= Py.round x <= Qfloor x + 1.
Proof.
  unfold Py.round. destruct (_ ?= _)%Q; [destruct (Z.even _) | |]; lia.
Qed.

(** [round] stays within half a unit of its argument. *)
Lemma round_error (x : Q) :
  (x - (1 # 2) <= inject_Z (Py.round x) <= x + (1 # 2))%Q.
Proof.
  pose proof (Qfloor_le x) as Hlo. pose proof (Qlt_floor x) as Hhi.
  rewrite inject_Z_plus in Hhi. change (inject_Z 1) with 1%Q in Hhi.
  unfold Py.round.
  destruct (x - inject_Z (Qfloor x) ?= 1 # 2)%Q eqn:E;
    [apply Qeq_alt in E; destruct (Z.even _)
    | apply Qlt_alt in E | apply Qgt_alt in E];
    rewrite ?inject_Z_plus; change (inject_Z 1) with 1%Q; split; lra.
Qed.

Lemma round_ge (a : Z) (x : Q) : (inject_Z a <= x)%Q -> a <= Py.round x.
Proof.
  intros H. apply Qfloor_resp_le in H. rewrite Qfloor_Z in H.
  pose proof (round_floor x). lia.
Qed.

Lemma round_le (b : Z) (x : Q) : (x <= inject_Z b)%Q -> Py.round x <= b.
Proof.
  intros H. pose proof (Qfloor_le x) as Hlo.
  unfold Py.round.
  destruct (x - inject_Z (Qfloor x) ?= 1 # 2)%Q eqn:E.
  - apply Qeq_alt in E.
    assert (inject_Z (Qfloor x) < inject_Z b)%Q as Hlt by lra.
    rewrite <- Zlt_Qlt in Hlt. destruct (Z.even _); lia.
  - assert (inject_Z (Qfloor x) <= inject_Z b)%Q as Hle by lra.
    rewrite <- Zle_Qle in Hle. lia.
  - apply Qgt_alt in E.
    assert (inject_Z (Qfloor x) < inject_Z b)%Q as Hlt by lra.
    rewrite <- Zlt_Qlt in Hlt. lia.
Qed.

End PyFacts.
Lemma finalize_budget_range (base_budget : Q) :
  250000 <= finalize_budget base_budget <= 20000000
  /\ (50000 | finalize_budget base_budget).
Proof.
  unfold finalize_budget.
  set (c := Py.max 250000 (Py.min base_budget 20000000)).
  assert (250000 <= c <= 20000000)%Q as [Hlo Hhi]
    by (apply PyFacts.clamp_bounds; lra).
  assert (5 <= Py.round (c / 50000)) as H5.
  { apply PyFacts.round_ge. change (inject_Z 5) with 5%Q.
    apply Qle_shift_div_l; lra. }
  assert (Py.round (c / 50000) <= 400) as H400.
  { apply PyFacts.round_le. change (inject_Z 400) with 400%Q.
    apply Qle_shift_div_r; lra. }
  rewrite Z.max_r by lia. split; [lia |].
  exists (Py.round (c / 50000)). reflexivity.
Qed.

Lemma derive_duration_spec (override : option Z) (gap : Z) (popularity : Q)
    (tier_a_count : nat) (production_budget : Q) :
  (derive_duration override gap popularity tier_a_count production_budget).1
  = Spec.campaign_weeks override gap popularity tier_a_count production_budget.
Proof.
  unfold derive_duration, Spec.campaign_weeks, Spec.clamp, Spec.bonus.
  destruct override as [w |]; [reflexivity |].
  destruct (0 <? gap), (Qle_bool 70 popularity), (3 <=? tier_a_count)%nat,
    (Qle_bool 150000000 production_budget); simpl; lia.
Qed.

Lemma derive_duration_range (gap : Z) (popularity : Q) (tier_a_count : nat)
    (production_budget : Q) :
  4 <= (derive_duration None gap popularity tier_a_count production_budget).1
    <= 16.
Proof.
  rewrite derive_duration_spec. unfold Spec.campaign_weeks, Spec.clamp. lia.
Qed.

Section DeriveFacts.

Variable float_of_str : string -> option Q.
Variable int_of_str : string -> option Z.

Lemma derive_budget_None mp popularity production_budget na nb ii :
  exists base_budget,
    (derive_budget int_of_str mp None popularity production_budget na nb ii).1
    = finalize_budget base_budget.
Proof.
  unfold derive_budget.
  destruct (Py.Qltb 0 production_budget); cbn zeta;
    destruct (profile_vote_count int_of_str mp =? 0); eauto.
Qed.

Lemma derive_weeks mp cmp ob od release_dt now :
  cp_campaign_weeks
    (_derive_campaign_parameters float_of_str int_of_str mp cmp ob od
       release_dt now)
  = (derive_duration od (release_gap_weeks_of release_dt now)
       (profile_popularity float_of_str mp)
       (length (in_tier TierA (ranked_regions cmp)))
       (profile_production_budget float_of_str mp)).1.
Proof.
  unfold _derive_campaign_parameters.
  destruct (derive_duration _ _ _ _ _), (derive_budget _ _ _ _ _ _ _ _).
  reflexivity.
Qed.

Lemma derive_budget_total mp cmp ob od release_dt now :
  cp_total_budget
    (_derive_campaign_parameters float_of_str int_of_str mp cmp ob od
       release_dt now)
  = (derive_budget int_of_str mp ob (profile_popularity float_of_str mp)
       (profile_production_budget float_of_str mp)
       (length (in_tier TierA (ranked_regions cmp)))
       (length (in_tier TierB (ranked_regions cmp)))
       (interest_index_of (ranked_regions cmp))).1.
Proof.
  unfold _derive_campaign_parameters.
  destruct (derive_duration _ _ _ _ _), (derive_budget _ _ _ _ _ _ _ _).
  reflexivity.
Qed.

(** Without overrides the derived weeks and budget are in range. *)
Lemma derived_parameters_range mp cmp release_dt now :
  let p :=
    _derive_campaign_parameters float_of_str int_of_str mp cmp None None
      release_dt now in
  4 <= cp_campaign_weeks p <= 16
  /\ 250000 <= cp_total_budget p <= 20000000
  /\ (50000 | cp_total_budget p).
Proof.
  cbv zeta. rewrite derive_weeks, derive_budget_total. split.
  - apply derive_duration_range.
  - destruct (derive_budget_None mp (profile_popularity float_of_str mp)
                (profile_production_budget float_of_str mp)
                (length (in_tier TierA (ranked_regions cmp)))
                (length (in_tier TierB (ranked_regions cmp)))
                (interest_index_of (ranked_regions cmp))) as [b ->].
    apply finalize_budget_range.
Qed.

End DeriveFacts.
(** ** Dates *)

Lemma US_PER_DAY_pos : 0 < US_PER_DAY.
Proof. reflexivity. Qed.

Lemma toordinal_add_days (t : datetime) (n : Z) :
  toordinal (t + days n) = toordinal t + n.
Proof.
  unfold toordinal, days. rewrite Z.div_add by discriminate. lia.
Qed.

Lemma toordinal_sub_weeks (t : datetime) (w : Z) :
  toordinal (t - weeks w) = toordinal t - 7 * w.
Proof.
  unfold weeks. replace (t - days (7 * w)) with (t + days (- (7 * w)))
    by (unfold days; lia).
  rewrite toordinal_add_days. lia.
Qed.

Lemma toordinal_add_weeks (t : datetime) (w : Z) :
  toordinal (t + weeks w) = toordinal t + 7 * w.
Proof. unfold weeks. apply toordinal_add_days. Qed.

(** Midnight of day [d] is not after [t] exactly when [d] is not after the
    day of [t]. *)
Lemma midnight_le (d : Z) (t : datetime) :
  midnight d <= t <-> d <= toordinal t.
Proof.
  unfold midnight, toordinal, US_PER_DAY.
  pose proof (Z.div_mod t 86400000000 ltac:(lia)).
  pose proof (Z.mod_pos_bound t 86400000000 ltac:(lia)).
  lia.
Qed.

Lemma td_days_weeks (w : Z) : td_days (weeks w) = 7 * w.
Proof.
  unfold td_days, weeks, days. apply Z.div_mul. discriminate.
Qed.

Lemma timedelta_weeks_Ok (w : Z) (span : timedelta) :
  timedelta_weeks w = Ok span -> span = weeks w.
Proof.
  unfold timedelta_weeks. destruct (_ <=? _); congruence.
Qed.

Lemma timedelta_weeks_Ok_inv (w : Z) (span : timedelta) :
  timedelta_weeks w = Ok span -> Z.abs (7 * w) <= MAX_DELTA_DAYS.
Proof.
  unfold timedelta_weeks. destruct (Z.leb_spec (Z.abs (7 * w)) MAX_DELTA_DAYS);
    [intros _; assumption | discriminate].
Qed.

Lemma dt_sub_Ok (t : datetime) (d : timedelta) (r : datetime) :
  dt_sub t d = Ok r -> r = t - d /\ 0 <= r < MAX_ORDINAL * US_PER_DAY.
Proof.
  unfold dt_sub, datetime_ok. intros H.
  destruct (_ && _) eqn:E; [| discriminate].
  injection H as <-. apply andb_true_iff in E as [H1 H2]. lia.
Qed.

Lemma dt_sub_Ok_intro (t : datetime) (d : timedelta) :
  0 <= t - d < MAX_ORDINAL * US_PER_DAY -> dt_sub t d = Ok (t - d).
Proof.
  intros H. unfold dt_sub, datetime_ok.
  replace (_ && _) with true; [reflexivity |].
  symmetry. apply andb_true_iff. lia.
Qed.

(** ** A parsed date is a date of the calendar *)

Lemma digit_range (c : ascii) (n : Z) :
  Calendar.digit c = Some n -> 0 <= n <= 9.
Proof.
  unfold Calendar.digit. destruct (_ && _) eqn:E; [| discriminate].
  intros [= <-]. apply andb_true_iff in E as [H1 H2]. lia.
Qed.

Lemma in_range_spec (c : ascii) (lo hi n : Z) :
  Calendar.in_range c lo hi = Some n -> lo <= n <= hi.
Proof.
  unfold Calendar.in_range. destruct (Calendar.digit c); [| discriminate].
  destruct (_ && _) eqn:E; [| discriminate].
  intros [= <-]. apply andb_true_iff in E as [H1 H2]. lia.
Qed.

Lemma month_token_range (s rest : list ascii) (m : Z) :
  Calendar.month_token s = Some (m, rest) -> 1 <= m <= 12.
Proof.
  unfold Calendar.month_token.
  destruct s as [| c1 [| c2 r]]; try discriminate.
  destruct (Ascii.eqb c2 "-").
  - destruct (Calendar.in_range c1 1 9) eqn:E; [| discriminate].
    intros [= <- _]. apply in_range_spec in E. lia.
  - destruct r as [| c3 r']; [discriminate |].
    destruct (negb _); [discriminate |].
    destruct (Ascii.eqb c1 "1"); [| destruct (Ascii.eqb c1 "0")];
      try discriminate.
    + destruct (Calendar.in_range c2 0 2) eqn:E; [| discriminate].
      intros [= <- _]. apply in_range_spec in E. lia.
    + destruct (Calendar.in_range c2 1 9) eqn:E; [| discriminate].
      intros [= <- _]. apply in_range_spec in E. lia.
Qed.

Lemma day_token_range (s : list ascii) (d : Z) :
  Calendar.day_token s = Some d -> 1 <= d <= 31.
Proof.
  unfold Calendar.day_token.
  destruct s as [| c1 [| c2 [| c3 r]]]; try discriminate.
  - intros E. apply in_range_spec in E. lia.
  - destruct (Ascii.eqb c1 "3"); [| destruct (_ || _)].
    + destruct (Calendar.in_range c2 0 1) eqn:E; [| discriminate].
      intros [= <-]. apply in_range_spec in E. lia.
    + intros E. apply in_range_spec in E. lia.
    + destruct (Calendar.in_range c1 1 2) eqn:E1; [| discriminate].
      destruct (Calendar.digit c2) eqn:E2; [| discriminate].
      intros [= <-]. apply in_range_spec in E1. apply digit_range in E2. lia.
Qed.

Lemma match_ymd_range (s : list ascii) (y m d : Z) :
  Calendar.match_ymd s = Some (y, m, d) ->
  0 <= y <= 9999 /\ 1 <= m <= 12 /\ 1 <= d <= 31.
Proof.
  unfold Calendar.match_ymd.
  destruct s as [| y1 [| y2 [| y3 [| y4 [| dash rest]]]]]; try discriminate.
  destruct (negb _); [discriminate |].
  destruct (Calendar.digit y1) as [a |] eqn:Ea; [| discriminate].
  destruct (Calendar.digit y2) as [b |] eqn:Eb; [| discriminate].
  destruct (Calendar.digit y3) as [c |] eqn:Ec; [| discriminate].
  destruct (Calendar.digit y4) as [e |] eqn:Ee; [| discriminate].
  cbn [mbind option_bind].
  destruct (Calendar.month_token rest) as [[m' rest'] |] eqn:Em;
    [| discriminate].
  cbn [mbind option_bind].
  destruct (Calendar.day_token rest') as [d' |] eqn:Ed; [| discriminate].
  intros [= <- <- <-].
  apply digit_range in Ea, Eb, Ec, Ee. apply month_token_range in Em.
  apply day_token_range in Ed. lia.
Qed.

Lemma days_before_month_bound (y m d : Z) :
  1 <= m <= 12 -> 1 <= d <= Calendar.days_in_month y m ->
  1 <= Calendar.days_before_month y m + d
    <= 365 + (if Calendar.is_leap y then 1 else 0).
Proof.
  intros Hm Hd.
  assert (m = 1 \/ m = 2 \/ m = 3 \/ m = 4 \/ m = 5 \/ m = 6 \/ m = 7
          \/ m = 8 \/ m = 9 \/ m = 10 \/ m = 11 \/ m = 12) as Hcases by lia.
  unfold Calendar.days_before_month.
  repeat destruct Hcases as [-> | Hcases]; try subst m;
    match goal with
    | |- context [Z.to_nat ?e] =>
        let v := eval vm_compute in (Z.to_nat e) in
        change (Z.to_nat e) with v
    end;
    cbv -[Calendar.is_leap Z.add Z.le] in Hd |- *;
    destruct (Calendar.is_leap y); lia.
Qed.

Lemma ymd2ord_range (y m d : Z) :
  1 <= y <= 9999 -> 1 <= m <= 12 -> 1 <= d <= Calendar.days_in_month y m ->
  1 <= Calendar.ymd2ord y m d <= MAX_ORDINAL.
Proof.
  intros Hy Hm Hd. pose proof (days_before_month_bound y m d Hm Hd) as Hb.
  unfold Calendar.ymd2ord, Calendar.days_before_year, MAX_ORDINAL.
  destruct (Z.eq_dec y 9999) as [-> | Hne].
  - change (Calendar.is_leap 9999) with false in Hb. cbv iota in Hb.
    cbv zeta.
    replace ((9999 - 1) * 365 + (9999 - 1) / 4 - (9999 - 1) / 100
             + (9999 - 1) / 400) with 3651694 by reflexivity.
    lia.
  - assert (y <= 9998) as Hy' by lia.
    assert (Calendar.days_before_month y m + d <= 366)
      by (destruct (Calendar.is_leap y); lia).
    cbv zeta. pose proof (Z.div_mod (y - 1) 4 ltac:(lia)).
    pose proof (Z.mod_pos_bound (y - 1) 4 ltac:(lia)).
    pose proof (Z.div_mod (y - 1) 100 ltac:(lia)).
    pose proof (Z.mod_pos_bound (y - 1) 100 ltac:(lia)).
    pose proof (Z.div_mod (y - 1) 400 ltac:(lia)).
    pose proof (Z.mod_pos_bound (y - 1) 400 ltac:(lia)).
    lia.
Qed.

Lemma strptime_valid (s : string) (t : datetime) :
  Calendar.strptime s = Some t -> 0 <= t < MAX_ORDINAL * US_PER_DAY.
Proof.
  unfold Calendar.strptime.
  destruct (Calendar.match_ymd _) as [[[y m] d] |] eqn:E; [| discriminate].
  cbn [mbind option_bind].
  destruct (_ && _) eqn:Ec; [| discriminate].
  intros [= <-]. apply andb_true_iff in Ec as [Hy Hd].
  apply match_ymd_range in E as (Hy' & Hm & Hd').
  pose proof (ymd2ord_range y m d ltac:(lia) Hm ltac:(lia)) as Ho.
  unfold midnight, MAX_ORDINAL, US_PER_DAY in *. lia.
Qed.

Lemma dt_add_Ok (t : datetime) (d : timedelta) (r : datetime) :
  dt_add t d = Ok r -> r = t + d /\ 0 <= r < MAX_ORDINAL * US_PER_DAY.
Proof.
  unfold dt_add, datetime_ok. intros H.
  destruct (_ && _) eqn:E; [| discriminate].
  injection H as <-. apply andb_true_iff in E as [H1 H2]. lia.
Qed.

Lemma parse_release_date_valid (release_date : string) (now t : datetime) :
  parse_release_date release_date now = Ok t ->
  0 <= t < MAX_ORDINAL * US_PER_DAY.
Proof.
  unfold parse_release_date.
  destruct (Calendar.strptime release_date) as [r |] eqn:E.
  - intros [= <-]. eapply strptime_valid. exact E.
  - intros H. apply dt_add_Ok in H. tauto.
Qed.

(** ** The date of a day *)

Lemma days_before_year_step (y : Z) :
  Calendar.days_before_year (y + 1)
  = Calendar.days_before_year y
    + 365 + (if Calendar.is_leap y then 1 else 0).
Proof.
  unfold Calendar.days_before_year, Calendar.is_leap. cbv zeta.
  replace (y + 1 - 1) with (y - 1 + 1) by lia.
  destruct (Z.eqb_spec (y mod 4) 0), (Z.eqb_spec (y mod 100) 0),
    (Z.eqb_spec (y mod 400) 0); cbn [andb orb negb];
    Z.div_mod_to_equations; lia.
Qed.

Lemma days_before_year_mono (y y' : Z) :
  y <= y' -> Calendar.days_before_year y <= Calendar.days_before_year y'.
Proof.
  unfold Calendar.days_before_year. cbv zeta. intros H.
  Z.div_mod_to_equations. lia.
Qed.

Lemma year_of_spec (n : Z) :
  1 <= n <= MAX_ORDINAL ->
  let y := year_of n in
  1 <= y <= 9999
  /\ 1 <= n - Calendar.days_before_year y
       <= 365 + (if Calendar.is_leap y then 1 else 0).
Proof.
  intros Hn. unfold MAX_ORDINAL in Hn. cbv zeta.
  unfold year_of, Calendar.days_before_year, Calendar.is_leap. cbv zeta.
  set (n400 := (n - 1) / 146097).
  set (r400 := (n - 1) mod 146097).
  set (n100 := r400 / 36524).
  set (r100 := r400 mod 36524).
  set (n4 := r100 / 1461).
  set (r4 := r100 mod 1461).
  set (n1 := r4 / 365).
  assert (n - 1 = 146097 * n400 + r400 /\ 0 <= r400 < 146097) as [E1 B1]
    by (subst n400 r400; Z.div_mod_to_equations; lia).
  assert (r400 = 36524 * n100 + r100 /\ 0 <= r100 < 36524) as [E2 B2]
    by (subst n100 r100; Z.div_mod_to_equations; lia).
  assert (r100 = 1461 * n4 + r4 /\ 0 <= r4 < 1461) as [E3 B3]
    by (subst n4 r4; Z.div_mod_to_equations; lia).
  assert (0 <= n1 <= 4 /\ 365 * n1 <= r4 < 365 * n1 + 365) as [B4 E4]
    by (subst n1; Z.div_mod_to_equations; lia).
  assert (0 <= n400 <= 24) as B5 by lia.
  assert (0 <= n100 <= 4) as B6 by lia.
  assert (0 <= n4 <= 24) as B7 by lia.
  clearbody n400 r400 n100 r100 n4 r4 n1.
  destruct (Z.eqb_spec n1 4) as [-> | N1]; cbn [orb].
  - replace (n400 * 400 + n100 * 100 + n4 * 4 + 4 + 1 - 1)
      with (400 * n400 + 100 * n100 + 4 * n4 + 4) by lia.
    set (y := 400 * n400 + 100 * n100 + 4 * n4 + 4).
    assert (y mod 4 = 0) as -> by (subst y; Z.div_mod_to_equations; lia).
    assert ((y - 1) / 4 = 100 * n400 + 25 * n100 + n4) as ->
      by (subst y; Z.div_mod_to_equations; lia).
    destruct (Z.eq_dec n100 4) as [-> | N100].
    + assert (r100 = 0) by lia. lia.
    + assert ((y - 1) / 100 = 4 * n400 + n100) as ->
        by (subst y; Z.div_mod_to_equations; lia).
      assert ((y - 1) / 400 = n400) as ->
        by (subst y; Z.div_mod_to_equations; lia).
      destruct (Z.eq_dec n4 24) as [-> | N4].
      * destruct (Z.eq_dec n100 3) as [-> | N3]; [| lia].
        assert (y mod 400 = 0) as ->
          by (subst y; Z.div_mod_to_equations; lia).
        rewrite orb_true_r. cbn [andb Z.eqb]. subst y. lia.
      * assert (y mod 100 <> 0)
          by (subst y; Z.div_mod_to_equations; lia).
        destruct (Z.eqb_spec (y mod 100) 0); [contradiction |].
        cbn [andb orb negb Z.eqb]. subst y. lia.
  - destruct (Z.eqb_spec n100 4) as [-> | N100]; cbn [orb].
    + assert (r100 = 0) by lia. assert (n4 = 0) by lia.
      assert (n1 = 0) by lia. subst.
      replace (n400 * 400 + 4 * 100 + 0 * 4 + 0 + 1 - 1)
        with (400 * n400 + 400) by lia.
      set (y := 400 * n400 + 400).
      assert (y mod 4 = 0) as -> by (subst y; Z.div_mod_to_equations; lia).
      assert (y mod 400 = 0) as ->
        by (subst y; Z.div_mod_to_equations; lia).
      rewrite orb_true_r. cbn [andb Z.eqb].
      assert ((y - 1) / 4 = 100 * n400 + 99) as ->
        by (subst y; Z.div_mod_to_equations; lia).
      assert ((y - 1) / 100 = 4 * n400 + 3) as ->
        by (subst y; Z.div_mod_to_equations; lia).
      assert ((y - 1) / 400 = n400) as ->
        by (subst y; Z.div_mod_to_equations; lia).
      subst y. lia.
    + replace (n400 * 400 + n100 * 100 + n4 * 4 + n1 + 1)
        with (400 * n400 + 100 * n100 + 4 * n4 + n1 + 1) by lia.
      set (y := 400 * n400 + 100 * n100 + 4 * n4 + n1 + 1).
      assert ((y - 1) / 4 = 100 * n400 + 25 * n100 + n4) as ->
        by (subst y; Z.div_mod_to_equations; lia).
      assert ((y - 1) / 100 = 4 * n400 + n100) as ->
        by (subst y; Z.div_mod_to_equations; lia).
      assert ((y - 1) / 400 = n400) as ->
        by (subst y; Z.div_mod_to_equations; lia).
      destruct (Z.eq_dec n1 3) as [-> | N3].
      * assert (y mod 4 = 0) as ->
          by (subst y; Z.div_mod_to_equations; lia).
        cbn [Z.eqb andb].
        destruct (Z.eq_dec n4 24) as [-> | N4].
        -- destruct (Z.eq_dec n100 3) as [-> | N3'].
           ++ assert (y mod 400 = 0) as ->
                by (subst y; Z.div_mod_to_equations; lia).
              rewrite orb_true_r. subst y. lia.
           ++ assert (y mod 100 = 0) as ->
                by (subst y; Z.div_mod_to_equations; lia).
              assert (y mod 400 <> 0)
                by (subst y; Z.div_mod_to_equations; lia).
              destruct (Z.eqb_spec (y mod 400) 0); [contradiction |].
              cbn [Z.eqb negb orb]. subst y. lia.
        -- assert (y mod 100 <> 0)
             by (subst y; Z.div_mod_to_equations; lia).
           destruct (Z.eqb_spec (y mod 100) 0); [contradiction |].
           cbn [negb orb]. subst y. lia.
      * assert (y mod 4 <> 0) by (subst y; Z.div_mod_to_equations; lia).
        destruct (Z.eqb_spec (y mod 4) 0); [contradiction |].
        cbn [andb]. subst y. lia.
Qed.

Lemma days_before_month_values (y : Z) :
  let leap := if Calendar.is_leap y then 1 else 0 in
  Calendar.days_before_month y 1 = 0
  /\ Calendar.days_before_month y 2 = 31
  /\ Calendar.days_before_month y 3 = 59 + leap
  /\ Calendar.days_before_month y 4 = 90 + leap
  /\ Calendar.days_before_month y 5 = 120 + leap
  /\ Calendar.days_before_month y 6 = 151 + leap
  /\ Calendar.days_before_month y 7 = 181 + leap
  /\ Calendar.days_before_month y 8 = 212 + leap
  /\ Calendar.days_before_month y 9 = 243 + leap
  /\ Calendar.days_before_month y 10 = 273 + leap
  /\ Calendar.days_before_month y 11 = 304 + leap
  /\ Calendar.days_before_month y 12 = 334 + leap.
Proof.
  cbv zeta. unfold Calendar.days_before_month.
  repeat match goal with
         | |- context [Z.to_nat ?e] =>
             let v := eval vm_compute in (Z.to_nat e) in
             change (Z.to_nat e) with v
         end.
  cbv -[Calendar.is_leap Z.add]. destruct (Calendar.is_leap y); repeat split.
Qed.

Ltac each_month m :=
  let rec go k :=
    lazymatch k with
    | 13 => exfalso; lia
    | _ =>
        let k' := eval vm_compute in (k + 1) in
        destruct (Z.eq_dec m k) as [-> | ?]; [| go k']
    end in
  go 1.

Lemma days_in_month_values (y m : Z) :
  1 <= m <= 12 ->
  Calendar.days_before_month y m + Calendar.days_in_month y m
  = if m =? 12 then 365 + (if Calendar.is_leap y then 1 else 0)
    else Calendar.days_before_month y (m + 1).
Proof.
  intros Hm.
  destruct (days_before_month_values y)
    as (E1 & E2 & E3 & E4 & E5 & E6 & E7 & E8 & E9 & E10 & E11 & E12).
  each_month m;
    unfold Calendar.days_in_month;
    cbn [Z.eqb Pos.eqb orb];
    try match goal with
        | |- context [Calendar.days_before_month y (?a + 1)] =>
            let v := eval vm_compute in (a + 1) in
            change (a + 1) with v
        end;
    destruct (Calendar.is_leap y); lia.
Qed.

Lemma month_upto_spec (y day_of_year : Z) :
  1 <= day_of_year <= 365 + (if Calendar.is_leap y then 1 else 0) ->
  let m := month_upto 11 y day_of_year in
  1 <= m <= 12
  /\ 1 <= day_of_year - Calendar.days_before_month y m
       <= Calendar.days_in_month y m.
Proof.
  intros Hd. cbv zeta.
  destruct (days_before_month_values y)
    as (E1 & E2 & E3 & E4 & E5 & E6 & E7 & E8 & E9 & E10 & E11 & E12).
  pose proof (days_in_month_values y 1 ltac:(lia)) as D1.
  pose proof (days_in_month_values y 2 ltac:(lia)) as D2.
  pose proof (days_in_month_values y 3 ltac:(lia)) as D3.
  pose proof (days_in_month_values y 4 ltac:(lia)) as D4.
  pose proof (days_in_month_values y 5 ltac:(lia)) as D5.
  pose proof (days_in_month_values y 6 ltac:(lia)) as D6.
  pose proof (days_in_month_values y 7 ltac:(lia)) as D7.
  pose proof (days_in_month_values y 8 ltac:(lia)) as D8.
  pose proof (days_in_month_values y 9 ltac:(lia)) as D9.
  pose proof (days_in_month_values y 10 ltac:(lia)) as D10.
  pose proof (days_in_month_values y 11 ltac:(lia)) as D11.
  pose proof (days_in_month_values y 12 ltac:(lia)) as D12.
  cbn [Z.eqb Pos.eqb] in D1, D2, D3, D4, D5, D6, D7, D8, D9, D10, D11, D12.
  change (1 + 1) with 2 in D1. change (2 + 1) with 3 in D2.
  change (3 + 1) with 4 in D3. change (4 + 1) with 5 in D4.
  change (5 + 1) with 6 in D5. change (6 + 1) with 7 in D6.
  change (7 + 1) with 8 in D7. change (8 + 1) with 9 in D8.
  change (9 + 1) with 10 in D9. change (10 + 1) with 11 in D10.
  change (11 + 1) with 12 in D11.
  unfold month_upto.
  repeat match goal with
         | |- context [Z.of_nat ?e] =>
             let v := eval vm_compute in (Z.of_nat e) in
             change (Z.of_nat e) with v
         end.
  repeat match goal with
         | |- context [Calendar.days_before_month y ?k <? day_of_year] =>
             destruct (Z.ltb_spec (Calendar.days_before_month y k)
                         day_of_year);
             [destruct (Calendar.is_leap y); lia |]
         end.
  destruct (Calendar.is_leap y); lia.
Qed.

Lemma ord2ymd_spec (n : Z) :
  1 <= n <= MAX_ORDINAL ->
  exists y m d,
    ord2ymd n = (y, m, d)
    /\ 1 <= y <= 9999 /\ 1 <= m <= 12
    /\ 1 <= d <= Calendar.days_in_month y m
    /\ Calendar.ymd2ord y m d = n.
Proof.
  intros Hn. destruct (year_of_spec n Hn) as [Hy Hd]. cbv zeta in *.
  destruct (month_upto_spec (year_of n) _ Hd) as [Hm Hdm]. cbv zeta in *.
  eexists _, _, _. split; [reflexivity |].
  split; [exact Hy |]. split; [exact Hm |]. split; [exact Hdm |].
  unfold Calendar.ymd2ord. lia.
Qed.

Lemma YEAR_1000_value : YEAR_1000 = 364878.
Proof. reflexivity. Qed.

Lemma year_of_1000 (n : Z) :
  1 <= n <= MAX_ORDINAL -> (1000 <= year_of n <-> YEAR_1000 <= n).
Proof.
  intros Hn. destruct (year_of_spec n Hn) as [Hy Hd]. cbv zeta in *.
  rewrite YEAR_1000_value.
  pose proof (days_before_year_step (year_of n)) as Hs.
  change 364878 with (Calendar.days_before_year 1000 + 1).
  split; intros H.
  - pose proof (days_before_year_mono 1000 (year_of n) H). lia.
  - destruct (Z.le_gt_cases 1000 (year_of n)) as [Hle | Hgt]; [exact Hle |].
    pose proof (days_before_year_mono (year_of n + 1) 1000 ltac:(lia)).
    destruct (Calendar.is_leap (year_of n)); lia.
Qed.

Lemma days_before_month_mono (y m m' : Z) :
  1 <= m -> m < m' -> m' <= 12 ->
  Calendar.days_before_month y m + Calendar.days_in_month y m
  <= Calendar.days_before_month y m'.
Proof.
  intros H1 H2 H3.
  destruct (days_before_month_values y)
    as (E1 & E2 & E3 & E4 & E5 & E6 & E7 & E8 & E9 & E10 & E11 & E12).
  pose proof (days_in_month_values y m ltac:(lia)) as D.
  each_month m; cbn [Z.eqb Pos.eqb] in D;
    try match type of D with
        | context [Calendar.days_before_month y (?a + 1)] =>
            let v := eval vm_compute in (a + 1) in
            change (a + 1) with v in D
        end;
    each_month m'; try lia; destruct (Calendar.is_leap y); lia.
Qed.

Lemma ymd2ord_lt (y1 m1 d1 y2 m2 d2 : Z) :
  1 <= m1 <= 12 -> 1 <= d1 <= Calendar.days_in_month y1 m1 ->
  1 <= m2 <= 12 -> 1 <= d2 <= Calendar.days_in_month y2 m2 ->
  ymd_leb (y2, m2, d2) (y1, m1, d1) = false ->
  Calendar.ymd2ord y1 m1 d1 < Calendar.ymd2ord y2 m2 d2.
Proof.
  intros Hm1 Hd1 Hm2 Hd2 H. unfold ymd_leb in H. unfold Calendar.ymd2ord.
  pose proof (days_before_month_bound y1 m1 d1 Hm1 Hd1) as B1.
  pose proof (days_before_month_bound y2 m2 d2 Hm2 Hd2) as B2.
  destruct (Z.ltb_spec y2 y1); [discriminate |].
  destruct (Z.eqb_spec y2 y1) as [-> | Hne].
  - cbn [orb andb] in H.
    destruct (Z.ltb_spec m2 m1); [discriminate |].
    destruct (Z.eqb_spec m2 m1) as [-> | Hnm].
    + cbn [orb andb] in H. apply Z.leb_gt in H. lia.
    + pose proof (days_before_month_mono y1 m1 m2 ltac:(lia) ltac:(lia)
                    ltac:(lia)). lia.
  - pose proof (days_before_year_step y1) as Hs.
    pose proof (days_before_year_mono (y1 + 1) y2 ltac:(lia)). lia.
Qed.

Lemma ord2ymd_leb (a b : Z) :
  1 <= a <= MAX_ORDINAL -> 1 <= b <= MAX_ORDINAL ->
  ymd_leb (ord2ymd a) (ord2ymd b) = (a <=? b).
Proof.
  intros Ha Hb.
  destruct (ord2ymd_spec a Ha) as (y1 & m1 & d1 & E1 & _ & Hm1 & Hd1 & O1).
  destruct (ord2ymd_spec b Hb) as (y2 & m2 & d2 & E2 & _ & Hm2 & Hd2 & O2).
  rewrite E1, E2.
  destruct (ymd_leb (y1, m1, d1) (y2, m2, d2)) eqn:E.
  - symmetry. apply Z.leb_le.
    destruct (ymd_leb (y2, m2, d2) (y1, m1, d1)) eqn:E'.
    + unfold ymd_leb in E, E'.
      destruct (Z.ltb_spec y1 y2), (Z.ltb_spec y2 y1),
        (Z.eqb_spec y1 y2), (Z.eqb_spec y2 y1); try lia;
        cbn [orb andb] in E, E'; try discriminate.
      destruct (Z.ltb_spec m1 m2), (Z.ltb_spec m2 m1),
        (Z.eqb_spec m1 m2), (Z.eqb_spec m2 m1); try lia;
        cbn [orb andb] in E, E'; try discriminate.
      apply Z.leb_le in E, E'. subst. unfold Calendar.ymd2ord. lia.
    + pose proof (ymd2ord_lt _ _ _ _ _ _ Hm1 Hd1 Hm2 Hd2 E'). lia.
  - symmetry. apply Z.leb_gt.
    pose proof (ymd2ord_lt _ _ _ _ _ _ Hm2 Hd2 Hm1 Hd1 E). lia.
Qed.

(** ** Dates written in full are accepted *)

Lemma digit_of_char (n : Z) :
  0 <= n <= 9 -> Calendar.digit (digit_char n) = Some n.
Proof.
  intros H. rewrite <- (Z2Nat.id n) by lia.
  assert (Z.to_nat n < 10)%nat as Hk by lia.
  generalize dependent (Z.to_nat n). intros k Hk.
  do 10 (destruct k as [| k]; [reflexivity |]). lia.
Qed.

Lemma month_token_format (m : Z) (rest : list ascii) :
  1 <= m <= 12 ->
  Calendar.month_token (two_digits m ++ "-"%char :: rest) = Some (m, rest).
Proof. intros H. each_month m; reflexivity. Qed.

Lemma day_token_format (d : Z) :
  1 <= d <= 31 -> Calendar.day_token (two_digits d) = Some d.
Proof.
  intros H.
  assert (exists k : nat, (k < 31)%nat /\ d = Z.of_nat k + 1) as (k & Hk & ->)
    by (exists (Z.to_nat (d - 1)); lia).
  do 31 (destruct k as [| k]; [reflexivity |]). lia.
Qed.

Lemma four_digits_value (y : Z) :
  0 <= y <= 9999 ->
  1000 * (y / 1000) + 100 * (y / 100 mod 10) + 10 * (y / 10 mod 10) + y mod 10
  = y.
Proof. intros H. Z.div_mod_to_equations. lia. Qed.

Lemma days_in_month_le_31 (y m : Z) : Calendar.days_in_month y m <= 31.
Proof.
  unfold Calendar.days_in_month.
  destruct (m =? 2), (Calendar.is_leap y),
    ((m =? 4) || (m =? 6) || (m =? 9) || (m =? 11)); lia.
Qed.

Lemma strptime_format_ymd (y m d : Z) :
  1 <= y <= 9999 -> 1 <= m <= 12 -> 1 <= d <= Calendar.days_in_month y m ->
  Calendar.strptime (format_ymd y m d)
  = Some (midnight (Calendar.ymd2ord y m d)).
Proof.
  intros Hy Hm Hd. pose proof (days_in_month_le_31 y m) as Hd31.
  unfold Calendar.strptime, format_ymd.
  rewrite list_ascii_of_string_of_list_ascii.
  unfold Calendar.match_ymd, four_digits. cbn [app].
  change (Ascii.eqb "-" "-") with true. cbn [negb].
  rewrite !digit_of_char by (Z.div_mod_to_equations; lia).
  cbn [mbind option_bind].
  rewrite month_token_format by exact Hm. cbn [mbind option_bind].
  rewrite day_token_format by lia. cbn [mbind option_bind].
  rewrite (four_digits_value y) by lia. cbn [mbind option_bind].
  rewrite (proj2 (Z.leb_le 1 y)) by lia.
  rewrite (proj2 (Z.leb_le d _)) by lia. reflexivity.
Qed.

(** ** The text of a day *)

Lemma digit_char_code (k : Z) :
  0 <= k <= 9 -> N_of_ascii (digit_char k) = Z.to_N (48 + k).
Proof.
  intros H. unfold digit_char. apply N_ascii_embedding. lia.
Qed.

Lemma digit_char_ltb (a b : Z) :
  0 <= a <= 9 -> 0 <= b <= 9 ->
  (N_of_ascii (digit_char a) <? N_of_ascii (digit_char b))%N = (a <? b).
Proof.
  intros Ha Hb. rewrite !digit_char_code by assumption.
  destruct (N.ltb_spec (Z.to_N (48 + a)) (Z.to_N (48 + b))),
    (Z.ltb_spec a b); try reflexivity; lia.
Qed.

Lemma digit_char_not_dash (k : Z) :
  0 <= k <= 9 -> Ascii.eqb (digit_char k) "-" = false.
Proof.
  intros H. destruct (Ascii.eqb_spec (digit_char k) "-") as [E |];
    [| reflexivity].
  pose proof (digit_of_char k H) as Hd. rewrite E in Hd. discriminate Hd.
Qed.

Lemma year_digits_four (y : Z) : 1000 <= y -> year_digits y = four_digits y.
Proof.
  intros H. unfold year_digits.
  rewrite !(proj2 (Z.ltb_ge _ _)) by lia. reflexivity.
Qed.

Lemma date_text_full (n : Z) :
  YEAR_1000 <= n <= MAX_ORDINAL ->
  exists y m d,
    date_text n = format_ymd y m d
    /\ ord2ymd n = (y, m, d)
    /\ 1000 <= y <= 9999 /\ 1 <= m <= 12
    /\ 1 <= d <= Calendar.days_in_month y m
    /\ Calendar.ymd2ord y m d = n.
Proof.
  intros Hn. rewrite YEAR_1000_value in Hn.
  assert (1 <= n <= MAX_ORDINAL) as Hn' by lia.
  destruct (ord2ymd_spec n Hn') as (y & m & d & E & Hy & Hm & Hd & Ho).
  assert (1000 <= y) as Hy4.
  { assert (y = year_of n) as -> by (unfold ord2ymd in E; congruence).
    apply year_of_1000; [exact Hn' | rewrite YEAR_1000_value; lia]. }
  exists y, m, d. unfold date_text. rewrite E.
  rewrite (year_digits_four y Hy4).
  repeat split; try assumption; lia.
Qed.

(** The text of a day of a four-digit year parses back to that day. *)
Lemma strptime_date_text (n : Z) :
  YEAR_1000 <= n <= MAX_ORDINAL ->
  Calendar.strptime (date_text n) = Some (midnight n).
Proof.
  intros Hn.
  destruct (date_text_full n Hn) as (y & m & d & -> & _ & Hy & Hm & Hd & <-).
  apply strptime_format_ymd; [lia | exact Hm | exact Hd].
Qed.

(** The text of a day before year 1000 does not match ['%Y-%m-%d']: its
    year has fewer than four digits. *)
Lemma strptime_date_text_short (n : Z) :
  1 <= n < YEAR_1000 -> Calendar.strptime (date_text n) = None.
Proof.
  intros Hn. rewrite YEAR_1000_value in Hn.
  assert (1 <= n <= MAX_ORDINAL) as Hn' by (unfold MAX_ORDINAL; lia).
  destruct (ord2ymd_spec n Hn') as (y & m & d & E & Hy & Hm & Hd & Ho).
  pose proof (days_in_month_le_31 y m) as Hd31.
  assert (y < 1000) as Hy3.
  { assert (y = year_of n) as -> by (unfold ord2ymd in E; congruence).
    destruct (Z.lt_ge_cases (year_of n) 1000) as [Hlt | Hge]; [exact Hlt |].
    apply (year_of_1000 n Hn') in Hge. rewrite YEAR_1000_value in Hge. lia. }
  unfold Calendar.strptime, date_text. rewrite E.
  rewrite list_ascii_of_string_of_list_ascii.
  assert (Calendar.match_ymd
            (year_digits y ++ "-"%char :: two_digits m
             ++ "-"%char :: two_digits d) = None) as ->; [| reflexivity].
  unfold year_digits, two_digits.
  destruct (Z.ltb_spec y 10); [| destruct (Z.ltb_spec y 100);
                                  [| rewrite (proj2 (Z.ltb_lt y 1000) Hy3)]];
    cbn [app Calendar.match_ymd].
  - change (Ascii.eqb "-" "-") with true. cbn [negb].
    rewrite (digit_of_char y) by lia. reflexivity.
  - rewrite digit_char_not_dash by (Z.div_mod_to_equations; lia).
    reflexivity.
  - rewrite digit_char_not_dash by (Z.div_mod_to_equations; lia).
    reflexivity.
Qed.

Lemma format_ymd_leb (y1 m1 d1 y2 m2 d2 : Z) :
  0 <= y1 <= 9999 -> 0 <= m1 <= 99 -> 0 <= d1 <= 99 ->
  0 <= y2 <= 9999 -> 0 <= m2 <= 99 -> 0 <= d2 <= 99 ->
  str_leb (format_ymd y1 m1 d1) (format_ymd y2 m2 d2)
  = ymd_leb (y1, m1, d1) (y2, m2, d2).
Proof.
  intros Hy1 Hm1 Hd1 Hy2 Hm2 Hd2. unfold str_leb, format_ymd.
  rewrite !list_ascii_of_string_of_list_ascii.
  unfold four_digits, two_digits. cbn [app text_leb].
  change (N_of_ascii "-" <? N_of_ascii "-")%N with false. cbv iota.
  rewrite !digit_char_ltb by (Z.div_mod_to_equations; lia).
  unfold ymd_leb.
  repeat match goal with
         | |- context [if ?a <? ?b then _ else _] =>
             destruct (Z.ltb_spec a b)
         end;
    destruct (Z.ltb_spec y1 y2), (Z.eqb_spec y1 y2), (Z.ltb_spec m1 m2),
      (Z.eqb_spec m1 m2), (Z.leb_spec d1 d2); cbn [orb andb];
    try reflexivity; exfalso; Z.div_mod_to_equations; lia.
Qed.

(** Among days of four-digit years, the texts are in the order of the
    days. *)
Lemma date_text_leb (a b : Z) :
  YEAR_1000 <= a <= MAX_ORDINAL -> YEAR_1000 <= b <= MAX_ORDINAL ->
  str_leb (date_text a) (date_text b) = (a <=? b).
Proof.
  intros Ha Hb.
  destruct (date_text_full a Ha) as (y1 & m1 & d1 & -> & E1 & ? & ? & ? & _).
  destruct (date_text_full b Hb) as (y2 & m2 & d2 & -> & E2 & ? & ? & ? & _).
  pose proof (days_in_month_le_31 y1 m1). pose proof (days_in_month_le_31 y2 m2).
  rewrite format_ymd_leb by lia. rewrite <- E1, <- E2.
  rewrite YEAR_1000_value in Ha, Hb. apply ord2ymd_leb; lia.
Qed.

(** ** Phases *)

Lemma _offset_range (total_weeks : Z) (multiplier : Q) (min_week : Z) :
  1 <= total_weeks -> 0 <= min_week ->
  0 <= _offset total_weeks multiplier min_week <= total_weeks - 1.
Proof.
  intros Hw Hm. unfold _offset. destruct (_ <=? _) eqn:E; lia.
Qed.

Lemma offsets_range (w : Z) (t : Tier) :
  1 <= w -> 0 <= offsets w t <= w - 1.
Proof.
  intros Hw. destruct t; simpl; [lia | |]; apply _offset_range; lia.
Qed.

Lemma weeks_lt (a b : Z) : a < b -> weeks a < weeks b.
Proof. unfold weeks, days, US_PER_DAY. lia. Qed.

(** Inside a campaign every phase starts before the release. *)
Lemma phase_start_in_campaign (release_dt : datetime) (w : Z) (t : Tier) :
  1 <= w ->
  let start := release_dt - weeks w in
  (start <? release_dt) = true
  /\ Z.min release_dt (start + weeks (offsets (Z.max 1 w) t))
     = start + weeks (offsets w t)
  /\ (start + weeks (offsets w t) <? release_dt) = true.
Proof.
  intros Hw start. rewrite Z.max_r by lia.
  pose proof (offsets_range w t Hw) as Ho.
  assert (weeks (offsets w t) < weeks w) by (apply weeks_lt; lia).
  assert (0 < weeks w) by (unfold weeks, days, US_PER_DAY; lia).
  subst start. rewrite !Z.ltb_lt. lia.
Qed.

Lemma in_tier_all_nil (ranked : list RegionScore) :
  in_tier TierA ranked = [] -> in_tier TierB ranked = [] ->
  in_tier TierC ranked = [] -> ranked = [].
Proof.
  unfold in_tier. destruct ranked as [| r l]; [reflexivity |].
  rewrite !filter_cons. destruct (tier r); simpl; discriminate.
Qed.

Lemma create_phases_in_campaign (ranked : list RegionScore)
    (release_dt : datetime) (sg : MovieSignature) (w : Z) :
  1 <= w ->
  let start := release_dt - weeks w in
  let pcts :=
    normalized_pct (length (in_tier TierA ranked))
      (length (in_tier TierB ranked)) (length (in_tier TierC ranked)) in
  let phs := _create_phases ranked start release_dt sg w in
  phase_view <$> phs
  = (fun t =>
       (toordinal start + 7 * offsets w t, Spec.intensity_of t,
        region <$> in_tier t ranked, get_pct t pcts)) <$> Spec.present ranked
  /\ phase <$> phs = seq 1 (length phs).
Proof.
  intros Hw start pcts.
  destruct (phase_start_in_campaign release_dt w TierB Hw) as (Hs & HB1 & HB2).
  destruct (phase_start_in_campaign release_dt w TierC Hw) as (_ & HC1 & HC2).
  fold start in Hs, HB1, HB2, HC1, HC2.
  unfold _create_phases, Spec.present, Spec.has_regions.
  fold pcts. cbn zeta. rewrite Hs, HB1, HB2, HC1, HC2.
  cbn [List.filter].
  destruct (in_tier TierA ranked) as [| a la] eqn:Ea,
    (in_tier TierB ranked) as [| b lb] eqn:Eb,
    (in_tier TierC ranked) as [| c lc] eqn:Ec;
    cbn [fmap list_fmap app phase_view phase ph_start_date intensity
         regions budget_percentage length Spec.intensity_of seq];
    rewrite ?toordinal_add_weeks; rewrite ?Ea, ?Eb, ?Ec;
    cbn [fmap list_fmap offsets]; rewrite ?Z.mul_0_r, ?Z.add_0_r;
    split; reflexivity.
Qed.

Lemma normalized_pct_spec (ranked : list RegionScore) :
  let pcts :=
    normalized_pct (length (in_tier TierA ranked))
      (length (in_tier TierB ranked)) (length (in_tier TierC ranked)) in
  (fun t => get_pct t pcts) <$> Spec.present ranked = Spec.percentages ranked.
Proof.
  unfold Spec.percentages, Spec.share, Spec.total_weight, Spec.tier_weight,
    Spec.present, Spec.has_regions, normalized_pct, weight_map.
  cbn [List.filter].
  destruct (in_tier TierA ranked) as [| a la] eqn:Ea,
    (in_tier TierB ranked) as [| b lb] eqn:Eb,
    (in_tier TierC ranked) as [| c lc] eqn:Ec;
    cbn [List.filter length Nat.ltb Nat.leb app fmap list_fmap snd foldl foldr
         Spec.weight Spec.with_remainder normalize get_pct];
    rewrite ?Ea, ?Eb, ?Ec.
  all: try reflexivity.
  all: cbn [length]; repeat case_decide; try congruence;
    repeat match goal with
      | |- context [if ?s =? 0 then _ else _] =>
          destruct (Z.eqb_spec s 0); [lia |]
      end;
    rewrite ?Z.add_0_l, ?Z.add_0_r, ?Z.add_assoc;
    repeat (apply (f_equal2 (@cons Z)); [lia |]); reflexivity.
Qed.

Lemma with_remainder_sum (shares : list Z) (remainder : Z) :
  shares <> [] ->
  foldr Z.add 0 (Spec.with_remainder shares remainder) = remainder.
Proof.
  revert remainder. induction shares as [| s [| s' rest] IH]; intros r Hne.
  - congruence.
  - simpl. lia.
  - change (s + foldr Z.add 0 (Spec.with_remainder (s' :: rest) (r - s)) = r).
    rewrite IH by discriminate. lia.
Qed.

Lemma present_nonempty (ranked : list RegionScore) :
  ranked <> [] -> Spec.present ranked <> [].
Proof.
  intros Hne Hp. apply Hne.
  unfold Spec.present, Spec.has_regions in Hp. cbn [List.filter] in Hp.
  apply in_tier_all_nil;
    destruct (in_tier TierA ranked), (in_tier TierB ranked),
      (in_tier TierC ranked); try discriminate; reflexivity.
Qed.

Lemma percentages_sum (ranked : list RegionScore) :
  ranked <> [] -> foldr Z.add 0 (Spec.percentages ranked) = 100.
Proof.
  intros Hne. apply with_remainder_sum.
  pose proof (present_nonempty ranked Hne).
  destruct (Spec.present ranked); [congruence | discriminate].
Qed.

(** ** Rounding is monotone *)

Lemma round_mono (x y : Q) : (x <= y)%Q -> Py.round x <= Py.round y.
Proof.
  intros Hxy. pose proof (Qfloor_resp_le x y Hxy) as Hf.
  destruct (Z.eq_dec (Qfloor x) (Qfloor y)) as [E |].
  - unfold Py.round. rewrite <- E.
    destruct (x - inject_Z (Qfloor x) ?= 1 # 2)%Q eqn:Ex;
      destruct (y - inject_Z (Qfloor x) ?= 1 # 2)%Q eqn:Ey;
      first [apply Qeq_alt in Ex | apply Qlt_alt in Ex | apply Qgt_alt in Ex];
      first [apply Qeq_alt in Ey | apply Qlt_alt in Ey | apply Qgt_alt in Ey];
      try (destruct (Z.even (Qfloor x))); try lia; exfalso; lra.
  - pose proof (PyFacts.round_floor x). pose proof (PyFacts.round_floor y).
    lia.
Qed.

Lemma offsets_mono (w : Z) :
  1 <= w -> offsets w TierA <= offsets w TierB <= offsets w TierC.
Proof.
  intros Hw. cbn [offsets]. unfold _offset.
  assert (Py.round (inject_Z w * 0.35) <= Py.round (inject_Z w * 0.65)) as Hr.
  { apply round_mono.
    assert (0 <= inject_Z w)%Q by (change 0%Q with (inject_Z 0);
      rewrite <- Zle_Qle; lia).
    nra. }
  destruct (Z.leb_spec w 1), (Z.leb_spec w 2); lia.
Qed.

(** ** The loop of the timeline *)

Lemma days_7_pos : 0 < days 7.
Proof. reflexivity. Qed.

Lemma timeline_rounds_next (release_date current : datetime) :
  current < release_date ->
  timeline_rounds current release_date
  = S (timeline_rounds (Z.min (current + days 7) release_date) release_date).
Proof.
  intros Hlt. unfold timeline_rounds. pose proof days_7_pos as H7.
  destruct (Z.le_gt_cases (current + days 7) release_date) as [Hle | Hgt].
  - rewrite Z.min_l by lia.
    replace (release_date - current + days 7 - 1)
      with (release_date - (current + days 7) + days 7 - 1 + 1 * days 7) by lia.
    rewrite Z.div_add by lia. rewrite Z2Nat.inj_add; [| | lia].
    + simpl. lia.
    + apply Z.div_pos; lia.
  - rewrite Z.min_r by lia.
    replace (release_date - release_date + days 7 - 1) with (days 7 - 1) by lia.
    rewrite (Z.div_small (days 7 - 1)) by lia.
    replace (release_date - current + days 7 - 1)
      with (release_date - current - 1 + 1 * days 7) by lia.
    rewrite Z.div_add by lia. rewrite Z.div_small by lia. reflexivity.
Qed.

Lemma timeline_rounds_done (release_date current : datetime) :
  release_date <= current -> timeline_rounds current release_date = O.
Proof.
  intros Hge. unfold timeline_rounds. pose proof days_7_pos as H7.
  assert ((release_date - current + days 7 - 1) / days 7 <= 0).
  { apply Z.lt_succ_r. apply Z.div_lt_upper_bound; lia. }
  lia.
Qed.

(** The loop stops by its own test: any larger fuel gives the same weeks. *)
Lemma timeline_loop_fuel (fuel : nat) (phases : list Phase)
    (release_date current : datetime) (week : Z) :
  (timeline_rounds current release_date <= fuel)%nat ->
  timeline_loop fuel phases release_date current week
  = timeline_loop (timeline_rounds current release_date) phases release_date
      current week.
Proof.
  revert current week. induction fuel as [| fuel IH]; intros current week Hf.
  - replace (timeline_rounds current release_date) with O by lia. reflexivity.
  - destruct (Z.ltb_spec current release_date) as [Hlt | Hge].
    + rewrite (timeline_rounds_next _ _ Hlt) in Hf |- *.
      cbn [timeline_loop]. rewrite (proj2 (Z.ltb_lt _ _) Hlt).
      f_equal. apply IH. lia.
    + rewrite timeline_rounds_done by lia. cbn [timeline_loop].
      rewrite (proj2 (Z.ltb_ge _ _) Hge). reflexivity.
Qed.

(** Over a whole number of weeks the loop makes one round per week. *)
Lemma timeline_loop_weeks (k fuel : nat) (phases : list Phase)
    (release_date current : datetime) (week : Z) :
  release_date - current = weeks (Z.of_nat k) -> (k <= fuel)%nat ->
  timeline_loop fuel phases release_date current week
  = (fun i : nat =>
       timeline_entry phases release_date (current + weeks (Z.of_nat i))
         (week + Z.of_nat i)) <$> seq 0 k.
Proof.
  revert fuel current week.
  induction k as [| k IH]; intros fuel current week Hspan Hfuel.
  - assert (release_date = current) as ->
      by (unfold weeks, days in Hspan; lia).
    destruct fuel; cbn [timeline_loop]; rewrite ?Z.ltb_irrefl; reflexivity.
  - destruct fuel as [| fuel]; [lia |].
    assert (weeks (Z.of_nat (S k)) = weeks (Z.of_nat k) + days 7) as Hw
      by (unfold weeks, days; lia).
    assert (0 <= weeks (Z.of_nat k)) by (unfold weeks, days, US_PER_DAY; lia).
    pose proof days_7_pos.
    cbn [timeline_loop]. rewrite (proj2 (Z.ltb_lt current release_date)) by lia.
    rewrite Z.min_l by lia.
    rewrite (IH fuel (current + days 7) (week + 1)) by lia.
    cbn [seq fmap list_fmap]. f_equal.
    + f_equal; [unfold weeks, days |]; lia.
    + rewrite <- fmap_S_seq, <- list_fmap_compose. apply list_fmap_ext.
      intros _ i _. cbn [compose]. f_equal; [unfold weeks, days |]; lia.
Qed.

Lemma timeline_rounds_weeks (release_date start : datetime) (w : Z) :
  0 <= w -> release_date - start = weeks w ->
  timeline_rounds start release_date = Z.to_nat w.
Proof.
  intros Hw Hspan. unfold timeline_rounds. rewrite Hspan.
  replace (weeks w + days 7 - 1) with (days 7 - 1 + w * days 7)
    by (unfold weeks, days; lia).
  rewrite Z.div_add by discriminate. rewrite Z.div_small by (split; reflexivity || discriminate).
  reflexivity.
Qed.

Lemma create_timeline_in_campaign (phases : list Phase)
    (release_dt : datetime) (w : Z) :
  0 <= w ->
  let start := release_dt - weeks w in
  timeline_weeks phases start release_dt
  = (fun i : nat =>
       timeline_entry phases release_dt (start + weeks (Z.of_nat i))
         (1 + Z.of_nat i)) <$> seq 0 (Z.to_nat w).
Proof.
  intros Hw start. unfold timeline_weeks.
  rewrite (timeline_rounds_weeks release_dt start w Hw) by (subst start; lia).
  apply timeline_loop_weeks; [| lia].
  rewrite Z2Nat.id by lia. subst start. lia.
Qed.

(** ** The timeline between any two dates *)

Lemma timeline_loop_length (fuel : nat) (phases : list Phase)
    (release_date current : datetime) (week : Z) :
  (timeline_rounds current release_date <= fuel)%nat ->
  length (timeline_loop fuel phases release_date current week)
  = timeline_rounds current release_date.
Proof.
  revert current week. induction fuel as [| fuel IH]; intros current week Hf.
  - simpl. lia.
  - cbn [timeline_loop].
    destruct (Z.ltb_spec current release_date) as [Hlt | Hge].
    + rewrite (timeline_rounds_next _ _ Hlt) in Hf |- *.
      cbn [length]. rewrite IH by lia. reflexivity.
    + rewrite timeline_rounds_done by lia. reflexivity.
Qed.

Lemma timeline_loop_lookup (fuel : nat) (phases : list Phase)
    (release_date current : datetime) (week : Z) (i : nat) (a : TimelineWeek) :
  timeline_loop fuel phases release_date current week !! i = Some a ->
  current + days (7 * Z.of_nat i) < release_date
  /\ a = timeline_entry phases release_date (current + days (7 * Z.of_nat i))
           (week + Z.of_nat i).
Proof.
  revert current week i a.
  induction fuel as [| fuel IH]; intros current week i a; [discriminate |].
  cbn [timeline_loop].
  destruct (Z.ltb_spec current release_date) as [Hlt | Hge]; [| discriminate].
  destruct i as [| i]; cbn [lookup list_lookup].
  - intros [= <-]. change (days (7 * Z.of_nat 0)) with 0.
    rewrite !Z.add_0_r. split; [exact Hlt | reflexivity].
  - intros Ha. apply IH in Ha as [Hlt' ->].
    assert (0 <= days (7 * Z.of_nat i)) by (unfold days, US_PER_DAY; lia).
    assert (Z.min (current + days 7) release_date = current + days 7)
      as Hmin by lia.
    rewrite Hmin in *.
    replace (current + days 7 + days (7 * Z.of_nat i))
      with (current + days (7 * Z.of_nat (S i))) in *
      by (unfold days; lia).
    replace (week + 1 + Z.of_nat i) with (week + Z.of_nat (S i)) by lia.
    split; [exact Hlt' | reflexivity].
Qed.

(** For any start before the release, the weeks tile the span: they are
    numbered from 1, each starts where the one before ends, all but the
    last have seven days, and the last ends on the release date. *)
Lemma create_timeline_tiles (phases : list Phase)
    (start_date release_date : datetime) :
  start_date < release_date ->
  let tl := timeline_weeks phases start_date release_date in
  (forall (i : nat) a, tl !! i = Some a -> week a = 1 + Z.of_nat i)
  /\ (exists first, tl !! 0%nat = Some first
                    /\ tw_start_date first = toordinal start_date)
  /\ (forall (i : nat) a b,
        tl !! i = Some a -> tl !! S i = Some b ->
        tw_end_date a = tw_start_date b
        /\ tw_end_date a - tw_start_date a = 7)
  /\ (exists final, last tl = Some final
                    /\ tw_end_date final = toordinal release_date).
Proof.
  intros Hlt tl. subst tl. unfold timeline_weeks.
  set (n := timeline_rounds start_date release_date).
  pose proof (timeline_loop_length n phases release_date start_date 1
                (Nat.le_refl _)) as Hlen.
  fold n in Hlen.
  assert (n = Z.to_nat ((release_date - start_date + days 7 - 1) / days 7))
    as Hn by reflexivity.
  pose proof days_7_pos as H7.
  assert (0 < (release_date - start_date + days 7 - 1) / days 7) as Hpos
    by (apply Z.div_str_pos; lia).
  pose proof (Z.div_mod (release_date - start_date + days 7 - 1) (days 7)
                ltac:(lia)) as Hdm.
  pose proof (Z.mod_pos_bound (release_date - start_date + days 7 - 1)
                (days 7) H7) as Hmod.
  set (l := timeline_loop n phases release_date start_date 1) in *.
  split; [| split; [| split]].
  - intros i a Ha. apply timeline_loop_lookup in Ha as [_ ->]. reflexivity.
  - destruct (lookup_lt_is_Some_2 l 0) as [a Ha]; [lia |].
    exists a. split; [exact Ha |].
    apply timeline_loop_lookup in Ha as [_ ->].
    cbn [timeline_entry tw_start_date]. f_equal. unfold days. lia.
  - intros i a b Ha Hb.
    apply timeline_loop_lookup in Ha as [_ ->].
    apply timeline_loop_lookup in Hb as [Hb ->].
    cbn [timeline_entry tw_start_date tw_end_date].
    replace (start_date + days (7 * Z.of_nat (S i)))
      with (start_date + days (7 * Z.of_nat i) + days 7) in *
      by (unfold days; lia).
    rewrite Z.min_l by lia. rewrite toordinal_add_days.
    split; [reflexivity | lia].
  - destruct (lookup_lt_is_Some_2 l (Nat.pred n)) as [a Ha]; [lia |].
    exists a. split; [rewrite last_lookup, Hlen; exact Ha |].
    apply timeline_loop_lookup in Ha as [Hlast ->].
    cbn [timeline_entry tw_end_date]. f_equal. apply Z.min_r.
    assert (Z.of_nat (Nat.pred n)
            = (release_date - start_date + days 7 - 1) / days 7 - 1) as ->
      by lia.
    unfold days in *. lia.
Qed.

(** ** The active phase of a week *)

Lemma active_phase_at_snoc (phases : list Phase) (p : Phase) (t : datetime) :
  active_phase_at (phases ++ [p]) t
  = if midnight (ph_start_date p) <=? t then Some p
    else active_phase_at phases t.
Proof. unfold active_phase_at. rewrite foldl_app. reflexivity. Qed.

(** The scan keeps the last phase of the list that has started. *)
Lemma active_phase_at_None (phases : list Phase) (t : datetime) :
  active_phase_at phases t = None <->
  forall p, p ∈ phases -> toordinal t < ph_start_date p.
Proof.
  induction phases as [| p phases IH] using rev_ind.
  - split; [intros _ p Hp; inversion Hp | reflexivity].
  - rewrite active_phase_at_snoc.
    destruct (Z.leb_spec (midnight (ph_start_date p)) t) as [Hle | Hgt].
    + split; [discriminate |]. intros H. exfalso.
      apply midnight_le in Hle.
      specialize (H p ltac:(apply elem_of_app; right; constructor)). lia.
    + rewrite IH. split; intros H q Hq.
      * apply elem_of_app in Hq as [Hq | Hq]; [auto |].
        apply list_elem_of_singleton in Hq as ->.
        destruct (Z.le_gt_cases (ph_start_date p) (toordinal t)) as [Hc |];
          [apply midnight_le in Hc |]; lia.
      * apply H, elem_of_app. left. exact Hq.
Qed.

Lemma active_phase_at_Some (phases : list Phase) (t : datetime) (p : Phase) :
  active_phase_at phases t = Some p ->
  exists j : nat,
    phases !! j = Some p
    /\ ph_start_date p <= toordinal t
    /\ forall (j' : nat) q,
         phases !! j' = Some q -> ph_start_date q <= toordinal t ->
         (j' <= j)%nat.
Proof.
  revert p. induction phases as [| x phases IH] using rev_ind; intros p.
  - discriminate.
  - rewrite active_phase_at_snoc.
    destruct (Z.leb_spec (midnight (ph_start_date x)) t) as [Hle | Hgt].
    + intros [= <-]. exists (length phases). split; [| split].
      * rewrite lookup_app_r, Nat.sub_diag by lia. reflexivity.
      * apply midnight_le. exact Hle.
      * intros j' q Hq _. apply lookup_lt_Some in Hq.
        rewrite length_app in Hq. simpl in Hq. lia.
    + intros Hp. destruct (IH p Hp) as (j & Hj & Hs & Hmax).
      exists j. split; [| split].
      * rewrite lookup_app_l by (eapply lookup_lt_Some; eauto). exact Hj.
      * exact Hs.
      * intros j' q Hq Hqs.
        destruct (Nat.lt_ge_cases j' (length phases)) as [Hlt | Hge].
        -- rewrite lookup_app_l in Hq by lia. eauto.
        -- rewrite lookup_app_r in Hq by lia.
           destruct (j' - length phases)%nat as [| n] eqn:En;
             [| destruct n; discriminate].
           injection Hq as <-. apply midnight_le in Hqs. lia.
Qed.

(** The phases of a campaign are listed by start date. *)
Lemma offsets_sorted_lookup (w : Z) (l : list Tier) :
  1 <= w -> Sorted (fun s t => offsets w s <= offsets w t) l ->
  forall (i j : nat) s t,
    l !! i = Some s -> l !! j = Some t -> (i <= j)%nat ->
    offsets w s <= offsets w t.
Proof.
  intros Hw Hs. apply Sorted_StronglySorted in Hs; [| intros a b c; lia].
  induction Hs as [| a l Hl IH Ha]; intros i j s t Hi Hj Hij.
  - discriminate.
  - destruct i as [| i], j as [| j]; simpl in Hi, Hj; try lia.
    + injection Hi as <-. injection Hj as <-. lia.
    + injection Hi as <-. rewrite Forall_forall in Ha. apply Ha.
      eapply list_elem_of_lookup_2. exact Hj.
    + eapply IH; eauto. lia.
Qed.

Lemma present_sorted (ranked : list RegionScore) (w : Z) :
  1 <= w ->
  Sorted (fun s t => offsets w s <= offsets w t) (Spec.present ranked).
Proof.
  intros Hw. pose proof (offsets_mono w Hw) as [H1 H2].
  unfold Spec.present. cbn [List.filter].
  destruct (Spec.has_regions ranked TierA), (Spec.has_regions ranked TierB),
    (Spec.has_regions ranked TierC);
    repeat first [apply Sorted_nil | apply Sorted_cons | apply HdRel_nil
                 | apply HdRel_cons]; lia.
Qed.

(** ** Stable insertion sort *)

Section SortedBy.

Context {T : Type} (before : T -> T -> bool).

Lemma insert_by_perm (x : T) (l : list T) : insert_by before x l ≡ₚ x :: l.
Proof.
  induction l as [| y l IH]; cbn [insert_by]; [reflexivity |].
  destruct (before x y); [reflexivity |].
  rewrite IH. apply Permutation_swap.
Qed.

Lemma sorted_by_perm (l : list T) : sorted_by before l ≡ₚ l.
Proof.
  induction l as [| x l IH]; [reflexivity |].
  cbn [sorted_by foldr]. fold (sorted_by before l).
  rewrite insert_by_perm, IH. reflexivity.
Qed.

(** A list already in order is returned as it is. *)
Lemma sorted_by_id (l : list T) :
  Sorted (fun x y => before x y = true) l -> sorted_by before l = l.
Proof.
  induction 1 as [| x l Hl IH Hx]; [reflexivity |].
  cbn [sorted_by foldr]. fold (sorted_by before l). rewrite IH.
  destruct Hx as [| y l' Hxy]; cbn [insert_by]; [reflexivity |].
  rewrite Hxy. reflexivity.
Qed.

Hypothesis before_total : forall x y, before x y = true \/ before y x = true.

Lemma insert_by_sorted (x : T) (l : list T) :
  Sorted (fun x y => before x y = true) l ->
  Sorted (fun x y => before x y = true) (insert_by before x l).
Proof.
  induction 1 as [| y l Hl IH Hy]; cbn [insert_by].
  - repeat constructor.
  - destruct (before x y) eqn:E.
    + repeat constructor; assumption.
    + constructor; [exact IH |].
      destruct Hy as [| z l' Hyz]; cbn [insert_by].
      * constructor. destruct (before_total x y); congruence.
      * destruct (before x z); constructor;
          [destruct (before_total x y); congruence | exact Hyz].
Qed.

Lemma sorted_by_sorted (l : list T) :
  Sorted (fun x y => before x y = true) (sorted_by before l).
Proof.
  induction l as [| x l IH]; [constructor |].
  cbn [sorted_by foldr]. apply insert_by_sorted. exact IH.
Qed.

End SortedBy.

(** ** Milestones of a campaign *)

Lemma generate_milestones_in_campaign (release_dt : datetime) (w : Z)
    (ms : list Milestone) :
  1 <= w ->
  milestones_by_day (release_dt - weeks w) release_dt = Ok ms ->
  let R := toordinal release_dt in
  milestone_view <$> ms
  = [(R - 7 * w, LAUNCH)]
    ++ (if 4 <? w then [(R - 28, TRAILER)] else [])
    ++ (if 2 <? w then [(R - 14, PRESALES)] else [])
    ++ (if 1 <? w then [(R - 7, PREMIERE)] else [])
    ++ [(R, RELEASE_DAY)].
Proof.
  intros Hw. unfold milestones_by_day, milestone_list.
  destruct (dt_sub release_dt (weeks 4)) as [d4 |] eqn:E4; [| discriminate].
  apply dt_sub_Ok in E4 as [-> _]. cbn [mbind result_bind].
  destruct (dt_sub release_dt (weeks 2)) as [d2 |] eqn:E2; [| discriminate].
  apply dt_sub_Ok in E2 as [-> _]. cbn [mbind result_bind].
  destruct (dt_sub release_dt (weeks 1)) as [d1 |] eqn:E1; [| discriminate].
  apply dt_sub_Ok in E1 as [-> _]. cbn [mbind result_bind mret result_ret].
  replace (release_dt - weeks w <? release_dt - weeks 4) with (4 <? w)
    by (unfold weeks, days, US_PER_DAY;
        destruct (Z.ltb_spec 4 w); symmetry;
        [apply Z.ltb_lt | apply Z.ltb_ge]; lia).
  replace (release_dt - weeks w <? release_dt - weeks 2) with (2 <? w)
    by (unfold weeks, days, US_PER_DAY;
        destruct (Z.ltb_spec 2 w); symmetry;
        [apply Z.ltb_lt | apply Z.ltb_ge]; lia).
  replace (release_dt - weeks w <? release_dt - weeks 1) with (1 <? w)
    by (unfold weeks, days, US_PER_DAY;
        destruct (Z.ltb_spec 1 w); symmetry;
        [apply Z.ltb_lt | apply Z.ltb_ge]; lia).
  rewrite !toordinal_sub_weeks.
  match goal with
  | |- context [sorted_by ?f ?l] => rewrite (sorted_by_id f l)
  end.
  - unfold mret, result_ret. intros [= <-].
    destruct (Z.ltb_spec 4 w), (Z.ltb_spec 2 w), (Z.ltb_spec 1 w); try lia;
      reflexivity.
  - destruct (Z.ltb_spec 4 w), (Z.ltb_spec 2 w), (Z.ltb_spec 1 w); try lia;
      cbn [milestone_if app];
      repeat first [apply Sorted_nil | apply Sorted_cons | apply HdRel_nil
                   | apply HdRel_cons];
      cbn [ms_date]; apply Z.leb_le; lia.
Qed.

(** ** Sums and two-decimal rounding *)

#[global] Instance round_proper : Proper (Qeq ==> eq) Py.round.
Proof.
  intros x y E. unfold Py.round. rewrite (Qfloor_comp x y E).
  assert (x - inject_Z (Qfloor y) == y - inject_Z (Qfloor y))%Q as E'
    by (rewrite E; reflexivity).
  rewrite (Qcompare_comp _ _ E' (1 # 2) (1 # 2) (Qeq_refl _)). reflexivity.
Qed.

#[global] Instance round_nd_proper : Proper (Qeq ==> eq ==> Qeq) Py.round_nd.
Proof.
  intros x y E n ? <-. unfold Py.round_nd. rewrite E. reflexivity.
Qed.

Lemma round_nd_2_error (x : Q) :
  (x - (1 # 200) <= Py.round_nd x 2 <= x + (1 # 200))%Q.
Proof.
  unfold Py.round_nd. change (inject_Z (10 ^ Z.of_nat 2)) with 100%Q.
  pose proof (PyFacts.round_error (x * 100)) as [Hlo Hhi].
  set (r := inject_Z (Py.round (x * 100))) in *.
  split.
  - apply Qle_shift_div_l; lra.
  - apply Qle_shift_div_r; lra.
Qed.

Lemma round_nd_0 (n : nat) : (Py.round_nd 0 n == 0)%Q.
Proof.
  unfold Py.round_nd. rewrite Qmult_0_l. reflexivity.
Qed.

Lemma fold_left_Qplus (l : list Q) (a : Q) :
  (fold_left Qplus l a == a + Py.sum l)%Q.
Proof.
  unfold Py.sum. revert a. induction l as [| x l IH]; intros a; simpl.
  - lra.
  - rewrite (IH (a + x)%Q), (IH (0 + x)%Q). lra.
Qed.

Lemma sum_cons (x : Q) (l : list Q) : (Py.sum (x :: l) == x + Py.sum l)%Q.
Proof.
  unfold Py.sum at 1. simpl. rewrite fold_left_Qplus. lra.
Qed.

Lemma sum_perm (l l' : list Q) : l ≡ₚ l' -> (Py.sum l == Py.sum l')%Q.
Proof.
  induction 1 as [| x l l' _ IH | x y l | l l' l'' _ IH1 _ IH2].
  - reflexivity.
  - rewrite !sum_cons, IH. reflexivity.
  - rewrite !sum_cons. lra.
  - rewrite IH1. exact IH2.
Qed.


Lemma sum_rounded (l : list Q) :
  (Py.sum l - inject_Z (Z.of_nat (length l)) * (1 # 200)
   <= Py.sum ((fun x => Py.round_nd x 2) <$> l)
   <= Py.sum l + inject_Z (Z.of_nat (length l)) * (1 # 200))%Q.
Proof.
  induction l as [| x l IH]; cbn [fmap list_fmap length].
  - change (inject_Z (Z.of_nat 0)) with 0%Q. unfold Py.sum. simpl. lra.
  - rewrite Nat2Z.inj_succ. unfold Z.succ. rewrite inject_Z_plus.
    change (inject_Z 1) with 1%Q. rewrite !sum_cons.
    pose proof (round_nd_2_error x). lra.
Qed.

(** ** Budget allocation *)

Lemma allocate_budget_perm (ranked : list RegionScore) (total_budget : Q) :
  _allocate_budget ranked total_budget
  ≡ₚ allocate_region (Py.sum (suggested_budget_pct <$> ranked)) total_budget
       <$> ranked.
Proof. unfold _allocate_budget. apply sorted_by_perm. Qed.



(** ** The timeline that is returned *)

Lemma toordinal_range (t : datetime) :
  0 <= t < MAX_ORDINAL * US_PER_DAY -> 1 <= toordinal t <= MAX_ORDINAL.
Proof.
  unfold toordinal, MAX_ORDINAL, US_PER_DAY. intros H.
  Z.div_mod_to_equations. lia.
Qed.

(** When the scan returns, every start text has parsed, so every phase
    starts in year 1000 or later, and the phase found is the one that the
    comparison of the days finds. *)
Lemma scan_active_phase_Ok (phases : list Phase) (current : datetime)
    (active found : option Phase) :
  Forall (fun p => 1 <= ph_start_date p <= MAX_ORDINAL) phases ->
  scan_active_phase phases current active = Ok found ->
  Forall (fun p => YEAR_1000 <= ph_start_date p) phases
  /\ found
     = foldl
         (fun active_phase p =>
            if midnight (ph_start_date p) <=? current then Some p
            else active_phase)
         active phases.
Proof.
  revert active. induction phases as [| p phases IH]; intros active Hr H.
  - injection H as <-. split; [constructor | reflexivity].
  - apply Forall_cons in Hr as [Hp Hr]. cbn [scan_active_phase foldl] in *.
    destruct (Z.lt_ge_cases (ph_start_date p) YEAR_1000) as [Hlt | Hge].
    + rewrite strptime_date_text_short in H by lia. discriminate H.
    + rewrite strptime_date_text in H by lia.
      destruct (IH _ Hr H) as [Hall ->].
      split; [constructor; assumption | reflexivity].
Qed.



(** What [_create_timeline] returns is the list of weeks of
    [timeline_weeks]. *)
Lemma timeline_while_Ok (fuel : nat) (phases : list Phase)
    (release_date current : datetime) (week : Z) (tl : list TimelineWeek) :
  Forall (fun p => 1 <= ph_start_date p <= MAX_ORDINAL) phases ->
  timeline_while fuel phases release_date current week = Ok tl ->
  tl = timeline_loop fuel phases release_date current week.
Proof.
  intros Hr. revert current week tl.
  induction fuel as [| fuel IH]; intros current week tl H.
  - injection H as <-. reflexivity.
  - cbn [timeline_while timeline_loop] in *.
    destruct (current <? release_date); [| injection H as <-; reflexivity].
    destruct (dt_add current (days 7)) as [next |] eqn:En; [| discriminate].
    apply dt_add_Ok in En as [-> _]. cbn [mbind result_bind] in H.
    destruct (scan_active_phase phases current None) as [found |] eqn:Es;
      [| discriminate].
    apply (scan_active_phase_Ok _ _ _ _ Hr) in Es as [_ ->].
    cbn [mbind result_bind] in H.
    destruct (timeline_while fuel phases release_date _ (week + 1))
      as [rest |] eqn:Er; [| discriminate].
    cbn [mbind result_bind mret result_ret] in H. injection H as <-.
    rewrite (IH _ _ _ Er). reflexivity.
Qed.

Lemma create_timeline_weeks (phases : list Phase)
    (start_date release_date : datetime) (tl : list TimelineWeek) :
  Forall (fun p => 1 <= ph_start_date p <= MAX_ORDINAL) phases ->
  _create_timeline phases start_date release_date = Ok tl ->
  tl = timeline_weeks phases start_date release_date.
Proof. intros Hr H. apply (timeline_while_Ok _ _ _ _ _ _ Hr H). Qed.

(** When it returns with a week, every phase starts in year 1000 or
    later. *)
Lemma create_timeline_starts (phases : list Phase)
    (start_date release_date : datetime) (tl : list TimelineWeek) :
  Forall (fun p => 1 <= ph_start_date p <= MAX_ORDINAL) phases ->
  start_date < release_date ->
  _create_timeline phases start_date release_date = Ok tl ->
  Forall (fun p => YEAR_1000 <= ph_start_date p) phases.
Proof.
  intros Hr Hlt. unfold _create_timeline.
  rewrite (timeline_rounds_next _ _ Hlt). cbn [timeline_while].
  rewrite (proj2 (Z.ltb_lt _ _) Hlt).
  destruct (dt_add start_date (days 7)) as [next |]; [| discriminate].
  cbn [mbind result_bind].
  destruct (scan_active_phase phases start_date None) as [found |] eqn:Es;
    [| discriminate].
  intros _. apply (scan_active_phase_Ok _ _ _ _ Hr Es).
Qed.



(** ** The order of the milestones *)

Lemma insert_by_ext {T : Type} (f g : T -> T -> bool) (x : T) (l : list T) :
  (forall y, y ∈ l -> f x y = g x y) -> insert_by f x l = insert_by g x l.
Proof.
  induction l as [| y l IH]; intros H; [reflexivity |].
  cbn [insert_by]. rewrite (H y) by apply list_elem_of_here.
  destruct (g x y); [reflexivity |]. f_equal. apply IH.
  intros z Hz. apply H, list_elem_of_further, Hz.
Qed.

Lemma sorted_by_ext {T : Type} (f g : T -> T -> bool) (l : list T) :
  (forall x y, x ∈ l -> y ∈ l -> f x y = g x y) ->
  sorted_by f l = sorted_by g l.
Proof.
  induction l as [| x l IH]; intros H; [reflexivity |].
  cbn [sorted_by foldr]. fold (sorted_by f l). fold (sorted_by g l).
  rewrite IH
    by (intros a b Ha Hb; apply H; apply list_elem_of_further; assumption).
  apply insert_by_ext. intros y Hy. apply H; [apply list_elem_of_here |].
  apply list_elem_of_further. rewrite <- (sorted_by_perm g l). exact Hy.
Qed.

Lemma milestone_list_dates (start_date release_date : datetime)
    (ms : list Milestone) (m : Milestone) :
  milestone_list start_date release_date = Ok ms ->
  m ∈ ms ->
  ms_date m = toordinal start_date \/ ms_date m = toordinal release_date
  \/ exists t, ms_date m = toordinal t
               /\ start_date < t < MAX_ORDINAL * US_PER_DAY.
Proof.
  unfold milestone_list.
  destruct (dt_sub release_date (weeks 4)) as [d4 |] eqn:E4; [| discriminate].
  apply dt_sub_Ok in E4 as [-> R4]. cbn [mbind result_bind].
  destruct (dt_sub release_date (weeks 2)) as [d2 |] eqn:E2; [| discriminate].
  apply dt_sub_Ok in E2 as [-> R2]. cbn [mbind result_bind].
  destruct (dt_sub release_date (weeks 1)) as [d1 |] eqn:E1; [| discriminate].
  apply dt_sub_Ok in E1 as [-> R1]. cbn [mbind result_bind mret result_ret].
  intros [= <-]. unfold milestone_if.
  destruct (Z.ltb_spec start_date (release_date - weeks 4)),
    (Z.ltb_spec start_date (release_date - weeks 2)),
    (Z.ltb_spec start_date (release_date - weeks 1));
    cbn [app]; intros Hin; set_unfold in Hin;
    repeat (destruct Hin as [-> | Hin]);
    try contradiction; cbn [ms_date];
    first [left; reflexivity | right; left; reflexivity
          | right; right; eexists; split; [reflexivity | lia]].
Qed.

(** From year 1000 on, the sort by text is the sort by day. *)
Lemma generate_milestones_by_day (start_date release_date : datetime) :
  YEAR_1000 <= toordinal start_date <= MAX_ORDINAL ->
  YEAR_1000 <= toordinal release_date <= MAX_ORDINAL ->
  _generate_milestones start_date release_date
  = milestones_by_day start_date release_date.
Proof.
  intros Hs Hr. unfold _generate_milestones, milestones_by_day.
  destruct (milestone_list start_date release_date) as [ms | e] eqn:E;
    [| reflexivity].
  cbn [mbind result_bind]. f_equal. apply sorted_by_ext.
  assert (forall m, m ∈ ms -> YEAR_1000 <= ms_date m <= MAX_ORDINAL) as Hd.
  { intros m Hm.
    destruct (milestone_list_dates _ _ _ _ E Hm)
      as [-> | [-> | (t & -> & Ht)]]; [exact Hs | exact Hr |].
    assert (toordinal start_date <= toordinal t)
      by (unfold toordinal, US_PER_DAY; Z.div_mod_to_equations; lia).
    assert (0 <= t).
    { unfold toordinal, US_PER_DAY in Hs. rewrite YEAR_1000_value in Hs.
      Z.div_mod_to_equations. lia. }
    pose proof (toordinal_range t ltac:(lia)). lia. }
  intros x y Hx Hy. apply date_text_leb; apply Hd; assumption.
Qed.

Lemma generate_milestones_raise (start_date release_date : datetime)
    (e : exn) :
  _generate_milestones start_date release_date = Raise e
  <-> milestones_by_day start_date release_date = Raise e.
Proof.
  unfold _generate_milestones, milestones_by_day.
  destruct (milestone_list start_date release_date); cbn [mbind result_bind];
    split; intros H; first [discriminate H | exact H].
Qed.

(** ** The steps of a successful call *)

Lemma create_phases_starts (ranked : list RegionScore)
    (release_dt : datetime) (sg : MovieSignature) (w : Z) :
  1 <= w ->
  Forall
    (fun p =>
       toordinal (release_dt - weeks w) <= ph_start_date p
       <= toordinal release_dt - 7)
    (_create_phases ranked (release_dt - weeks w) release_dt sg w).
Proof.
  intros Hw. apply Forall_forall. intros p Hp.
  destruct (create_phases_in_campaign ranked release_dt sg w Hw) as [Hv _].
  cbv zeta in Hv.
  assert (phase_view p ∈ phase_view
            <$> _create_phases ranked (release_dt - weeks w) release_dt sg w)
    as Hin by (apply list_elem_of_fmap; eauto).
  rewrite Hv in Hin. apply list_elem_of_fmap in Hin as (t & Heq & _).
  unfold phase_view in Heq. injection Heq as Hst _ _ _.
  pose proof (offsets_range w t Hw). rewrite toordinal_sub_weeks in *. lia.
Qed.

Section PlanFacts.

Variable float_of_str : string -> option Q.
Variable int_of_str : string -> option Z.
Variable compare_regions : gmap string (gmap string PyVal) -> Comparison.
Variable _extract_movie_signature :
  option (gmap string PyVal) -> result MovieSignature.

#[local] Abbreviation rollout :=
  (create_rollout_plan float_of_str int_of_str compare_regions
     _extract_movie_signature).
#[local] Abbreviation parameters :=
  (planning_parameters_of float_of_str int_of_str).
#[local] Abbreviation comparison := (comparison_of compare_regions).

(** The final number of weeks is at least one. *)
Lemma planning_weeks_pos cmp ob od mp release_dt now :
  1 <= cp_campaign_weeks (parameters cmp ob od mp release_dt now).
Proof.
  unfold planning_parameters_of. rewrite derive_weeks.
  destruct od as [w |].
  - simpl. lia.
  - pose proof (derive_duration_range
      (release_gap_weeks_of release_dt now)
      (profile_popularity float_of_str (default ∅ mp))
      (length (in_tier TierA (ranked_regions cmp)))
      (profile_production_budget float_of_str (default ∅ mp))). lia.
Qed.

Lemma create_rollout_plan_Ok regional_data release_date budget_total
    campaign_weeks movie_profile precomputed now0 now1 plan :
  rollout regional_data release_date budget_total campaign_weeks
    movie_profile precomputed now0 now1 = Ok plan ->
  exists release_dt milestones,
    let cmp := comparison regional_data precomputed in
    let params :=
      parameters cmp budget_total campaign_weeks movie_profile
        release_dt now1 in
    let w := cp_campaign_weeks params in
    let start := release_dt - weeks w in
    let sg := movie_positioning (campaign_overview plan) in
    let phs := _create_phases (ranked_regions cmp) start release_dt sg w in
    parse_release_date release_date now0 = Ok release_dt
    /\ 1 <= w
    /\ 0 <= start
    /\ _generate_milestones start release_dt = Ok milestones
    /\ campaign_overview plan =
         {| release_date := release_date;
            campaign_start := toordinal start;
            ov_duration_weeks := w;
            ov_total_budget := cp_total_budget params;
            target_regions := length (ranked_regions cmp);
            movie_positioning := sg |}
    /\ phases plan = phs
    /\ budget_allocation plan =
         _allocate_budget (ranked_regions cmp)
           (inject_Z (cp_total_budget params))
    /\ timeline plan = timeline_weeks phs start release_dt
    /\ key_milestones plan = milestones
    /\ plan_logic plan = cp_logic params
    /\ _extract_movie_signature movie_profile = Ok sg
    /\ parameters_overflow int_of_str (default ∅ movie_profile) budget_total
       = false
    /\ _create_timeline phs start release_dt = Ok (timeline plan)
    /\ release_dt < MAX_ORDINAL * US_PER_DAY
    /\ 7 * w <= MAX_DELTA_DAYS.
Proof.
  unfold create_rollout_plan. intros H.
  destruct (parse_release_date release_date now0) as [release_dt |] eqn:Hp;
    [| discriminate].
  cbn [mbind result_bind] in H.
  destruct (_extract_movie_signature movie_profile) as [sg |] eqn:Hsg;
    [| discriminate].
  cbn [mbind result_bind] in H. unfold planning_parameters_raise in H.
  destruct (parameters_overflow _ _ _) eqn:Hov; [discriminate |].
  cbn [mbind result_bind] in H.
  destruct (timedelta_weeks _) as [span |] eqn:Hs; [| discriminate].
  pose proof (timedelta_weeks_Ok_inv _ _ Hs) as Habs.
  apply timedelta_weeks_Ok in Hs. subst span.
  cbn [mbind result_bind] in H.
  destruct (dt_sub release_dt _) as [start |] eqn:Hd; [| discriminate].
  apply dt_sub_Ok in Hd as [-> Hrange].
  cbn [mbind result_bind] in H.
  destruct (_create_timeline _ _ _) as [tl |] eqn:Htl; [| discriminate].
  cbn [mbind result_bind] in H.
  destruct (_generate_milestones _ _) as [ms |] eqn:Hm; [| discriminate].
  cbn [mbind result_bind mret result_ret] in H.
  injection H as <-.
  exists release_dt, ms. cbn zeta.
  cbn [campaign_overview movie_positioning phases timeline].
  pose proof (planning_weeks_pos (comparison regional_data precomputed)
                budget_total campaign_weeks movie_profile release_dt now1)
    as Hw.
  pose proof (parse_release_date_valid _ _ _ Hp) as Hrel.
  split; [reflexivity |]. split; [exact Hw |].
  split; [lia |]. split; [exact Hm |].
  split; [reflexivity |]. split; [reflexivity |]. split; [reflexivity |].
  split.
  - apply (create_timeline_weeks _ _ _ _) in Htl; [exact Htl |].
    eapply Forall_impl; [apply create_phases_starts, Hw |].
    intros p Hr. cbv beta in Hr.
    pose proof (toordinal_range (release_dt - weeks
      (cp_campaign_weeks
         (parameters (comparison regional_data precomputed) budget_total
            campaign_weeks movie_profile release_dt now1))) ltac:(lia)).
    pose proof (toordinal_range release_dt Hrel). lia.
  - split; [reflexivity |]. split; [reflexivity |]. split; [reflexivity |].
    split; [first [reflexivity | exact Hov] |].
    split; [first [reflexivity | exact Htl] |]. split; lia.
Qed.

End PlanFacts.


(** * Properties of the derived parameters *)

Section ParameterClaims.

Variable float_of_str : string -> option Q.
Variable int_of_str : string -> option Z.
Variable compare_regions : gmap string (gmap string PyVal) -> Comparison.
Variable _extract_movie_signature :
  option (gmap string PyVal) -> result MovieSignature.

#[local] Abbreviation rollout :=
  (create_rollout_plan float_of_str int_of_str compare_regions
     _extract_movie_signature).
#[local] Abbreviation parameters :=
  (planning_parameters_of float_of_str int_of_str).
#[local] Abbreviation comparison := (comparison_of compare_regions).
#[local] Abbreviation derive :=
  (_derive_campaign_parameters float_of_str int_of_str).

(** C1. Without a budget and a duration override, the derived
    [campaign_weeks] lies in [4, 16] and the derived [total_budget] lies
    in [250000, 20000000] and is a multiple of 50000; these are the values
    that the overview of the plan reports. *)
Theorem derived_parameters_within_bounds regional_data release_date
    movie_profile precomputed now0 now1 :
  (forall release_dt,
     let p :=
       parameters (comparison regional_data precomputed) None None
         movie_profile release_dt now1 in
     4 <= cp_campaign_weeks p <= 16
     /\ 250000 <= cp_total_budget p <= 20000000
     /\ (50000 | cp_total_budget p))
  /\ forall plan,
       rollout regional_data release_date None None movie_profile
         precomputed now0 now1 = Ok plan ->
       let ov := campaign_overview plan in
       4 <= ov_duration_weeks ov <= 16
       /\ 250000 <= ov_total_budget ov <= 20000000
       /\ (50000 | ov_total_budget ov).
Proof.
  split.
  - intros release_dt. apply derived_parameters_range.
  - intros plan H.
    apply create_rollout_plan_Ok in H
      as (release_dt & ms & _ & _ & _ & _ & -> & _).
    cbn [ov_duration_weeks ov_total_budget]. apply derived_parameters_range.
Qed.

(** C2. The campaign start shown in the overview is the release date
    (parsed, or the fallback) minus seven days for each of the final
    campaign weeks, derived or overridden. *)
Theorem campaign_start_is_release_minus_weeks regional_data release_date
    budget_total campaign_weeks movie_profile precomputed now0 now1 plan :
  rollout regional_data release_date budget_total campaign_weeks
    movie_profile precomputed now0 now1 = Ok plan ->
  exists release_dt,
    let ov := campaign_overview plan in
    parse_release_date release_date now0 = Ok release_dt
    /\ ov_duration_weeks ov
       = cp_campaign_weeks
           (parameters (comparison regional_data precomputed) budget_total
              campaign_weeks movie_profile release_dt now1)
    /\ campaign_start ov
       = toordinal (release_dt - days (7 * ov_duration_weeks ov))
    /\ campaign_start ov = toordinal release_dt - 7 * ov_duration_weeks ov.
Proof.
  intros H.
  apply create_rollout_plan_Ok in H
    as (release_dt & ms & Hp & _ & _ & _ & -> & _).
  exists release_dt. cbn [ov_duration_weeks campaign_start].
  split; [exact Hp |]. split; [reflexivity |]. split; [reflexivity |].
  apply toordinal_sub_weeks.
Qed.

(** C3. Without a duration override the number of weeks is the clamped
    release gap (or 6 when there is no gap), plus one week for each of:
    popularity >= 70, at least three Tier-A regions, production budget
    >= 150,000,000; the total is clamped to [4, 16]. A duration override
    is used as it is, raised to at least one week, and no other rule
    applies to it. *)
Theorem campaign_weeks_formula movie_profile regional_summary
    override_budget override_duration release_dt now :
  cp_campaign_weeks
    (derive movie_profile regional_summary override_budget
       override_duration release_dt now)
  = Spec.campaign_weeks override_duration
      (release_gap_weeks_of release_dt now)
      (profile_popularity float_of_str movie_profile)
      (length (in_tier TierA (ranked_regions regional_summary)))
      (profile_production_budget float_of_str movie_profile)
  /\ forall w,
       let p :=
         derive movie_profile regional_summary override_budget (Some w)
           release_dt now in
       cp_campaign_weeks p = Z.max 1 w
       /\ duration_drivers (cp_logic p) = [DurOverridden (Z.max 1 w)].
Proof.
  split.
  - rewrite derive_weeks. apply derive_duration_spec.
  - intros w. cbv zeta. split.
    + rewrite derive_weeks. reflexivity.
    + unfold _derive_campaign_parameters. cbn [derive_duration].
      destruct (derive_budget _ _ _ _ _ _ _ _). reflexivity.
Qed.

(** C10. A profile whose popularity is 0, or any other falsy value,
    gives the same parameters as the same profile with popularity 45:
    the value is replaced by 45 before use, so the popularity multiplier
    is the one of score 45 and not 1. *)
Theorem falsy_popularity_is_45 (movie_profile : gmap string PyVal)
    regional_summary override_budget override_duration release_dt now v :
  movie_profile !! "popularity" = Some v ->
  truthy v = false ->
  derive movie_profile regional_summary override_budget override_duration
    release_dt now
  = derive (<["popularity" := PInt 45]> movie_profile) regional_summary
      override_budget override_duration release_dt now
  /\ profile_popularity float_of_str movie_profile = 45%Q
  /\ (popularity_factor_of (profile_popularity float_of_str movie_profile)
      == 1.1575)%Q
  /\ ~ (popularity_factor_of (profile_popularity float_of_str movie_profile)
        == 1)%Q.
Proof.
  intros Hv Hf.
  assert (profile_popularity float_of_str movie_profile = 45%Q) as Hp.
  { unfold profile_popularity, py_or. rewrite Hv.
    change (default (PInt 45) (Some v)) with v. rewrite Hf. reflexivity. }
  assert (profile_popularity float_of_str
            (<["popularity" := PInt 45]> movie_profile) = 45%Q) as Hp'.
  { unfold profile_popularity. rewrite lookup_insert_eq. reflexivity. }
  split; [| split; [exact Hp | rewrite Hp; split; [reflexivity | discriminate]]].
  unfold _derive_campaign_parameters, derive_budget, profile_vote_count,
    profile_production_budget.
  rewrite Hp, Hp'. rewrite !lookup_insert_ne by discriminate. reflexivity.
Qed.

End ParameterClaims.

Lemma derived_parameters_within_bounds_witness :
  exists plan,
    Sample.plan "2024-06-15" None None None (Some Sample.comparison) = Ok plan
    /\ 4 <= ov_duration_weeks (campaign_overview plan) <= 16
    /\ 250000 <= ov_total_budget (campaign_overview plan) <= 20000000
    /\ (50000 | ov_total_budget (campaign_overview plan)).
Proof.
  eexists. split; [vm_compute; reflexivity |].
  apply (proj2 (derived_parameters_within_bounds Sample.float_of_str
                  Sample.int_of_str Sample.compare_regions Sample.signature
                  None "2024-06-15" None (Some Sample.comparison)
                  Sample.now Sample.now)).
  vm_compute. reflexivity.
Defined.

Lemma campaign_start_is_release_minus_weeks_witness :
  exists plan,
    Sample.plan "2024-06-15" (Some 2000000%Q) (Some 6) None
      (Some Sample.comparison) = Ok plan
    /\ exists release_dt,
         parse_release_date "2024-06-15" Sample.now = Ok release_dt
         /\ campaign_start (campaign_overview plan)
            = toordinal release_dt
              - 7 * ov_duration_weeks (campaign_overview plan).
Proof.
  eexists. split; [vm_compute; reflexivity |].
  destruct (campaign_start_is_release_minus_weeks Sample.float_of_str
              Sample.int_of_str Sample.compare_regions Sample.signature
              None "2024-06-15" (Some 2000000%Q) (Some 6) None
              (Some Sample.comparison) Sample.now Sample.now _
              ltac:(vm_compute; reflexivity))
    as (release_dt & Hp & _ & _ & Hs).
  exists release_dt. split; [exact Hp | exact Hs].
Defined.

Lemma falsy_popularity_is_45_witness :
  let mp : gmap string PyVal := {[ "popularity" := PInt 0 ]} in
  _derive_campaign_parameters Sample.float_of_str Sample.int_of_str mp
    Sample.comparison None None 0 0
  = _derive_campaign_parameters Sample.float_of_str Sample.int_of_str
      (<["popularity" := PInt 45]> mp) Sample.comparison None None 0 0.
Proof.
  apply (falsy_popularity_is_45 Sample.float_of_str Sample.int_of_str
           {[ "popularity" := PInt 0 ]} Sample.comparison None None 0 0
           (PInt 0)); reflexivity.
Defined.

(** ** Weeks and phases of a campaign *)

Lemma timeline_lookup_in_campaign (phs : list Phase) (release_dt : datetime)
    (w : Z) (i : nat) (a : TimelineWeek) :
  1 <= w ->
  timeline_weeks phs (release_dt - weeks w) release_dt !! i = Some a ->
  (i < Z.to_nat w)%nat
  /\ a = timeline_entry phs release_dt
           (release_dt - weeks w + weeks (Z.of_nat i)) (1 + Z.of_nat i).
Proof.
  intros Hw. rewrite create_timeline_in_campaign by lia.
  rewrite list_lookup_fmap. intros H.
  apply fmap_Some in H as (k & Hk & ->).
  apply lookup_seq in Hk as [-> Hlt]. split; [exact Hlt | reflexivity].
Qed.

Lemma timeline_length_in_campaign (phs : list Phase) (release_dt : datetime)
    (w : Z) :
  1 <= w ->
  length (timeline_weeks phs (release_dt - weeks w) release_dt) = Z.to_nat w.
Proof.
  intros Hw. rewrite create_timeline_in_campaign by lia.
  rewrite length_fmap. apply length_seq.
Qed.

Lemma timeline_entry_dates (phs : list Phase) (release_dt : datetime)
    (w : Z) (i : nat) (n : Z) :
  (i < Z.to_nat w)%nat ->
  let e :=
    timeline_entry phs release_dt (release_dt - weeks w + weeks (Z.of_nat i))
      n in
  tw_start_date e = toordinal release_dt - 7 * w + 7 * Z.of_nat i
  /\ tw_end_date e = tw_start_date e + 7.
Proof.
  intros Hi e. subst e. unfold timeline_entry. cbn [tw_start_date tw_end_date].
  rewrite Z.min_l by (unfold weeks, days, US_PER_DAY; lia).
  rewrite toordinal_add_days, toordinal_add_weeks, toordinal_sub_weeks.
  split; reflexivity.
Qed.

Lemma phases_sorted_in_campaign (ranked : list RegionScore)
    (release_dt : datetime) (sg : MovieSignature) (w : Z) :
  1 <= w ->
  let phs := _create_phases ranked (release_dt - weeks w) release_dt sg w in
  forall (i j : nat) p q,
    phs !! i = Some p -> phs !! j = Some q -> (i <= j)%nat ->
    ph_start_date p <= ph_start_date q.
Proof.
  intros Hw phs i j p q Hp Hq Hij.
  destruct (create_phases_in_campaign ranked release_dt sg w Hw) as [Hv _].
  fold phs in Hv.
  assert (forall k x, phs !! k = Some x ->
            exists t, Spec.present ranked !! k = Some t
                      /\ ph_start_date x
                         = toordinal (release_dt - weeks w) + 7 * offsets w t)
    as Hlook.
  { intros k x Hx.
    assert ((phase_view <$> phs) !! k = Some (phase_view x)) as Hk
      by (rewrite list_lookup_fmap, Hx; reflexivity).
    rewrite Hv, list_lookup_fmap in Hk.
    apply fmap_Some in Hk as (t & Ht & Heq).
    exists t. split; [exact Ht |]. unfold phase_view in Heq. congruence. }
  destruct (Hlook i p Hp) as (s & Hs & ->).
  destruct (Hlook j q Hq) as (t & Ht & ->).
  pose proof (offsets_sorted_lookup w (Spec.present ranked) Hw
                (present_sorted ranked w Hw) i j s t Hs Ht Hij).
  lia.
Qed.

(** * Properties of every plan *)

Lemma has_milestone_view (ms : list Milestone) (name : string) :
  has_milestone ms name <-> name ∈ snd <$> (milestone_view <$> ms).
Proof.
  unfold has_milestone. rewrite <- list_fmap_compose. split.
  - intros (m & Hm & <-). apply list_elem_of_fmap.
    exists m. split; [reflexivity | exact Hm].
  - intros H. apply list_elem_of_fmap in H as (m & -> & Hm).
    exists m. split; [exact Hm | reflexivity].
Qed.

Ltac view_cases H :=
  repeat (apply elem_of_cons in H as [H | H]);
  [.. | apply elem_of_nil in H; contradiction].


Section PlanClaims.

Variable float_of_str : string -> option Q.
Variable int_of_str : string -> option Z.
Variable compare_regions : gmap string (gmap string PyVal) -> Comparison.
Variable _extract_movie_signature :
  option (gmap string PyVal) -> result MovieSignature.

#[local] Abbreviation rollout :=
  (create_rollout_plan float_of_str int_of_str compare_regions
     _extract_movie_signature).
#[local] Abbreviation comparison := (comparison_of compare_regions).

(** C4. When the ranked-region sequence is not empty, the budget
    percentages of the phases of the plan add up to exactly 100; they are
    the rounded shares of the tier weights, the last present tier in A, B,
    C order taking what is left of 100; and the plan has one phase for each
    tier that has a region, and none for the others. *)
Theorem phase_percentages_sum_to_100 regional_data release_date budget_total
    campaign_weeks movie_profile precomputed now0 now1 plan :
  rollout regional_data release_date budget_total campaign_weeks
    movie_profile precomputed now0 now1 = Ok plan ->
  let ranked := ranked_regions (comparison regional_data precomputed) in
  ranked <> [] ->
  foldr Z.add 0 (budget_percentage <$> phases plan) = 100
  /\ budget_percentage <$> phases plan = Spec.percentages ranked
  /\ (fun p => (intensity p, regions p)) <$> phases plan
     = (fun t => (Spec.intensity_of t, region <$> in_tier t ranked))
         <$> Spec.present ranked.
Proof.
  intros H ranked Hne.
  apply create_rollout_plan_Ok in H
    as (release_dt & ms & _ & Hw & _ & _ & _ & Hph & _).
  destruct (create_phases_in_campaign ranked release_dt
              (movie_positioning (campaign_overview plan)) _ Hw) as [Hv _].
  cbv zeta in Hph, Hv. fold ranked in Hph. rewrite <- Hph in Hv.
  assert (budget_percentage <$> phases plan = Spec.percentages ranked) as Hb.
  { rewrite <- normalized_pct_spec.
    change budget_percentage with (snd ∘ phase_view).
    rewrite list_fmap_compose, Hv, <- list_fmap_compose. reflexivity. }
  split; [rewrite Hb; apply percentages_sum; exact Hne |].
  split; [exact Hb |].
  change (fun p => (intensity p, regions p))
    with ((fun v : Z * Intensity * list string * Z => (v.1.1.2, v.1.2))
          ∘ phase_view).
  rewrite list_fmap_compose, Hv, <- list_fmap_compose. reflexivity.
Qed.

(** C5. The timeline of a plan tiles the campaign: the first week starts on
    the campaign start, each week ends on the day the next one starts,
    every week (the last one too, as a campaign is a whole number of weeks)
    spans seven days, the last week ends on the release date, and the weeks
    are numbered 1, 2, 3, ... *)
Theorem timeline_tiles_the_campaign regional_data release_date budget_total
    campaign_weeks movie_profile precomputed now0 now1 plan :
  rollout regional_data release_date budget_total campaign_weeks
    movie_profile precomputed now0 now1 = Ok plan ->
  exists release_dt,
    let tl := timeline plan in
    let ov := campaign_overview plan in
    parse_release_date release_date now0 = Ok release_dt
    /\ (exists first, tl !! 0%nat = Some first
                      /\ tw_start_date first = campaign_start ov)
    /\ (forall (i : nat) a b,
          tl !! i = Some a -> tl !! S i = Some b ->
          tw_end_date a = tw_start_date b)
    /\ (forall (i : nat) a,
          tl !! i = Some a -> tw_end_date a - tw_start_date a = 7)
    /\ (exists final, last tl = Some final
                      /\ tw_end_date final = toordinal release_dt)
    /\ (forall (i : nat) a, tl !! i = Some a -> week a = Z.of_nat i + 1)
    /\ length tl = Z.to_nat (ov_duration_weeks ov).
Proof.
  intros H.
  apply create_rollout_plan_Ok in H
    as (release_dt & ms & Hp & Hw & _ & _ & Hov & _ & _ & Htl & _).
  exists release_dt. cbv zeta in *. rewrite Hov, Htl.
  cbn [campaign_start ov_duration_weeks].
  set (w := cp_campaign_weeks _) in *.
  set (phs := _create_phases _ _ _ _ _).
  pose proof (timeline_length_in_campaign phs release_dt w Hw) as Hlen.
  assert (forall (i : nat) a,
            timeline_weeks phs (release_dt - weeks w) release_dt !! i
            = Some a ->
            (i < Z.to_nat w)%nat
            /\ week a = Z.of_nat i + 1
            /\ tw_start_date a = toordinal release_dt - 7 * w + 7 * Z.of_nat i
            /\ tw_end_date a = tw_start_date a + 7) as Hat.
  { intros i a Ha.
    apply timeline_lookup_in_campaign in Ha as [Hi ->]; [| exact Hw].
    destruct (timeline_entry_dates phs release_dt w i (1 + Z.of_nat i) Hi)
      as [Hs He].
    split; [exact Hi |]. split; [cbn [timeline_entry week]; lia |].
    split; assumption. }
  split; [exact Hp |]. split; [| split; [| split; [| split; [| split]]]].
  - destruct (lookup_lt_is_Some_2
                (timeline_weeks phs (release_dt - weeks w) release_dt) 0)
      as [a Ha]; [lia |].
    exists a. split; [exact Ha |].
    destruct (Hat _ _ Ha) as (_ & _ & Hs & _).
    rewrite Hs, toordinal_sub_weeks. lia.
  - intros i a b Ha Hb.
    destruct (Hat _ _ Ha) as (_ & _ & Hs & He).
    destruct (Hat _ _ Hb) as (_ & _ & Hs' & _). lia.
  - intros i a Ha. destruct (Hat _ _ Ha) as (_ & _ & _ & He). lia.
  - destruct (lookup_lt_is_Some_2
                (timeline_weeks phs (release_dt - weeks w) release_dt)
                (Nat.pred (Z.to_nat w))) as [a Ha]; [lia |].
    exists a. split.
    + rewrite last_lookup, Hlen. exact Ha.
    + destruct (Hat _ _ Ha) as (_ & _ & Hs & He). lia.
  - intros i a Ha. destruct (Hat _ _ Ha) as (_ & Hk & _). exact Hk.
  - exact Hlen.
Qed.

(** C8. In every week of the timeline, the phase name, the active regions
    and the intensity are those of the phase that started last among the
    phases whose start date is on or before the first day of the week, the
    later phase of the list winning between phases that start on the same
    day; when no phase has started, the week is "Pre-campaign" with no
    active region and low intensity. *)
Theorem week_shows_latest_started_phase regional_data release_date
    budget_total campaign_weeks movie_profile precomputed now0 now1 plan :
  rollout regional_data release_date budget_total campaign_weeks
    movie_profile precomputed now0 now1 = Ok plan ->
  forall (i : nat) wk,
    timeline plan !! i = Some wk -> shows_latest_started (phases plan) wk.
Proof.
  intros H i wk Hwk.
  apply create_rollout_plan_Ok in H
    as (release_dt & ms & _ & Hw & _ & _ & _ & Hph & _ & Htl & _).
  cbv zeta in *. rewrite Htl in Hwk. rewrite Hph.
  set (w := cp_campaign_weeks _) in *.
  set (ranked := ranked_regions _) in *.
  set (sg := movie_positioning (campaign_overview plan)) in *.
  set (phs := _create_phases _ _ _ _ _) in *.
  apply timeline_lookup_in_campaign in Hwk as [Hi ->]; [| exact Hw].
  unfold shows_latest_started.
  set (current := release_dt - weeks w + weeks (Z.of_nat i)).
  unfold timeline_entry.
  cbn [tw_start_date tw_phase active_regions tw_intensity].
  destruct (active_phase_at phs current) as [p |] eqn:Ea.
  - right. apply active_phase_at_Some in Ea as (j & Hj & Hs & Hmax).
    exists j, p. split; [exact Hj |]. split; [exact Hs |].
    split; [| repeat split].
    intros j' q Hq Hqs. specialize (Hmax j' q Hq Hqs).
    pose proof (phases_sorted_in_campaign ranked release_dt sg w Hw
                  j' j q p Hq Hj Hmax) as Hle.
    destruct (Z.eq_dec (ph_start_date q) (ph_start_date p));
      [right; split; assumption | left; lia].
  - left. split; [| repeat split].
    apply active_phase_at_None. exact Ea.
Qed.

(** X25. The milestones of a plan whose campaign starts in year 1000 or
    later are in strictly ascending order of date. The first is the
    campaign launch, on the campaign start; the last is the release day, on
    the release date; the trailer (four weeks before the release), the
    pre-sales (two weeks before) and the premiere (one week before) are
    present exactly when their date is after the campaign start. *)
Theorem milestones_sorted_and_anchored regional_data release_date
    budget_total campaign_weeks movie_profile precomputed now0 now1 plan :
  rollout regional_data release_date budget_total campaign_weeks
    movie_profile precomputed now0 now1 = Ok plan ->
  YEAR_1000 <= campaign_start (campaign_overview plan) ->
  exists release_dt,
    let ms := key_milestones plan in
    let start := campaign_start (campaign_overview plan) in
    let release := toordinal release_dt in
    parse_release_date release_date now0 = Ok release_dt
    /\ Sorted (fun a b => ms_date a < ms_date b) ms
    /\ (exists first, head ms = Some first
                      /\ milestone first = LAUNCH /\ ms_date first = start)
    /\ (exists final, last ms = Some final
                      /\ milestone final = RELEASE_DAY
                      /\ ms_date final = release)
    /\ (has_milestone ms TRAILER <-> start < release - 7 * 4)
    /\ (has_milestone ms PRESALES <-> start < release - 7 * 2)
    /\ (has_milestone ms PREMIERE <-> start < release - 7 * 1)
    /\ forall m,
         m ∈ ms ->
         (milestone m = TRAILER -> ms_date m = release - 7 * 4)
         /\ (milestone m = PRESALES -> ms_date m = release - 7 * 2)
         /\ (milestone m = PREMIERE -> ms_date m = release - 7 * 1).
Proof.
  intros H Hy.
  apply create_rollout_plan_Ok in H
    as (release_dt & ms & Hp & Hw & Hs0 & Hms & Hov & _ & _ & _ & Hkm & _ & _
        & _ & _ & Hmax).
  exists release_dt. cbv zeta in *. rewrite Hov in Hy |- *. rewrite Hkm.
  cbn [campaign_start] in *.
  set (w := cp_campaign_weeks _) in *.
  assert (0 < weeks w) by (unfold weeks, days, US_PER_DAY; lia).
  pose proof (toordinal_range (release_dt - weeks w) ltac:(lia)) as Hr1.
  pose proof (toordinal_range release_dt ltac:(lia)) as Hr2.
  rewrite generate_milestones_by_day in Hms
    by (rewrite ?toordinal_sub_weeks in *; lia).
  rewrite toordinal_sub_weeks. clear Hy Hr1 Hr2.
  set (R := toordinal release_dt).
  pose proof (generate_milestones_in_campaign release_dt w ms Hw Hms) as Hv.
  cbv zeta in Hv. fold R in Hv.
  split; [exact Hp |].
  assert (Sorted Z.lt (ms_date <$> ms)) as Hsorted.
  { change ms_date with (fst ∘ milestone_view).
    rewrite list_fmap_compose, Hv.
    destruct (Z.ltb_spec 4 w), (Z.ltb_spec 2 w), (Z.ltb_spec 1 w); try lia;
      cbn [app fmap list_fmap fst];
      repeat first [apply Sorted_nil | apply Sorted_cons | apply HdRel_nil
                   | apply HdRel_cons]; lia. }
  split; [| split; [| split]].
  - clear -Hsorted. induction ms as [| a l IH]; [constructor |].
    cbn [fmap list_fmap] in Hsorted. apply Sorted_inv in Hsorted as [Hl Hh].
    constructor; [apply IH; exact Hl |].
    destruct l; [constructor |]. constructor.
    apply HdRel_inv in Hh. exact Hh.
  - destruct ms as [| first rest]; [discriminate |].
    exists first. split; [reflexivity |].
    apply (f_equal head) in Hv. cbn [app fmap list_fmap head] in Hv.
    injection Hv as Hd Hn. split; [exact Hn | exact Hd].
  - assert (last (milestone_view <$> ms) = Some (R, RELEASE_DAY)) as Hl.
    { rewrite Hv, !app_assoc. apply last_snoc. }
    rewrite fmap_last in Hl. apply fmap_Some in Hl as (final & Hf & Heq).
    exists final. split; [exact Hf |]. injection Heq as Hd Hn.
    split; [symmetry; exact Hn | symmetry; exact Hd].
  - rewrite !has_milestone_view, Hv.
    assert (forall m, m ∈ ms -> milestone_view m ∈ milestone_view <$> ms)
      as Hin by (intros m Hm; apply list_elem_of_fmap; eauto).
    rewrite Hv in Hin. unfold milestone_view at 1 in Hin.
    destruct (Z.ltb_spec 4 w), (Z.ltb_spec 2 w), (Z.ltb_spec 1 w); try lia;
      cbn [app fmap list_fmap snd] in Hin |- *.
    all: repeat split; intros.
    all: first
      [ lia
      | solve [rewrite !elem_of_cons; auto 10]
      | exfalso;
        match goal with
        | Hm : _ ∈ _ :: _ |- _ => view_cases Hm; discriminate Hm
        end
      | match goal with
        | Hm : ?m ∈ _, Hn : milestone ?m = _ |- _ =>
            specialize (Hin m Hm); rewrite Hn in Hin; view_cases Hin;
            try discriminate Hin; injection Hin as ->; reflexivity
        end ].
Qed.

End PlanClaims.

Lemma phase_percentages_sum_to_100_witness :
  exists plan,
    Sample.plan "2024-06-15" (Some 2000000%Q) (Some 6) None
      (Some Sample.comparison) = Ok plan
    /\ foldr Z.add 0 (budget_percentage <$> phases plan) = 100.
Proof.
  eexists. split; [vm_compute; reflexivity |].
  apply (phase_percentages_sum_to_100 Sample.float_of_str Sample.int_of_str
           Sample.compare_regions Sample.signature None "2024-06-15"
           (Some 2000000%Q) (Some 6) None (Some Sample.comparison)
           Sample.now Sample.now);
    [vm_compute; reflexivity | discriminate].
Defined.

Lemma timeline_tiles_the_campaign_witness :
  exists plan,
    Sample.plan "2024-06-15" (Some 2000000%Q) (Some 6) None
      (Some Sample.comparison) = Ok plan
    /\ length (timeline plan)
       = Z.to_nat (ov_duration_weeks (campaign_overview plan)).
Proof.
  eexists. split; [vm_compute; reflexivity |].
  destruct (timeline_tiles_the_campaign Sample.float_of_str Sample.int_of_str
              Sample.compare_regions Sample.signature None "2024-06-15"
              (Some 2000000%Q) (Some 6) None (Some Sample.comparison)
              Sample.now Sample.now _ ltac:(vm_compute; reflexivity))
    as (release_dt & _ & _ & _ & _ & _ & _ & Hlen).
  exact Hlen.
Defined.

Lemma week_shows_latest_started_phase_witness :
  exists plan,
    Sample.plan "2024-06-15" (Some 2000000%Q) (Some 6) None
      (Some Sample.comparison) = Ok plan
    /\ forall (i : nat) wk,
         timeline plan !! i = Some wk ->
         shows_latest_started (phases plan) wk.
Proof.
  eexists. split; [vm_compute; reflexivity |].
  apply (week_shows_latest_started_phase Sample.float_of_str
           Sample.int_of_str Sample.compare_regions Sample.signature None
           "2024-06-15" (Some 2000000%Q) (Some 6) None
           (Some Sample.comparison) Sample.now Sample.now).
  vm_compute. reflexivity.
Defined.

Lemma milestones_sorted_and_anchored_witness :
  exists plan,
    Sample.plan "2024-06-15" (Some 2000000%Q) (Some 6) None
      (Some Sample.comparison) = Ok plan
    /\ Sorted (fun a b => ms_date a < ms_date b) (key_milestones plan).
Proof.
  eexists. split; [vm_compute; reflexivity |].
  destruct (milestones_sorted_and_anchored Sample.float_of_str
              Sample.int_of_str Sample.compare_regions Sample.signature None
              "2024-06-15" (Some 2000000%Q) (Some 6) None
              (Some Sample.comparison) Sample.now Sample.now _
              ltac:(vm_compute; reflexivity) ltac:(vm_compute; discriminate))
    as (release_dt & _ & Hs & _).
  exact Hs.
Defined.

(** C9. The milestones are sorted by the text of their date (line 413),
    and [strftime] does not pad a year below 1000. For a release on
    1000-01-10 and a campaign of three weeks the plan lists the premiere
    and the release day, of year 1000, before the campaign launch and the
    pre-sales, of year 999: the list is not in ascending order of date, the
    launch is not first and the release day is not last. *)
Theorem milestones_misordered_across_year_1000 :
  exists plan,
    Sample.plan "1000-01-10" None (Some 3) None None = Ok plan
    /\ milestone <$> key_milestones plan
       = [PREMIERE; RELEASE_DAY; LAUNCH; PRESALES]
    /\ date_text ∘ ms_date <$> key_milestones plan
       = ["1000-01-03"; "1000-01-10"; "999-12-20"; "999-12-27"]
    /\ ms_date <$> key_milestones plan
       = [YEAR_1000 + 2; YEAR_1000 + 9; YEAR_1000 - 12; YEAR_1000 - 5]
    /\ campaign_start (campaign_overview plan) = YEAR_1000 - 12
    /\ ~ Sorted (fun a b => ms_date a < ms_date b) (key_milestones plan)
    /\ milestone <$> head (key_milestones plan) <> Some LAUNCH
    /\ milestone <$> last (key_milestones plan) <> Some RELEASE_DAY.
Proof.
  eexists. split; [vm_compute; reflexivity |].
  split; [reflexivity |]. split; [vm_compute; reflexivity |].
  split; [vm_compute; reflexivity |]. split; [vm_compute; reflexivity |].
  split; [| split; discriminate].
  intros H. apply Sorted_inv in H as [H _]. apply Sorted_inv in H as [_ H].
  apply HdRel_inv in H. vm_compute in H. discriminate H.
Qed.

(** * Properties of the budget allocation *)


Lemma allocate_region_zero (total_pct total_budget : Q) (r : RegionScore) :
  (total_pct <= 0)%Q ->
  let a := allocate_region total_pct total_budget r in
  (budget_amount a == 0)%Q /\ (percentage a == 0)%Q.
Proof.
  intros Hz. unfold allocate_region. cbn [budget_amount percentage].
  rewrite (proj2 (PyFacts.Qltb_ge 0 total_pct)) by lra.
  split; [| apply round_nd_0].
  rewrite <- (round_nd_0 2) at 2. apply round_nd_proper; [| reflexivity].
  field.
Qed.







(** * Errors and fallbacks *)

(** ** When a plan is returned *)

Lemma generate_milestones_Ok (start release_dt : datetime) :
  weeks 4 <= release_dt < MAX_ORDINAL * US_PER_DAY ->
  exists ms, _generate_milestones start release_dt = Ok ms.
Proof.
  intros Hr. unfold _generate_milestones, milestone_list.
  rewrite !dt_sub_Ok_intro by (unfold weeks, days, US_PER_DAY in *; lia).
  cbn [mbind result_bind mret result_ret]. eauto.
Qed.

Section ErrorClaims.

Variable float_of_str : string -> option Q.
Variable int_of_str : string -> option Z.
Variable compare_regions : gmap string (gmap string PyVal) -> Comparison.
Variable _extract_movie_signature :
  option (gmap string PyVal) -> result MovieSignature.

#[local] Abbreviation rollout :=
  (create_rollout_plan float_of_str int_of_str compare_regions
     _extract_movie_signature).
#[local] Abbreviation parameters :=
  (planning_parameters_of float_of_str int_of_str).
#[local] Abbreviation comparison := (comparison_of compare_regions).







End ErrorClaims.



(** * The release gap and the scenarios of the specification *)

(** The release gap in weeks is the ceiling of the days left, if any, over
    seven. *)
Lemma release_gap_weeks_ceiling (release_dt now : datetime) :
  release_gap_weeks_of release_dt now
  = Qceiling (inject_Z (Z.max 0 (td_days (release_dt - now))) / 7).
Proof.
  unfold release_gap_weeks_of, Py.ceil.
  destruct (Z.eqb_spec (Z.max 0 (td_days (release_dt - now))) 0) as [-> | _];
    reflexivity.
Qed.

Lemma release_gap_weeks_nonneg (release_dt now : datetime) :
  0 <= release_gap_weeks_of release_dt now.
Proof.
  rewrite release_gap_weeks_ceiling.
  change 0 with (Qceiling (inject_Z 0)) at 1. apply Qceiling_resp_le.
  apply Qle_shift_div_l; [reflexivity |].
  rewrite Qmult_0_l. change 0%Q with (inject_Z 0). rewrite <- Zle_Qle. lia.
Qed.

(** Overrides of 2,000,000 and 6 weeks, release on 2024-06-15, two Tier-A
    regions, one Tier-B and one Tier-C: three phases, the first on the
    campaign start, percentages adding up to 100, the budget as given. *)
Example scenario_overrides :
  exists plan,
    Sample.plan "2024-06-15" (Some 2000000%Q) (Some 6) None
      (Some Sample.comparison) = Ok plan
    /\ intensity <$> phases plan = [High; Medium; Low]
    /\ ph_start_date <$> head (phases plan)
       = Some (campaign_start (campaign_overview plan))
    /\ budget_percentage <$> phases plan = [47; 32; 21]
    /\ ov_total_budget (campaign_overview plan) = 2000000
    /\ ov_duration_weeks (campaign_overview plan) = 6.
Proof. eexists. split; [vm_compute; reflexivity |]. repeat split. Qed.

(** No region data and no profile, release 90 days after [Sample.now]: 13
    weeks from the release gap, 400,000 from the 350,000 baseline, no
    phase. *)
Example scenario_no_regions :
  exists plan,
    Sample.plan "2024-05-01" None None None None = Ok plan
    /\ ov_duration_weeks (campaign_overview plan) = 13
    /\ ov_total_budget (campaign_overview plan) = 400000
    /\ head (budget_drivers (plan_logic plan)) = Some BudIndieBaseline
    /\ phases plan = [].
Proof. eexists. split; [vm_compute; reflexivity |]. repeat split. Qed.

(** A 200,000,000 production with popularity 85 and four Tier-A regions,
    13 weeks ahead: ratio 0.40 and one more week for each of the three
    signals, up to the ceiling of 16 weeks. *)
Example scenario_tentpole :
  let profile : gmap string PyVal :=
    {[ "budget" := PInt 200000000; "popularity" := PInt 85 ]} in
  let regions :=
    {| ranked_regions :=
         [Sample.score "US" 90 TierA 30; Sample.score "GB" 85 TierA 30;
          Sample.score "DE" 80 TierA 20; Sample.score "FR" 80 TierA 20];
       recommendations := [] |} in
  let p :=
    _derive_campaign_parameters Sample.float_of_str Sample.int_of_str profile
      regions None None (Sample.now + days 90) Sample.now in
  cp_campaign_weeks p = 16
  /\ duration_drivers (cp_logic p)
     = [DurRunway 13 13; DurHighPopularity 85; DurTierA 4; DurTentpole]
  /\ head (budget_drivers (cp_logic p))
     = Some (BudProductionBaseline 0.4 200000000)
  /\ cp_total_budget p = 20000000.
Proof. vm_compute. repeat split. Qed.


(** * Further properties of the parameter derivation *)

Lemma int_of_integer (z : Z) : Py.int (inject_Z z) = z.
Proof. unfold Py.int. simpl. apply Z.quot_1_r. Qed.

Lemma finalize_budget_mono (x y : Q) :
  (x <= y)%Q -> finalize_budget x <= finalize_budget y.
Proof.
  intros Hxy. unfold finalize_budget.
  apply Z.max_le_compat_l. apply Z.mul_le_mono_nonneg_r; [lia |].
  apply round_mono. apply Qmult_le_compat_r; [| discriminate].
  destruct (PyFacts.max_spec 250000 (Py.min x 20000000)) as (A1 & A2 & A3).
  destruct (PyFacts.max_spec 250000 (Py.min y 20000000)) as (B1 & B2 & B3).
  destruct (PyFacts.min_spec x 20000000) as (C1 & C2 & C3).
  destruct (PyFacts.min_spec y 20000000) as (D1 & D2 & D3).
  destruct A3, B3, C3, D3; lra.
Qed.

Lemma finalize_budget_floor (x : Q) :
  (x <= 250000)%Q -> finalize_budget x = 250000.
Proof.
  intros Hx. unfold finalize_budget.
  assert (Py.max 250000 (Py.min x 20000000) / 50000 == 5)%Q as ->.
  { destruct (PyFacts.max_spec 250000 (Py.min x 20000000)) as (A1 & A2 & A3).
    destruct (PyFacts.min_spec x 20000000) as (C1 & C2 & C3).
    assert (Py.max 250000 (Py.min x 20000000) == 250000)%Q as ->
      by (destruct A3, C3; lra).
    reflexivity. }
  reflexivity.
Qed.

Lemma derive_budget_value (int_of_str : string -> option Z)
    (mp : gmap string PyVal) (popularity production_budget : Q)
    (na nb : nat) (ii : Q) :
  (derive_budget int_of_str mp None popularity production_budget na nb ii).1
  = finalize_budget
      (base_budget_of production_budget popularity na nb ii
         (profile_vote_count int_of_str mp)).
Proof.
  unfold derive_budget, base_budget_of, tier_factor_of, interest_factor_of,
    audience_factor_of.
  destruct (Py.Qltb 0 production_budget); cbn zeta;
    destruct (profile_vote_count int_of_str mp =? 0); reflexivity.
Qed.

Lemma marketing_ratio_pos (pb : Q) : (0 < marketing_ratio_of pb)%Q.
Proof.
  unfold marketing_ratio_of.
  destruct (Qle_bool 150000000 pb), (Qle_bool 75000000 pb),
    (Qle_bool 25000000 pb); reflexivity.
Qed.

Lemma pop_score_range (p : Q) : (0 <= pop_score_of p <= 100)%Q.
Proof.
  unfold pop_score_of.
  destruct (PyFacts.max_spec 0 (Py.min p 100)) as (A1 & A2 & A3).
  destruct (PyFacts.min_spec p 100) as (C1 & C2 & C3).
  destruct A3, C3; split; lra.
Qed.

Lemma pop_score_mono (p p' : Q) :
  (p <= p')%Q -> (pop_score_of p <= pop_score_of p')%Q.
Proof.
  intros H. unfold pop_score_of.
  destruct (PyFacts.max_spec 0 (Py.min p 100)) as (A1 & A2 & A3).
  destruct (PyFacts.max_spec 0 (Py.min p' 100)) as (B1 & B2 & B3).
  destruct (PyFacts.min_spec p 100) as (C1 & C2 & C3).
  destruct (PyFacts.min_spec p' 100) as (D1 & D2 & D3).
  destruct A3, B3, C3, D3; lra.
Qed.

Lemma popularity_factor_range (p : Q) :
  (1 <= popularity_factor_of p <= 1.35)%Q.
Proof.
  unfold popularity_factor_of, Qdiv. change (/ 100)%Q with (1 # 100).
  pose proof (pop_score_range p). split; lra.
Qed.

Lemma popularity_factor_mono (p p' : Q) :
  (p <= p')%Q -> (popularity_factor_of p <= popularity_factor_of p')%Q.
Proof.
  intros H. unfold popularity_factor_of, Qdiv.
  change (/ 100)%Q with (1 # 100). pose proof (pop_score_mono p p' H). lra.
Qed.

Lemma capped_count_mono (n n' : nat) :
  (n <= n')%nat ->
  (0 <= inject_Z (Z.of_nat (Nat.min n 4))
   <= inject_Z (Z.of_nat (Nat.min n' 4)))%Q
  /\ (inject_Z (Z.of_nat (Nat.min n' 4)) <= 4)%Q.
Proof.
  intros H. change 0%Q with (inject_Z 0). change 4%Q with (inject_Z 4).
  rewrite <- !Zle_Qle. lia.
Qed.

Lemma tier_factor_mono (na na' nb nb' : nat) :
  (na <= na')%nat -> (nb <= nb')%nat ->
  (1 <= tier_factor_of na nb <= tier_factor_of na' nb')%Q
  /\ (tier_factor_of na' nb' <= 1.44)%Q.
Proof.
  intros Ha Hb. unfold tier_factor_of.
  destruct (capped_count_mono na na' Ha) as [[? ?] ?].
  destruct (capped_count_mono nb nb' Hb) as [[? ?] ?].
  repeat split; lra.
Qed.

Lemma interest_factor_mono (ii ii' : Q) :
  (ii <= ii')%Q ->
  (1 <= interest_factor_of ii <= interest_factor_of ii')%Q.
Proof.
  intros H. unfold interest_factor_of.
  destruct (PyFacts.max_spec 0 (ii - 0.55)) as (A1 & A2 & A3).
  destruct (PyFacts.max_spec 0 (ii' - 0.55)) as (B1 & B2 & B3).
  destruct A3, B3; split; lra.
Qed.

Lemma baseline_pos (pb : Q) :
  (0 < (if Py.Qltb 0 pb then pb * marketing_ratio_of pb else 350000))%Q.
Proof.
  destruct (Py.Qltb 0 pb) eqn:E; [| reflexivity].
  apply PyFacts.Qltb_lt in E.
  apply Qmult_lt_0_compat; [exact E | apply marketing_ratio_pos].
Qed.

Lemma base_budget_mono (pb p p' : Q) (na na' nb nb' : nat) (ii ii' : Q)
    (votes : Z) :
  (p <= p')%Q -> (na <= na')%nat -> (nb <= nb')%nat -> (ii <= ii')%Q ->
  finalize_budget (base_budget_of pb p na nb ii votes)
  <= finalize_budget (base_budget_of pb p' na' nb' ii' votes).
Proof.
  intros Hp Ha Hb Hi. unfold base_budget_of. cbv zeta.
  pose proof (baseline_pos pb) as Hb0.
  set (b := if Py.Qltb 0 pb then _ else _) in *.
  pose proof (popularity_factor_range p) as [Hp1 _].
  pose proof (popularity_factor_mono p p' Hp) as Hp2.
  destruct (tier_factor_mono na na' nb nb' Ha Hb) as [[Ht1 Ht2] _].
  destruct (interest_factor_mono ii ii' Hi) as [Hi1 Hi2].
  set (f := popularity_factor_of p) in *.
  set (f' := popularity_factor_of p') in *.
  set (t := tier_factor_of na nb) in *.
  set (t' := tier_factor_of na' nb') in *.
  set (i := interest_factor_of ii) in *.
  set (i' := interest_factor_of ii') in *.
  assert (0 < b * f * t * i)%Q as Hpos
    by (repeat apply Qmult_lt_0_compat; lra).
  assert (b * f * t * i <= b * f' * t' * i')%Q as Hle.
  { assert (b * f <= b * f')%Q by nra.
    assert (0 < b * f)%Q by nra.
    assert (b * f * t <= b * f' * t')%Q by nra.
    assert (0 < b * f * t)%Q by nra.
    nra. }
  destruct (votes =? 0); [apply finalize_budget_mono; exact Hle |].
  set (a := audience_factor_of votes).
  destruct (Qlt_le_dec a 0) as [Hneg | Hnonneg].
  - rewrite !finalize_budget_floor by nra. lia.
  - apply finalize_budget_mono. nra.
Qed.

Section ParameterProperties.

Variable float_of_str : string -> option Q.
Variable int_of_str : string -> option Z.
Variable compare_regions : gmap string (gmap string PyVal) -> Comparison.
Variable _extract_movie_signature :
  option (gmap string PyVal) -> result MovieSignature.

#[local] Abbreviation rollout :=
  (create_rollout_plan float_of_str int_of_str compare_regions
     _extract_movie_signature).
#[local] Abbreviation derive :=
  (_derive_campaign_parameters float_of_str int_of_str).

(** X1. A budget override is cast to an integer and used as it is: no
    rule of the budget logic applies to it, the bounds of 250,000 and
    20,000,000 and the rounding to 50,000 included; the budget log has the
    single overridden line and the plan reports the value. An override
    that is an integer is reported unchanged. *)
Theorem budget_override_is_not_clamped regional_data release_date (b : Q)
    campaign_weeks movie_profile precomputed now0 now1 plan :
  rollout regional_data release_date (Some b) campaign_weeks movie_profile
    precomputed now0 now1 = Ok plan ->
  ov_total_budget (campaign_overview plan) = Py.int b
  /\ budget_drivers (plan_logic plan) = [BudOverridden (Py.int b)]
  /\ forall z : Z,
       b = inject_Z z -> ov_total_budget (campaign_overview plan) = z.
Proof.
  intros H.
  apply create_rollout_plan_Ok in H
    as (rdt & ms & _ & _ & _ & _ & -> & _ & _ & _ & _ & -> & _).
  cbn [ov_total_budget]. unfold planning_parameters_of.
  assert (cp_total_budget
            (derive (default ∅ movie_profile)
               (comparison_of compare_regions regional_data precomputed)
               (Some b) campaign_weeks rdt now1) = Py.int b) as Hb
    by (rewrite derive_budget_total; reflexivity).
  split; [exact Hb |]. split.
  - unfold _derive_campaign_parameters. cbn [derive_budget].
    destruct (derive_duration _ _ _ _ _). reflexivity.
  - intros z ->. rewrite Hb. apply int_of_integer.
Qed.

(** X2. When the release is less than one full day ahead of now, or past,
    the release gap is 0 weeks and the duration starts from the 6-week
    sustain default: the derived campaign has between 6 and 9 weeks, and
    the duration log opens with the sustain line. *)
Theorem in_market_release_gets_sustain_push movie_profile regional_summary
    override_budget release_dt now :
  release_dt - now < days 1 ->
  let p :=
    derive movie_profile regional_summary override_budget None release_dt
      now in
  6 <= cp_campaign_weeks p <= 9
  /\ head (duration_drivers (cp_logic p)) = Some DurSustain
  /\ sg_release_gap_weeks (signals (cp_logic p)) = 0.
Proof.
  intros Hgap. cbv zeta.
  assert (release_gap_weeks_of release_dt now = 0) as Hz.
  { unfold release_gap_weeks_of.
    assert (td_days (release_dt - now) <= 0) as Hd.
    { unfold td_days. apply Z.lt_succ_r.
      apply Z.div_lt_upper_bound; [reflexivity |].
      unfold days in Hgap. lia. }
    rewrite Z.max_l by lia. reflexivity. }
  split; [| split].
  - rewrite derive_weeks, derive_duration_spec, Hz.
    unfold Spec.campaign_weeks, Spec.clamp, Spec.bonus. cbn [Z.ltb Z.compare].
    destruct (Qle_bool 70 _), (3 <=? _)%nat, (Qle_bool 150000000 _); lia.
  - unfold _derive_campaign_parameters. rewrite Hz. unfold derive_duration.
    cbn [Z.ltb Z.compare].
    destruct (Qle_bool 70 _), (3 <=? _)%nat, (Qle_bool 150000000 _);
      destruct (derive_budget _ _ _ _ _ _ _ _); reflexivity.
  - unfold _derive_campaign_parameters.
    destruct (derive_duration _ _ _ _ _), (derive_budget _ _ _ _ _ _ _ _).
    exact Hz.
Qed.

(** X3. Without a budget override, the derived budget never goes down when
    the popularity, the number of Tier-A regions, the number of Tier-B
    regions or the interest index goes up, the rest of the inputs being the
    same. *)
Theorem derived_budget_is_monotone (movie_profile : gmap string PyVal)
    (production_budget p p' : Q) (na na' nb nb' : nat) (ii ii' : Q) :
  (p <= p')%Q -> (na <= na')%nat -> (nb <= nb')%nat -> (ii <= ii')%Q ->
  (derive_budget int_of_str movie_profile None p production_budget na nb
     ii).1
  <= (derive_budget int_of_str movie_profile None p' production_budget na'
        nb' ii').1.
Proof.
  intros Hp Ha Hb Hi. rewrite !derive_budget_value.
  apply base_budget_mono; assumption.
Qed.

End ParameterProperties.

Lemma budget_override_is_not_clamped_witness :
  exists plan,
    Sample.plan "2024-06-15" (Some 1234.9%Q) None None
      (Some Sample.comparison) = Ok plan
    /\ ov_total_budget (campaign_overview plan) = Py.int 1234.9.
Proof.
  eexists. split; [vm_compute; reflexivity |].
  refine (proj1 (budget_override_is_not_clamped Sample.float_of_str
                   Sample.int_of_str Sample.compare_regions Sample.signature
                   None "2024-06-15" 1234.9%Q None None
                   (Some Sample.comparison) Sample.now Sample.now _ _)).
  vm_compute. reflexivity.
Defined.

Lemma in_market_release_gets_sustain_push_witness :
  let p :=
    _derive_campaign_parameters Sample.float_of_str Sample.int_of_str ∅
      Sample.comparison None None (Sample.now + days 1 - 1) Sample.now in
  Sample.now + days 1 - 1 - Sample.now < days 1
  /\ 6 <= cp_campaign_weeks p <= 9.
Proof.
  split; [reflexivity |].
  apply (in_market_release_gets_sustain_push Sample.float_of_str
           Sample.int_of_str ∅ Sample.comparison None
           (Sample.now + days 1 - 1) Sample.now).
  reflexivity.
Defined.

Lemma derived_budget_is_monotone_witness :
  (45 <= 85)%Q /\ (2 <= 4)%nat /\ (1 <= 1)%nat /\ (0.55 <= 0.9)%Q
  /\ (derive_budget Sample.int_of_str ∅ None 45 0 2 1 0.55).1
     <= (derive_budget Sample.int_of_str ∅ None 85 0 4 1 0.9).1.
Proof.
  assert (45 <= 85)%Q as H1 by discriminate.
  assert (2 <= 4)%nat as H2 by lia.
  assert (1 <= 1)%nat as H3 by lia.
  assert (0.55 <= 0.9)%Q as H4 by discriminate.
  split; [exact H1 |]. split; [exact H2 |]. split; [exact H3 |].
  split; [exact H4 |].
  apply (derived_budget_is_monotone Sample.int_of_str ∅ 0 45 85 2 4 1 1
           0.55 0.9 H1 H2 H3 H4).
Defined.

(** * Further properties of the phases *)

Lemma phase_duration_whole_weeks (release_dt : datetime) (k : Z) :
  1 <= k -> _phase_duration release_dt (release_dt - weeks k) = k.
Proof.
  intros Hk. unfold _phase_duration, Py.ceil.
  replace (release_dt - (release_dt - weeks k)) with (weeks k) by lia.
  rewrite td_days_weeks.
  assert (inject_Z (7 * k) / 7 == inject_Z k)%Q as ->.
  { rewrite inject_Z_mult. change (inject_Z 7) with 7%Q. field. }
  rewrite Qceiling_Z. lia.
Qed.

Lemma create_phases_schedule (ranked : list RegionScore)
    (release_dt : datetime) (sg : MovieSignature) (w : Z) :
  1 <= w ->
  let start := release_dt - weeks w in
  phase_schedule <$> _create_phases ranked start release_dt sg w
  = (fun t =>
       (Spec.intensity_of t, toordinal start + 7 * offsets w t,
        w - offsets w t, region <$> in_tier t ranked)) <$> Spec.present ranked.
Proof.
  intros Hw start.
  destruct (phase_start_in_campaign release_dt w TierB Hw) as (Hs & HB1 & HB2).
  destruct (phase_start_in_campaign release_dt w TierC Hw) as (_ & HC1 & HC2).
  fold start in Hs, HB1, HB2, HC1, HC2.
  assert (forall t, _phase_duration release_dt (start + weeks (offsets w t))
                    = w - offsets w t) as Hd.
  { intros t. pose proof (offsets_range w t Hw).
    replace (start + weeks (offsets w t))
      with (release_dt - weeks (w - offsets w t))
      by (subst start; unfold weeks, days; lia).
    apply phase_duration_whole_weeks. lia. }
  pose proof (Hd TierA) as HdA. cbn [offsets] in HdA.
  replace (start + weeks 0) with start in HdA by (unfold weeks, days; lia).
  unfold _create_phases, Spec.present, Spec.has_regions.
  cbn zeta. rewrite Hs, HB1, HB2, HC1, HC2, HdA, (Hd TierB), (Hd TierC).
  cbn [List.filter].
  destruct (in_tier TierA ranked) as [| a la] eqn:Ea,
    (in_tier TierB ranked) as [| b lb] eqn:Eb,
    (in_tier TierC ranked) as [| c lc] eqn:Ec;
    cbn [fmap list_fmap app phase_schedule ph_start_date intensity
         regions duration_weeks Spec.intensity_of];
    rewrite ?toordinal_add_weeks; rewrite ?Ea, ?Eb, ?Ec;
    cbn [fmap list_fmap offsets]; rewrite ?Z.mul_0_r, ?Z.add_0_r, ?Z.sub_0_r;
    reflexivity.
Qed.

Lemma in_tier_partition (ranked : list RegionScore) :
  in_tier TierA ranked ++ in_tier TierB ranked ++ in_tier TierC ranked
  ≡ₚ ranked.
Proof.
  unfold in_tier. induction ranked as [| r l IH]; [reflexivity |].
  rewrite !filter_cons. destruct (tier r); simpl.
  - rewrite IH. reflexivity.
  - rewrite <- Permutation_middle, IH. reflexivity.
  - rewrite app_assoc, <- Permutation_middle, <- app_assoc, IH. reflexivity.
Qed.

Lemma present_regions_concat (ranked : list RegionScore) :
  concat ((fun t => region <$> in_tier t ranked) <$> Spec.present ranked)
  = region <$> (in_tier TierA ranked ++ in_tier TierB ranked
                ++ in_tier TierC ranked).
Proof.
  unfold Spec.present, Spec.has_regions. cbn [List.filter].
  destruct (in_tier TierA ranked) as [| a la] eqn:Ea,
    (in_tier TierB ranked) as [| b lb] eqn:Eb,
    (in_tier TierC ranked) as [| c lc] eqn:Ec;
    cbn [fmap list_fmap concat app]; rewrite ?Ea, ?Eb, ?Ec;
    rewrite ?app_nil_r; repeat (rewrite fmap_app || rewrite fmap_cons);
    cbn [fmap list_fmap app]; reflexivity.
Qed.

Lemma present_length (ranked : list RegionScore) :
  (length (Spec.present ranked) <= 3)%nat.
Proof.
  unfold Spec.present. cbn [List.filter].
  destruct (Spec.has_regions ranked TierA), (Spec.has_regions ranked TierB),
    (Spec.has_regions ranked TierC); simpl; lia.
Qed.

Lemma offsets_lower (w : Z) :
  (2 <= w -> 1 <= offsets w TierB)
  /\ (3 <= w -> 2 <= offsets w TierC)
  /\ (w = 2 -> offsets w TierC = 1)
  /\ (w = 1 -> forall t, offsets w t = 0).
Proof.
  cbn [offsets]. unfold _offset. repeat split.
  - intros H. destruct (Z.leb_spec w 1); lia.
  - intros H. destruct (Z.leb_spec w 2); lia.
  - intros ->. reflexivity.
  - intros -> t. destruct t; reflexivity.
Qed.

Lemma lookup_fmap_view {A B : Type} (f : A -> B) (l : list A) (x : A) :
  x ∈ l -> f x ∈ f <$> l.
Proof. intros H. apply list_elem_of_fmap. eauto. Qed.

Section PhaseProperties.

Variable float_of_str : string -> option Q.
Variable int_of_str : string -> option Z.
Variable compare_regions : gmap string (gmap string PyVal) -> Comparison.
Variable _extract_movie_signature :
  option (gmap string PyVal) -> result MovieSignature.

#[local] Abbreviation rollout :=
  (create_rollout_plan float_of_str int_of_str compare_regions
     _extract_movie_signature).
#[local] Abbreviation comparison := (comparison_of compare_regions).

Lemma plan_phase_schedule regional_data release_date budget_total
    campaign_weeks movie_profile precomputed now0 now1 plan :
  rollout regional_data release_date budget_total campaign_weeks
    movie_profile precomputed now0 now1 = Ok plan ->
  exists release_dt,
    let ov := campaign_overview plan in
    let w := ov_duration_weeks ov in
    let ranked := ranked_regions (comparison regional_data precomputed) in
    parse_release_date release_date now0 = Ok release_dt
    /\ 1 <= w
    /\ campaign_start ov = toordinal release_dt - 7 * w
    /\ phase <$> phases plan = seq 1 (length (phases plan))
    /\ phase_schedule <$> phases plan
       = (fun t =>
            (Spec.intensity_of t, campaign_start ov + 7 * offsets w t,
             w - offsets w t, region <$> in_tier t ranked))
           <$> Spec.present ranked.
Proof.
  intros H.
  apply create_rollout_plan_Ok in H
    as (release_dt & ms & Hp & Hw & _ & _ & Hov & Hph & _).
  exists release_dt. cbv zeta in *. rewrite Hov, Hph.
  cbn [campaign_start ov_duration_weeks].
  set (w := cp_campaign_weeks _) in *.
  split; [exact Hp |]. split; [exact Hw |].
  split; [apply toordinal_sub_weeks |]. split.
  - apply (create_phases_in_campaign _ release_dt _ w Hw).
  - apply (create_phases_schedule _ release_dt _ w Hw).
Qed.

(** X4. In every plan there are at most three phases, numbered 1, 2, ...
    in order; each phase starts on or after the campaign start and at
    least a week before the release, lasts at least one week, and runs
    until the release date: its start plus seven days for each of its
    weeks is the release date. *)
Theorem phases_run_until_release regional_data release_date budget_total
    campaign_weeks movie_profile precomputed now0 now1 plan :
  rollout regional_data release_date budget_total campaign_weeks
    movie_profile precomputed now0 now1 = Ok plan ->
  exists release_dt,
    let ov := campaign_overview plan in
    parse_release_date release_date now0 = Ok release_dt
    /\ (length (phases plan) <= 3)%nat
    /\ phase <$> phases plan = seq 1 (length (phases plan))
    /\ forall p,
         p ∈ phases plan ->
         campaign_start ov <= ph_start_date p <= toordinal release_dt - 7
         /\ 1 <= duration_weeks p <= ov_duration_weeks ov
         /\ ph_start_date p + 7 * duration_weeks p = toordinal release_dt.
Proof.
  intros H. apply plan_phase_schedule in H
    as (release_dt & Hp & Hw & Hs & Hn & Hv).
  exists release_dt. cbv zeta in *.
  split; [exact Hp |]. split; [| split; [exact Hn |]].
  - rewrite <- (length_fmap phase_schedule), Hv, length_fmap.
    apply present_length.
  - intros p Hin. apply (lookup_fmap_view phase_schedule) in Hin.
    rewrite Hv in Hin. apply list_elem_of_fmap in Hin as (t & Heq & _).
    unfold phase_schedule in Heq. injection Heq as _ Hst Hdu _.
    pose proof (offsets_range (ov_duration_weeks (campaign_overview plan)) t
                  Hw).
    lia.
Qed.

(** X5. In every plan the Tier-A phase (high intensity) starts on the
    campaign start. In a campaign of at least two weeks the Tier-B phase
    (medium) starts at least one week later, and in one of at least three
    weeks the Tier-C phase (low) starts at least two weeks later. In a
    one-week campaign every phase starts on the campaign start. *)
Theorem phase_starts_by_tier regional_data release_date budget_total
    campaign_weeks movie_profile precomputed now0 now1 plan :
  rollout regional_data release_date budget_total campaign_weeks
    movie_profile precomputed now0 now1 = Ok plan ->
  let ov := campaign_overview plan in
  let w := ov_duration_weeks ov in
  forall p,
    p ∈ phases plan ->
    (intensity p = High -> ph_start_date p = campaign_start ov)
    /\ (intensity p = Medium -> 2 <= w ->
        campaign_start ov + 7 <= ph_start_date p)
    /\ (intensity p = Low -> 3 <= w ->
        campaign_start ov + 14 <= ph_start_date p)
    /\ (w = 1 -> ph_start_date p = campaign_start ov).
Proof.
  intros H ov w p Hin. subst ov w.
  apply plan_phase_schedule in H as (release_dt & _ & Hw & _ & _ & Hv).
  cbv zeta in Hv.
  apply (lookup_fmap_view phase_schedule) in Hin.
  rewrite Hv in Hin. apply list_elem_of_fmap in Hin as (t & Heq & _).
  unfold phase_schedule in Heq. injection Heq as Hi Hst _ _.
  destruct (offsets_lower (ov_duration_weeks (campaign_overview plan)))
    as (HB & HC & _ & H1).
  rewrite Hi, Hst.
  destruct t; cbn [Spec.intensity_of];
    (split; [| split; [| split]]); try discriminate;
    try (intros _; cbn [offsets]; lia);
    try (intros _ Hge; specialize (HB Hge) || specialize (HC Hge); lia);
    intros H1w; rewrite (H1 H1w); lia.
Qed.

Lemma create_rollout_plan_channels regional_data release_date budget_total
    campaign_weeks movie_profile precomputed now0 now1 plan :
  rollout regional_data release_date budget_total campaign_weeks
    movie_profile precomputed now0 now1 = Ok plan ->
  channel_strategy plan
  = _recommend_channels
      (ranked_regions (comparison regional_data precomputed))
  /\ target_regions (campaign_overview plan)
     = length (ranked_regions (comparison regional_data precomputed)).
Proof.
  unfold create_rollout_plan, planning_parameters_raise. intros H.
  destruct (parse_release_date release_date now0) as [release_dt |];
    [| discriminate].
  cbn [mbind result_bind] in H.
  destruct (_extract_movie_signature movie_profile) as [sg |];
    [| discriminate].
  cbn [mbind result_bind] in H.
  destruct (parameters_overflow _ _ _); [discriminate |].
  cbn [mbind result_bind] in H.
  destruct (timedelta_weeks _) as [span |]; [| discriminate].
  cbn [mbind result_bind] in H.
  destruct (dt_sub release_dt _) as [start |]; [| discriminate].
  cbn [mbind result_bind] in H.
  destruct (_create_timeline _ _ _) as [tl |]; [| discriminate].
  cbn [mbind result_bind] in H.
  destruct (_generate_milestones _ _) as [ms |]; [| discriminate].
  cbn [mbind result_bind mret result_ret] in H.
  injection H as <-. split; reflexivity.
Qed.

(** X6. In every plan each ranked region is targeted by exactly one phase:
    the regions of the phases, taken together, are the ranked regions up
    to order, so their number is the number of target regions; and the
    region lists of the phases are the non-empty region lists of the
    channel strategy, in the same order. *)
Theorem every_region_is_in_one_phase regional_data release_date budget_total
    campaign_weeks movie_profile precomputed now0 now1 plan :
  rollout regional_data release_date budget_total campaign_weeks
    movie_profile precomputed now0 now1 = Ok plan ->
  let ranked := ranked_regions (comparison regional_data precomputed) in
  concat (regions <$> phases plan) ≡ₚ region <$> ranked
  /\ length (concat (regions <$> phases plan))
     = target_regions (campaign_overview plan)
  /\ regions <$> phases plan
     = filter (fun l : list string => l <> [])
         (ch_regions <$> channel_strategy plan).
Proof.
  intros H ranked.
  pose proof (create_rollout_plan_channels _ _ _ _ _ _ _ _ _ H) as [Hch Htr].
  apply plan_phase_schedule in H as (release_dt & _ & _ & _ & _ & Hv).
  cbv zeta in Hv. fold ranked in Hv, Hch, Htr.
  assert (regions <$> phases plan
          = (fun t => region <$> in_tier t ranked) <$> Spec.present ranked)
    as Hr.
  { change regions with ((fun v : Intensity * Z * Z * list string => v.2)
                         ∘ phase_schedule).
    rewrite list_fmap_compose, Hv, <- list_fmap_compose. reflexivity. }
  assert (concat (regions <$> phases plan) ≡ₚ region <$> ranked) as Hperm.
  { rewrite Hr, present_regions_concat.
    apply fmap_Permutation, in_tier_partition. }
  split; [exact Hperm |]. split.
  - rewrite Hperm, length_fmap, Htr. reflexivity.
  - rewrite Hr, Hch. unfold _recommend_channels, Spec.present,
      Spec.has_regions.
    cbn [fmap list_fmap ch_regions List.filter].
    rewrite !filter_cons, filter_nil.
    destruct (in_tier TierA ranked) eqn:Ea, (in_tier TierB ranked) eqn:Eb,
      (in_tier TierC ranked) eqn:Ec; cbn [fmap list_fmap];
      rewrite ?Ea, ?Eb, ?Ec; cbn [fmap list_fmap];
      repeat case_decide; try congruence; reflexivity.
Qed.

End PhaseProperties.

Lemma phase_duration_no_runway (release_dt start : datetime) :
  release_dt <= start -> _phase_duration release_dt start = 1.
Proof.
  intros H. unfold _phase_duration, Py.ceil.
  assert (td_days (release_dt - start) <= 0) as Hd.
  { unfold td_days. apply Z.lt_succ_r.
    apply Z.div_lt_upper_bound; [reflexivity |]. unfold US_PER_DAY. lia. }
  assert (Qceiling (inject_Z (td_days (release_dt - start)) / 7) <= 0).
  { change 0 with (Qceiling (inject_Z 0)). apply Qceiling_resp_le.
    apply Qle_shift_div_r; [reflexivity |].
    rewrite Qmult_0_l. change 0%Q with (inject_Z 0). rewrite <- Zle_Qle.
    exact Hd. }
  lia.
Qed.

Lemma share_below_100 (a rest : Z) :
  0 <= a <= 60 -> 22 <= rest ->
  Py.round (inject_Z a / inject_Z (a + rest) * 100) <= 74.
Proof.
  intros Ha Hr. apply PyFacts.round_le.
  assert (0 < inject_Z (a + rest))%Q as Hpos
    by (change 0%Q with (inject_Z 0); rewrite <- Zlt_Qlt; lia).
  assert (inject_Z a / inject_Z (a + rest) * 100
          == inject_Z (a * 100) / inject_Z (a + rest))%Q as ->.
  { rewrite inject_Z_mult. change (inject_Z 100) with 100%Q. field. lra. }
  apply Qle_shift_div_r; [exact Hpos |].
  rewrite <- inject_Z_mult, <- Zle_Qle. lia.
Qed.

(** X7. Called with a start date that is not before the release date,
    [_create_phases] gives no phase to the Tier-B and Tier-C regions: the
    result is empty, or the single Tier-A phase, of one week; and when
    another tier has regions the percentage of that phase is below 100, the
    share of the other tiers being given to no phase. *)
Theorem phases_without_runway (ranked : list RegionScore)
    (start_date release_date : datetime) (sg : MovieSignature) (w : Z) :
  release_date <= start_date ->
  let phs := _create_phases ranked start_date release_date sg w in
  (in_tier TierA ranked = [] -> phs = [])
  /\ (in_tier TierA ranked <> [] ->
      exists p,
        phs = [p]
        /\ intensity p = High
        /\ regions p = region <$> in_tier TierA ranked
        /\ ph_start_date p = toordinal start_date
        /\ duration_weeks p = 1
        /\ (in_tier TierB ranked <> [] \/ in_tier TierC ranked <> [] ->
            budget_percentage p < 100)).
Proof.
  intros Hle phs. subst phs. unfold _create_phases.
  rewrite (proj2 (Z.ltb_ge start_date release_date) Hle).
  rewrite (phase_duration_no_runway _ _ Hle).
  unfold normalized_pct, weight_map.
  destruct (in_tier TierA ranked) as [| a la],
    (in_tier TierB ranked) as [| b lb],
    (in_tier TierC ranked) as [| c lc]; cbn zeta.
  all: split; [intros H; try reflexivity; discriminate H |].
  all: intros HA; try congruence.
  all: eexists; split; [reflexivity |].
  all: cbn [intensity regions ph_start_date duration_weeks budget_percentage].
  all: repeat (split; [reflexivity |]).
  all: intros [H | H]; try congruence.
  all: cbn [length Nat.ltb Nat.leb app fmap list_fmap snd foldl normalize
            get_pct].
  all: case_decide; try congruence.
  all: match goal with
       | |- context [if ?s =? 0 then _ else _] =>
           destruct (Z.eqb_spec s 0); [lia |]
       end.
  all: match goal with
       | |- Py.round (inject_Z ?x / inject_Z ?t * 100) < 100 =>
           let H := fresh in
           pose proof (share_below_100 x (t - x) ltac:(lia) ltac:(lia)) as H;
           replace (x + (t - x)) with t in H by lia; lia
       end.
Qed.

Lemma phases_without_runway_witness :
  let phs :=
    _create_phases (ranked_regions Sample.comparison) 100 100
      Sample.positioning 6 in
  100 <= 100
  /\ exists p, phs = [p] /\ intensity p = High /\ budget_percentage p < 100.
Proof.
  split; [lia |].
  destruct (proj2 (phases_without_runway (ranked_regions Sample.comparison)
                     100 100 Sample.positioning 6 ltac:(lia))
              ltac:(discriminate))
    as (p & Hp & Hi & _ & _ & _ & Hb).
  exists p. split; [exact Hp |]. split; [exact Hi |].
  apply Hb. left. discriminate.
Defined.

(** * Further properties of the timeline *)

Lemma weekly_activities_length (k : Z) :
  length (_get_weekly_activities k) = 3%nat.
Proof.
  unfold _get_weekly_activities.
  destruct (6 <=? k), (4 <=? k), (2 <=? k); reflexivity.
Qed.

Lemma timeline_entry_activities (phs : list Phase) (release_dt : datetime)
    (w : Z) (i : nat) (n : Z) :
  key_activities
    (timeline_entry phs release_dt
       (release_dt - weeks w + weeks (Z.of_nat i)) n)
  = _get_weekly_activities (w - Z.of_nat i).
Proof.
  unfold timeline_entry. cbn [key_activities]. f_equal.
  replace (release_dt - (release_dt - weeks w + weeks (Z.of_nat i)))
    with (weeks (w - Z.of_nat i)) by (unfold weeks, days; lia).
  rewrite td_days_weeks. rewrite Z.mul_comm. apply Z.div_mul. discriminate.
Qed.

Section TimelineProperties.

Variable float_of_str : string -> option Q.
Variable int_of_str : string -> option Z.
Variable compare_regions : gmap string (gmap string PyVal) -> Comparison.
Variable _extract_movie_signature :
  option (gmap string PyVal) -> result MovieSignature.

#[local] Abbreviation rollout :=
  (create_rollout_plan float_of_str int_of_str compare_regions
     _extract_movie_signature).

(** X8. In every plan, week n of a campaign of w weeks has w - n + 1 weeks
    to the release and the three activities of that bucket: the teaser
    activities from six weeks out, the trailer ones from four, the
    pre-sales ones from two. The last week of every plan is the final
    push, and the first week is the teaser launch exactly when the
    campaign has six weeks or more. *)
Theorem weekly_activities_follow_countdown regional_data release_date
    budget_total campaign_weeks movie_profile precomputed now0 now1 plan :
  rollout regional_data release_date budget_total campaign_weeks
    movie_profile precomputed now0 now1 = Ok plan ->
  let w := ov_duration_weeks (campaign_overview plan) in
  (forall (i : nat) wk,
     timeline plan !! i = Some wk ->
     key_activities wk = _get_weekly_activities (w - Z.of_nat i)
     /\ length (key_activities wk) = 3%nat)
  /\ (forall wk,
        last (timeline plan) = Some wk ->
        key_activities wk = _get_weekly_activities 1
        /\ head (key_activities wk) = Some "Final push - all channels")
  /\ (forall wk,
        head (timeline plan) = Some wk ->
        (head (key_activities wk) = Some "Launch teaser campaign" <-> 6 <= w)).
Proof.
  intros H.
  apply create_rollout_plan_Ok in H
    as (release_dt & ms & _ & Hw & _ & _ & Hov & _ & _ & Htl & _).
  cbv zeta in *. rewrite Hov, Htl. cbn [ov_duration_weeks].
  set (w := cp_campaign_weeks _) in *.
  set (phs := _create_phases _ _ _ _ _).
  assert (forall (i : nat) wk,
            timeline_weeks phs (release_dt - weeks w) release_dt !! i
            = Some wk ->
            (i < Z.to_nat w)%nat
            /\ key_activities wk = _get_weekly_activities (w - Z.of_nat i))
    as Hat.
  { intros i wk Hi.
    apply timeline_lookup_in_campaign in Hi as [Hlt ->]; [| exact Hw].
    split; [exact Hlt | apply timeline_entry_activities]. }
  pose proof (timeline_length_in_campaign phs release_dt w Hw) as Hlen.
  split; [| split].
  - intros i wk Hi. destruct (Hat i wk Hi) as [_ ->].
    split; [reflexivity | apply weekly_activities_length].
  - intros wk Hl. rewrite last_lookup, Hlen in Hl.
    destruct (Hat _ _ Hl) as [_ ->].
    replace (w - Z.of_nat (Nat.pred (Z.to_nat w))) with 1 by lia.
    split; reflexivity.
  - intros wk Hh. rewrite head_lookup in Hh.
    destruct (Hat _ _ Hh) as [_ ->]. rewrite Z.sub_0_r.
    unfold _get_weekly_activities.
    destruct (Z.leb_spec 6 w), (Z.leb_spec 4 w), (Z.leb_spec 2 w);
      cbn [head]; split; intros; try lia; try discriminate; reflexivity.
Qed.

End TimelineProperties.

Lemma weekly_activities_follow_countdown_witness :
  exists plan,
    Sample.plan "2024-06-15" (Some 2000000%Q) (Some 6) None
      (Some Sample.comparison) = Ok plan
    /\ forall wk,
         last (timeline plan) = Some wk ->
         key_activities wk = _get_weekly_activities 1
         /\ head (key_activities wk) = Some "Final push - all channels".
Proof.
  eexists. split; [vm_compute; reflexivity |].
  refine (proj1 (proj2 (weekly_activities_follow_countdown
                          Sample.float_of_str Sample.int_of_str
                          Sample.compare_regions Sample.signature None
                          "2024-06-15" (Some 2000000%Q) (Some 6) None
                          (Some Sample.comparison) Sample.now Sample.now _
                          _))).
  vm_compute. reflexivity.
Defined.

Lemma phases_run_until_release_witness :
  exists plan,
    Sample.plan "2024-06-15" (Some 2000000%Q) (Some 6) None
      (Some Sample.comparison) = Ok plan
    /\ (length (phases plan) <= 3)%nat.
Proof.
  eexists. split; [vm_compute; reflexivity |].
  destruct (phases_run_until_release Sample.float_of_str Sample.int_of_str
              Sample.compare_regions Sample.signature None "2024-06-15"
              (Some 2000000%Q) (Some 6) None (Some Sample.comparison)
              Sample.now Sample.now _ ltac:(vm_compute; reflexivity))
    as (release_dt & _ & Hlen & _).
  exact Hlen.
Defined.

Lemma phase_starts_by_tier_witness :
  exists plan,
    Sample.plan "2024-06-15" (Some 2000000%Q) (Some 6) None
      (Some Sample.comparison) = Ok plan
    /\ forall p,
         p ∈ phases plan -> intensity p = High ->
         ph_start_date p = campaign_start (campaign_overview plan).
Proof.
  eexists. split; [vm_compute; reflexivity |].
  intros p Hp.
  refine (proj1 (phase_starts_by_tier Sample.float_of_str Sample.int_of_str
                   Sample.compare_regions Sample.signature None "2024-06-15"
                   (Some 2000000%Q) (Some 6) None (Some Sample.comparison)
                   Sample.now Sample.now _ _ p Hp)).
  vm_compute. reflexivity.
Defined.

Lemma every_region_is_in_one_phase_witness :
  exists plan,
    Sample.plan "2024-06-15" (Some 2000000%Q) (Some 6) None
      (Some Sample.comparison) = Ok plan
    /\ concat (regions <$> phases plan)
       ≡ₚ region <$> ranked_regions Sample.comparison.
Proof.
  eexists. split; [vm_compute; reflexivity |].
  refine (proj1 (every_region_is_in_one_phase Sample.float_of_str
                   Sample.int_of_str Sample.compare_regions Sample.signature
                   None "2024-06-15" (Some 2000000%Q) (Some 6) None
                   (Some Sample.comparison) Sample.now Sample.now _ _)).
  vm_compute. reflexivity.
Defined.

Lemma timeline_weeks_any_span (phases : list Phase)
    (start_date release_date : datetime) :
  let tl := timeline_weeks phases start_date release_date in
  (release_date <= start_date -> tl = [])
  /\ (start_date < release_date ->
      length tl
      = Z.to_nat ((release_date - start_date + days 7 - 1) / days 7)
      /\ (forall (i : nat) a, tl !! i = Some a -> week a = 1 + Z.of_nat i)
      /\ (exists first, tl !! 0%nat = Some first
                        /\ tw_start_date first = toordinal start_date)
      /\ (forall (i : nat) a b,
            tl !! i = Some a -> tl !! S i = Some b ->
            tw_end_date a = tw_start_date b
            /\ tw_end_date a - tw_start_date a = 7)
      /\ (exists final, last tl = Some final
                        /\ tw_end_date final = toordinal release_date
                        /\ 0 <= tw_end_date final - tw_start_date final <= 7)).
Proof.
  cbv zeta. split.
  - intros Hge. unfold timeline_weeks.
    rewrite timeline_rounds_done by exact Hge. reflexivity.
  - intros Hlt.
    destruct (create_timeline_tiles phases start_date release_date Hlt)
      as (Hweek & Hfirst & Hnext & final & Hfinal & Hend).
    split; [apply timeline_loop_length; reflexivity |].
    split; [exact Hweek |]. split; [exact Hfirst |]. split; [exact Hnext |].
    exists final. split; [exact Hfinal |]. split; [exact Hend |].
    rewrite last_lookup in Hfinal. unfold timeline_weeks in Hfinal.
    apply timeline_loop_lookup in Hfinal as [Hcur ->].
    cbn [timeline_entry tw_start_date tw_end_date].
    set (current := start_date + days _) in *.
    unfold toordinal.
    assert (current <= Z.min (current + days 7) release_date
            <= current + 7 * US_PER_DAY) as [H1 H2]
      by (pose proof days_7_pos; unfold days in *; lia).
    apply (Z.div_le_mono _ _ US_PER_DAY US_PER_DAY_pos) in H1, H2.
    rewrite Z.div_add in H2 by discriminate. lia.
Qed.

(** The number and the dates of the weeks that the loop returns do not
    depend on the phases. *)
Lemma timeline_while_spans (fuel : nat) (phases : list Phase)
    (release_date current : datetime) (week0 : Z) (tl : list TimelineWeek) :
  timeline_while fuel phases release_date current week0 = Ok tl ->
  (fun wk => (week wk, tw_start_date wk, tw_end_date wk)) <$> tl
  = (fun wk => (week wk, tw_start_date wk, tw_end_date wk))
    <$> timeline_loop fuel phases release_date current week0.
Proof.
  revert current week0 tl.
  induction fuel as [| fuel IH]; intros current week0 tl H.
  - injection H as <-. reflexivity.
  - cbn [timeline_while timeline_loop] in *.
    destruct (current <? release_date); [| injection H as <-; reflexivity].
    destruct (dt_add current (days 7)) as [next |] eqn:En; [| discriminate].
    apply dt_add_Ok in En as [-> _]. cbn [mbind result_bind] in H.
    destruct (scan_active_phase phases current None) as [found |];
      [| discriminate].
    cbn [mbind result_bind] in H.
    destruct (timeline_while fuel phases release_date _ (week0 + 1))
      as [rest |] eqn:Er; [| discriminate].
    cbn [mbind result_bind mret result_ret] in H. injection H as <-.
    cbn [fmap list_fmap]. rewrite (IH _ _ _ Er). reflexivity.
Qed.

Lemma fmap_eq_lookup {A B : Type} (f : A -> B) (l l' : list A) (i : nat)
    (a : A) :
  f <$> l = f <$> l' -> l !! i = Some a ->
  exists a', l' !! i = Some a' /\ f a' = f a.
Proof.
  intros E H.
  assert ((f <$> l') !! i = Some (f a)) as H'
    by (rewrite <- E, list_lookup_fmap, H; reflexivity).
  rewrite list_lookup_fmap in H'.
  destruct (l' !! i) as [a' |]; [| discriminate].
  exists a'. split; [reflexivity |]. cbn in H'. congruence.
Qed.

(** X9. For any start and release, [_create_timeline] returns no week
    when the start is not before the release. Otherwise, whenever it
    returns, the number of weeks is the span in weeks rounded up, the weeks
    are numbered from 1, the first starts on the start date, each week is
    followed by one that starts on its end date and then has seven days,
    and the last week ends on the release date and has at most seven
    days. *)
Theorem timeline_covers_any_span (phases : list Phase)
    (start_date release_date : datetime) :
  (release_date <= start_date ->
   _create_timeline phases start_date release_date = Ok [])
  /\ forall tl,
       start_date < release_date ->
       _create_timeline phases start_date release_date = Ok tl ->
       length tl
       = Z.to_nat ((release_date - start_date + days 7 - 1) / days 7)
       /\ (forall (i : nat) a, tl !! i = Some a -> week a = 1 + Z.of_nat i)
       /\ (exists first, tl !! 0%nat = Some first
                         /\ tw_start_date first = toordinal start_date)
       /\ (forall (i : nat) a b,
             tl !! i = Some a -> tl !! S i = Some b ->
             tw_end_date a = tw_start_date b
             /\ tw_end_date a - tw_start_date a = 7)
       /\ (exists final, last tl = Some final
                         /\ tw_end_date final = toordinal release_date
                         /\ 0 <= tw_end_date final - tw_start_date final <= 7).
Proof.
  split.
  - intros Hge. unfold _create_timeline.
    rewrite timeline_rounds_done by exact Hge. reflexivity.
  - intros tl Hlt H. apply timeline_while_spans in H.
    fold (timeline_weeks phases start_date release_date) in H.
    destruct (proj2 (timeline_weeks_any_span phases start_date release_date)
                Hlt) as (Hlen & Hweek & (f0 & Hf0 & Hs0) & Hnext
                         & (fl & Hfl & Hel & Hdl)).
    set (span := fun wk : TimelineWeek =>
                   (week wk, tw_start_date wk, tw_end_date wk)) in *.
    assert (length tl
            = length (timeline_weeks phases start_date release_date)) as El
      by (rewrite <- (length_fmap span tl), H, length_fmap; reflexivity).
    split; [rewrite El; exact Hlen |]. split; [| split; [| split]].
    + intros i a Ha.
      destruct (fmap_eq_lookup span _ _ i a H Ha) as (a' & Ha' & E).
      injection E as E _ _. rewrite <- E. apply (Hweek i a' Ha').
    + destruct (fmap_eq_lookup span _ _ 0%nat f0 (eq_sym H) Hf0)
        as (a & Ha & E).
      injection E as _ E _. exists a. split; [exact Ha | congruence].
    + intros i a b Ha Hb.
      destruct (fmap_eq_lookup span _ _ i a H Ha) as (a' & Ha' & Ea).
      destruct (fmap_eq_lookup span _ _ (S i) b H Hb) as (b' & Hb' & Eb).
      injection Ea as _ Ea1 Ea2. injection Eb as _ Eb1 _.
      destruct (Hnext i a' b' Ha' Hb'). lia.
    + rewrite last_lookup in Hfl. rewrite <- El in Hfl.
      destruct (fmap_eq_lookup span _ _ _ fl (eq_sym H) Hfl) as (a & Ha & E).
      injection E as _ E1 E2. exists a.
      split; [rewrite last_lookup; exact Ha | lia].
Qed.

Lemma timeline_covers_any_span_witness :
  exists tl,
    0 < days 10
    /\ _create_timeline [] 0 (days 10) = Ok tl
    /\ length tl = 2%nat.
Proof.
  eexists. split; [reflexivity |]. split; [vm_compute; reflexivity |].
  refine (proj1 (proj2 (timeline_covers_any_span [] 0 (days 10)) _ _ _));
    reflexivity.
Defined.

Lemma generate_milestones_Ok_inv (start_date release_date : datetime)
    (ms : list Milestone) :
  milestones_by_day start_date release_date = Ok ms ->
  weeks 4 <= release_date
  /\ ms = sorted_by (fun x y => ms_date x <=? ms_date y)
            ([{| ms_date := toordinal start_date; milestone := LAUNCH;
                 description := "Teaser release, social media kickoff" |}]
             ++ milestone_if (start_date <? release_date - weeks 4)
                  {| ms_date := toordinal (release_date - weeks 4);
                     milestone := TRAILER;
                     description := "Major media push, paid amplification" |}
             ++ milestone_if (start_date <? release_date - weeks 2)
                  {| ms_date := toordinal (release_date - weeks 2);
                     milestone := PRESALES;
                     description := "Drive early bookings, create urgency" |}
             ++ milestone_if (start_date <? release_date - weeks 1)
                  {| ms_date := toordinal (release_date - weeks 1);
                     milestone := PREMIERE;
                     description :=
                       "Red carpet event, press coverage, reviews" |}
             ++ [{| ms_date := toordinal release_date;
                    milestone := RELEASE_DAY;
                    description :=
                      "Full availability, maximize opening weekend" |}]).
Proof.
  unfold milestones_by_day, milestone_list.
  destruct (dt_sub release_date (weeks 4)) as [d4 |] eqn:E4; [| discriminate].
  apply dt_sub_Ok in E4 as [-> H4]. cbn [mbind result_bind].
  destruct (dt_sub release_date (weeks 2)) as [d2 |] eqn:E2; [| discriminate].
  apply dt_sub_Ok in E2 as [-> _]. cbn [mbind result_bind].
  destruct (dt_sub release_date (weeks 1)) as [d1 |] eqn:E1; [| discriminate].
  apply dt_sub_Ok in E1 as [-> _].
  cbn [mbind result_bind]. unfold mret, result_ret.
  intros [= <-]. split; [lia | reflexivity].
Qed.

Lemma text_leb_total (a b : list ascii) :
  text_leb a b = true \/ text_leb b a = true.
Proof.
  revert b. induction a as [| x a IH]; intros b; [left; reflexivity |].
  destruct b as [| y b]; [right; reflexivity |].
  cbn [text_leb].
  destruct (N.ltb_spec (N_of_ascii x) (N_of_ascii y)),
    (N.ltb_spec (N_of_ascii y) (N_of_ascii x)); auto; lia.
Qed.

Lemma milestone_list_length (start_date release_date : datetime)
    (ms : list Milestone) :
  milestone_list start_date release_date = Ok ms ->
  (2 <= length ms <= 5)%nat
  /\ has_milestone ms LAUNCH /\ has_milestone ms RELEASE_DAY.
Proof.
  unfold milestone_list.
  destruct (dt_sub release_date (weeks 4)) as [d4 |]; [| discriminate].
  cbn [mbind result_bind].
  destruct (dt_sub release_date (weeks 2)) as [d2 |]; [| discriminate].
  cbn [mbind result_bind].
  destruct (dt_sub release_date (weeks 1)) as [d1 |]; [| discriminate].
  cbn [mbind result_bind mret result_ret]. intros [= <-].
  split; [| split].
  - destruct (_ <? _), (_ <? _), (_ <? _); simpl; lia.
  - eexists. split; [apply list_elem_of_here | reflexivity].
  - eexists.
    split;
      [apply list_elem_of_further; rewrite !elem_of_app; do 3 right;
       constructor
      | reflexivity].
Qed.

(** X10. Whenever [_generate_milestones] returns, there are between two
    and five milestones, the campaign launch and the release day among
    them, in ascending order of the text of their date. When the start and
    the release are in year 1000 or later, that is the ascending order of
    the dates; and when the start then falls on a later day than the
    release, the release day comes first and the campaign launch second. *)
Theorem milestones_any_dates (start_date release_date : datetime)
    (ms : list Milestone) :
  _generate_milestones start_date release_date = Ok ms ->
  Sorted
    (fun a b => str_leb (date_text (ms_date a)) (date_text (ms_date b)) = true)
    ms
  /\ (2 <= length ms <= 5)%nat
  /\ has_milestone ms LAUNCH
  /\ has_milestone ms RELEASE_DAY
  /\ (YEAR_1000 <= toordinal start_date <= MAX_ORDINAL ->
      YEAR_1000 <= toordinal release_date <= MAX_ORDINAL ->
      Sorted (fun a b => ms_date a <= ms_date b) ms
      /\ (toordinal release_date < toordinal start_date ->
          milestone <$> ms = [RELEASE_DAY; LAUNCH])).
Proof.
  intros H0.
  assert (Sorted
            (fun a b =>
               str_leb (date_text (ms_date a)) (date_text (ms_date b)) = true)
            ms
          /\ (2 <= length ms <= 5)%nat
          /\ has_milestone ms LAUNCH /\ has_milestone ms RELEASE_DAY)
    as (S1 & S2 & S3 & S4).
  { unfold _generate_milestones in H0.
    destruct (milestone_list start_date release_date) as [l |] eqn:El;
      [| discriminate].
    cbn [mbind result_bind mret result_ret] in H0. injection H0 as <-.
    destruct (milestone_list_length _ _ _ El) as (L1 & (m1 & I1 & N1)
                                                   & (m2 & I2 & N2)).
    set (before := fun x y : Milestone =>
                     str_leb (date_text (ms_date x)) (date_text (ms_date y))).
    split; [| split; [| split]].
    - rewrite <- (list_fmap_id (sorted_by before l)).
      eapply (Sorted_fmap id); [| apply (sorted_by_sorted before)].
      + intros x y Hxy. exact Hxy.
      + intros x y. apply text_leb_total.
    - rewrite (Permutation_length (sorted_by_perm before l)). exact L1.
    - exists m1. split; [rewrite (sorted_by_perm before l) |]; assumption.
    - exists m2. split; [rewrite (sorted_by_perm before l) |]; assumption. }
  split; [exact S1 |]. split; [exact S2 |]. split; [exact S3 |].
  split; [exact S4 |]. clear S1 S2 S3 S4. intros Hs Hr.
  rewrite (generate_milestones_by_day _ _ Hs Hr) in H0.
  apply generate_milestones_Ok_inv in H0 as [H4 ->].
  set (before := fun x y : Milestone => ms_date x <=? ms_date y).
  set (l := _ ++ _).
  assert (forall x y, before x y = true \/ before y x = true) as Htotal
    by (intros x y; unfold before; rewrite !Z.leb_le; lia).
  split.
  - rewrite <- (list_fmap_id (sorted_by before l)).
    eapply (Sorted_fmap id); [| apply (sorted_by_sorted before Htotal)].
    intros x y Hxy. apply Z.leb_le. exact Hxy.
  - intros Hlate. subst l.
    assert (release_date < start_date) as Hlt.
    { destruct (Z.lt_ge_cases release_date start_date) as [? | Hge]; [lia |].
      apply (Z.div_le_mono _ _ US_PER_DAY US_PER_DAY_pos) in Hge.
      unfold toordinal in Hlate. lia. }
    assert (0 < weeks 1 /\ 0 < weeks 2 /\ 0 < weeks 4) as (? & ? & ?)
      by (repeat split; reflexivity).
    rewrite !(proj2 (Z.ltb_ge _ _)) by lia.
    cbn [milestone_if app sorted_by foldr insert_by]. unfold before.
    cbn [ms_date]. rewrite (proj2 (Z.leb_gt _ _)) by lia. reflexivity.
Qed.

Lemma milestones_any_dates_witness :
  exists ms,
    _generate_milestones (midnight 739000) (midnight 738990) = Ok ms
    /\ milestone <$> ms = [RELEASE_DAY; LAUNCH].
Proof.
  eexists. split; [vm_compute; reflexivity |].
  destruct (milestones_any_dates (midnight 739000) (midnight 738990) _
              ltac:(vm_compute; reflexivity)) as (_ & _ & _ & _ & H).
  apply H; vm_compute; repeat split; discriminate.
Defined.

(** X11. For a release date of the calendar, [_generate_milestones]
    raises exactly when the release date lies in the first four weeks of
    year 1, whatever the start date: the date of the trailer, four weeks
    before the release, is computed before it is compared with the
    start. *)
Theorem milestones_raise_iff (start_date release_date : datetime) :
  0 <= release_date < MAX_ORDINAL * US_PER_DAY ->
  (_generate_milestones start_date release_date = Raise OverflowError
   <-> release_date < weeks 4)
  /\ (weeks 4 <= release_date ->
      exists ms, _generate_milestones start_date release_date = Ok ms).
Proof.
  intros Hr.
  assert (weeks 4 <= release_date ->
          exists ms, _generate_milestones start_date release_date = Ok ms)
    as Hok by (intros H; apply generate_milestones_Ok; lia).
  split; [| exact Hok]. split.
  - intros Hraise.
    destruct (Z.lt_ge_cases release_date (weeks 4)) as [? | Hge]; [lia |].
    destruct (Hok Hge) as [ms Hms]. congruence.
  - intros Hlt. unfold _generate_milestones, milestone_list.
    assert (dt_sub release_date (weeks 4) = Raise OverflowError) as ->.
    { unfold dt_sub, datetime_ok.
      rewrite (proj2 (Z.leb_gt 0 (release_date - weeks 4))) by lia.
      reflexivity. }
    reflexivity.
Qed.

Lemma milestones_raise_iff_witness :
  0 <= midnight 10 < MAX_ORDINAL * US_PER_DAY
  /\ _generate_milestones 0 (midnight 10) = Raise OverflowError.
Proof.
  assert (0 <= midnight 10 < MAX_ORDINAL * US_PER_DAY) as H
    by (split; [discriminate | reflexivity]).
  split; [exact H |].
  apply (proj1 (milestones_raise_iff 0 (midnight 10) H)). reflexivity.
Defined.

(** * Further properties of the plan and of the release date *)

Section PlanProperties.

Variable float_of_str : string -> option Q.
Variable int_of_str : string -> option Z.
Variable compare_regions : gmap string (gmap string PyVal) -> Comparison.
Variable _extract_movie_signature :
  option (gmap string PyVal) -> result MovieSignature.

#[local] Abbreviation rollout :=
  (create_rollout_plan float_of_str int_of_str compare_regions
     _extract_movie_signature).
#[local] Abbreviation parameters :=
  (planning_parameters_of float_of_str int_of_str).
#[local] Abbreviation comparison := (comparison_of compare_regions).

(** X12. [create_rollout_plan] returns a plan only when the release date
    parses, or now + 60 days is a date of the calendar; the positioning is
    extracted; the popularity, the budget and the vote count of the
    profile are within the range of float; the campaign has at most
    999999999 days and starts on or after 0001-01-01, four weeks before
    the release at the latest; and every phase starts in year 1000 or
    later. In every other case it raises. *)
Theorem rollout_returns_only_if regional_data release_date budget_total
    campaign_weeks movie_profile precomputed now0 now1 plan :
  rollout regional_data release_date budget_total campaign_weeks
    movie_profile precomputed now0 now1 = Ok plan ->
  exists release_dt,
    let w :=
      cp_campaign_weeks
        (parameters (comparison regional_data precomputed) budget_total
           campaign_weeks movie_profile release_dt now1) in
    parse_release_date release_date now0 = Ok release_dt
    /\ (Calendar.strptime release_date = None ->
        0 <= now0 + days 60 < MAX_ORDINAL * US_PER_DAY)
    /\ (exists sg, _extract_movie_signature movie_profile = Ok sg)
    /\ parameters_overflow int_of_str (default ∅ movie_profile) budget_total
       = false
    /\ 7 * w <= MAX_DELTA_DAYS
    /\ weeks (Z.max w 4) <= release_dt
    /\ Forall (fun p => YEAR_1000 <= ph_start_date p) (phases plan).
Proof.
  intros H.
  apply create_rollout_plan_Ok in H
    as (release_dt & ms & Hp & Hw & Hs0 & Hms & _ & Hph & _ & _ & _ & _
        & Hsg & Hov & Htl & Hmax & Hspan).
  exists release_dt. cbv zeta in *.
  set (w := cp_campaign_weeks _) in *.
  split; [exact Hp |]. split; [| split; [eauto |]].
  - intros Hnone. unfold parse_release_date in Hp. rewrite Hnone in Hp.
    apply dt_add_Ok in Hp as [-> Hr]. exact Hr.
  - split; [exact Hov |]. split; [exact Hspan |]. split.
    + unfold _generate_milestones, milestone_list in Hms.
      destruct (dt_sub release_dt (weeks 4)) as [d4 |] eqn:E4;
        [| discriminate].
      apply dt_sub_Ok in E4 as [-> H4].
      assert (weeks (Z.max w 4) = Z.max (weeks w) (weeks 4)) as ->
        by (unfold weeks, days, US_PER_DAY; lia).
      lia.
    + rewrite Hph.
      assert (0 < weeks w) by (unfold weeks, days, US_PER_DAY; lia).
      apply (create_timeline_starts _ _ _ _) in Htl; [exact Htl | | lia].
      eapply Forall_impl; [apply create_phases_starts, Hw |].
      intros p Hr. cbv beta in Hr.
      pose proof (toordinal_range (release_dt - weeks w) ltac:(lia)).
      pose proof (toordinal_range release_dt ltac:(lia)). lia.
Qed.

(** X23. A popularity or a production budget given as an int beyond the
    range of float, 2^1024 - 2^970 or more in absolute value, makes
    [create_rollout_plan] raise [OverflowError], where a text that is not a
    number falls back to the default: the conversion error is not among
    those that lines 432 and 437 catch. *)
Theorem huge_number_raises_overflow regional_data release_date budget_total
    campaign_weeks (mp : gmap string PyVal) precomputed now0 now1 release_dt
    sg (key : string) (z : Z) :
  parse_release_date release_date now0 = Ok release_dt ->
  _extract_movie_signature (Some mp) = Ok sg ->
  key = "popularity" \/ key = "budget" ->
  mp !! key = Some (PInt z) ->
  FLOAT_LIMIT <= Z.abs z ->
  rollout regional_data release_date budget_total campaign_weeks (Some mp)
    precomputed now0 now1 = Raise OverflowError.
Proof.
  intros Hp Hsg Hkey Hz Hbig.
  unfold create_rollout_plan. rewrite Hp. cbn [mbind result_bind].
  rewrite Hsg. cbn [mbind result_bind].
  unfold planning_parameters_raise.
  assert (parameters_overflow int_of_str (default ∅ (Some mp)) budget_total
          = true) as ->; [| reflexivity].
  assert (truthy (PInt z) = true) as Ht.
  { cbn [truthy]. unfold FLOAT_LIMIT in Hbig.
    assert (0 < 2 ^ 1024 - 2 ^ 970) by reflexivity.
    destruct (Z.eqb_spec z 0); [lia | reflexivity]. }
  unfold parameters_overflow. cbn [default from_option id].
  destruct Hkey as [-> | ->]; rewrite Hz; cbn [default from_option id];
    unfold py_or; rewrite Ht; cbn [float_overflows];
    rewrite (proj2 (Z.leb_le _ _) Hbig); [reflexivity |].
  apply orb_true_iff. left. apply orb_true_r.
Qed.


End PlanProperties.

Lemma rollout_returns_only_if_witness :
  exists plan,
    Sample.plan "2024-06-15" None None None (Some Sample.comparison)
    = Ok plan
    /\ Forall (fun p => YEAR_1000 <= ph_start_date p) (phases plan).
Proof.
  eexists. split; [vm_compute; reflexivity |].
  destruct (rollout_returns_only_if Sample.float_of_str Sample.int_of_str
              Sample.compare_regions Sample.signature None "2024-06-15"
              None None None (Some Sample.comparison) Sample.now Sample.now _
              ltac:(vm_compute; reflexivity))
    as (release_dt & _ & _ & _ & _ & _ & _ & H).
  exact H.
Defined.

Lemma huge_number_raises_overflow_witness :
  Sample.plan "2024-06-15" None None
    (Some {[ "popularity" := PInt (10 ^ 400) ]}) None
  = Raise OverflowError.
Proof.
  apply (huge_number_raises_overflow Sample.float_of_str Sample.int_of_str
           Sample.compare_regions Sample.signature None "2024-06-15" None
           None {[ "popularity" := PInt (10 ^ 400) ]} None Sample.now
           Sample.now (midnight 739052) Sample.positioning "popularity"
           (10 ^ 400));
    [reflexivity | reflexivity | left; reflexivity | reflexivity |].
  vm_compute. discriminate.
Defined.


(** ** Dates written in full are accepted *)

(** X13. Every date of the calendar, from 0001-01-01 to 9999-12-31,
    written as YYYY-MM-DD with zero padding, is accepted as a release date
    and read as midnight of that day; the fallback to now + 60 days is not
    taken. *)
Theorem full_dates_are_parsed (y m d : Z) (now : datetime) :
  1 <= y <= 9999 -> 1 <= m <= 12 -> 1 <= d <= Calendar.days_in_month y m ->
  Calendar.strptime (format_ymd y m d)
  = Some (midnight (Calendar.ymd2ord y m d))
  /\ parse_release_date (format_ymd y m d) now
     = Ok (midnight (Calendar.ymd2ord y m d))
  /\ 1 <= Calendar.ymd2ord y m d <= MAX_ORDINAL.
Proof.
  intros Hy Hm Hd.
  pose proof (strptime_format_ymd y m d Hy Hm Hd) as Hs.
  split; [exact Hs |]. split.
  - unfold parse_release_date. rewrite Hs. reflexivity.
  - apply ymd2ord_range; assumption.
Qed.

Lemma full_dates_are_parsed_witness :
  1 <= 2024 <= 9999 /\ 1 <= 2 <= 12
  /\ 1 <= 29 <= Calendar.days_in_month 2024 2
  /\ Calendar.strptime (format_ymd 2024 2 29)
     = Some (midnight (Calendar.ymd2ord 2024 2 29)).
Proof.
  assert (1 <= 2024 <= 9999) as H1 by lia.
  assert (1 <= 2 <= 12) as H2 by lia.
  assert (1 <= 29 <= Calendar.days_in_month 2024 2) as H3
    by (split; discriminate).
  split; [exact H1 |]. split; [exact H2 |]. split; [exact H3 |].
  exact (proj1 (full_dates_are_parsed 2024 2 29 0 H1 H2 H3)).
Defined.

(** * Further properties of the budget allocation *)

Lemma sum_ext {A : Type} (f g : A -> Q) (l : list A) :
  (forall x, (f x == g x)%Q) -> (Py.sum (f <$> l) == Py.sum (g <$> l))%Q.
Proof.
  intros H. induction l as [| x l IH]; [reflexivity |].
  cbn [fmap list_fmap]. rewrite !sum_cons, IH, (H x). reflexivity.
Qed.

Lemma sum_times (l : list Q) (c : Q) :
  (Py.sum ((fun s => s * c) <$> l) == Py.sum l * c)%Q.
Proof.
  induction l as [| x l IH]; cbn [fmap list_fmap].
  - unfold Py.sum. simpl. ring.
  - rewrite !sum_cons, IH. ring.
Qed.

Lemma sum_zero {A : Type} (f : A -> Q) (l : list A) :
  (forall x, (f x == 0)%Q) -> (Py.sum (f <$> l) == 0)%Q.
Proof.
  intros H. induction l as [| x l IH]; [reflexivity |].
  cbn [fmap list_fmap]. rewrite sum_cons, IH, (H x). reflexivity.
Qed.

(** X14. For at most a thousand regions with suggested shares between 0
    and 100 and a budget between 0 and a billion: with a positive total of
    shares the amounts allocated to the regions add up to the total budget
    within a cent for each region; with a total of zero nothing is
    allocated, whatever the budget. *)
Theorem allocations_add_up_to_budget (ranked : list RegionScore)
    (total_budget : Q) :
  Forall (fun r => (0 <= suggested_budget_pct r <= 100)%Q) ranked ->
  (length ranked <= 1000)%nat ->
  (0 <= total_budget <= 1000000000)%Q ->
  let total_pct := Py.sum (suggested_budget_pct <$> ranked) in
  let amounts := budget_amount <$> _allocate_budget ranked total_budget in
  let n := inject_Z (Z.of_nat (length ranked)) in
  ((0 < total_pct)%Q ->
   (total_budget - n * 0.01 <= Py.sum amounts <= total_budget + n * 0.01)%Q)
  /\ ((total_pct <= 0)%Q -> (Py.sum amounts == 0)%Q).
Proof.
  intros _ _ _ total_pct amounts n. subst amounts.
  assert (0 <= n)%Q as Hn.
  { unfold n. change 0%Q with (inject_Z 0). rewrite <- Zle_Qle. lia. }
  assert (Py.sum (budget_amount <$> _allocate_budget ranked total_budget)
          == Py.sum (budget_amount ∘ allocate_region total_pct total_budget
                     <$> ranked))%Q as Hperm.
  { rewrite (sum_perm _ _
      (fmap_Permutation budget_amount _ _
         (allocate_budget_perm ranked total_budget))).
    fold total_pct. rewrite <- list_fmap_compose. reflexivity. }
  split.
  - intros Hpos. rewrite Hperm.
    assert (budget_amount ∘ allocate_region total_pct total_budget
            = (fun x => Py.round_nd x 2)
              ∘ (fun r =>
                   (suggested_budget_pct r / total_pct * 100 / 100
                    * total_budget)%Q)) as ->.
    { unfold compose, allocate_region. cbn [budget_amount].
      rewrite (proj2 (PyFacts.Qltb_lt 0 total_pct) Hpos). reflexivity. }
    rewrite list_fmap_compose.
    pose proof (sum_rounded
      ((fun r => (suggested_budget_pct r / total_pct * 100 / 100
                  * total_budget)%Q) <$> ranked)) as H.
    rewrite length_fmap in H. fold n in H.
    assert (Py.sum ((fun r => (suggested_budget_pct r / total_pct * 100 / 100
                               * total_budget)%Q) <$> ranked)
            == total_budget)%Q as E.
    { rewrite (sum_ext _
        ((fun s => (s * (total_budget / total_pct))%Q) ∘ suggested_budget_pct))
        by (intros r; unfold compose; field; lra).
      rewrite list_fmap_compose, sum_times. fold total_pct. field. lra. }
    rewrite E in H. lra.
  - intros Hz. rewrite Hperm. apply sum_zero.
    intros r. unfold compose.
    apply (allocate_region_zero total_pct total_budget r Hz).
Qed.

Lemma allocations_add_up_to_budget_witness :
  let amounts :=
    budget_amount <$> _allocate_budget Sample.six_regions 1000000 in
  (0 < Py.sum (suggested_budget_pct <$> Sample.six_regions))%Q
  /\ (1000000 - 6 * 0.01 <= Py.sum amounts <= 1000000 + 6 * 0.01)%Q.
Proof.
  split; [reflexivity |].
  refine (proj1 (allocations_add_up_to_budget Sample.six_regions 1000000
                   _ _ _) _).
  - repeat constructor; discriminate.
  - vm_compute. lia.
  - split; discriminate.
  - reflexivity.
Defined.

Lemma insert_by_filter {T : Type} (before : T -> T -> bool) (P : T -> bool)
    (x : T) (l : list T) :
  (forall a b, P a = true -> P b = true -> before a b = true) ->
  List.filter P (insert_by before x l) = List.filter P (x :: l).
Proof.
  intros H. induction l as [| y l IH]; [reflexivity |].
  cbn [insert_by]. destruct (before x y) eqn:E; [reflexivity |].
  cbn [List.filter] in *. rewrite IH.
  destruct (P x) eqn:Ex, (P y) eqn:Ey; try reflexivity.
  rewrite (H x y Ex Ey) in E. discriminate.
Qed.

Lemma sorted_by_filter {T : Type} (before : T -> T -> bool) (P : T -> bool)
    (l : list T) :
  (forall a b, P a = true -> P b = true -> before a b = true) ->
  List.filter P (sorted_by before l) = List.filter P l.
Proof.
  intros H. induction l as [| x l IH]; [reflexivity |].
  cbn [sorted_by foldr]. fold (sorted_by before l).
  rewrite (insert_by_filter before P x _ H). cbn [List.filter].
  rewrite IH. reflexivity.
Qed.

(** X15. Regions that are allocated the same amount keep, in the
    allocation list, the order they have in the ranking: for every amount,
    the allocations of that amount are those computed region by region, in
    ranking order. *)
Theorem equal_amounts_keep_ranking_order (ranked : list RegionScore)
    (total_budget amount : Q) :
  let total_pct := Py.sum (suggested_budget_pct <$> ranked) in
  List.filter (fun a => Qeq_bool (budget_amount a) amount)
    (_allocate_budget ranked total_budget)
  = List.filter (fun a => Qeq_bool (budget_amount a) amount)
      (allocate_region total_pct total_budget <$> ranked).
Proof.
  cbv zeta. unfold _allocate_budget. apply sorted_by_filter.
  intros a b Ha Hb. apply Qeq_bool_iff in Ha, Hb. apply Qle_bool_iff.
  rewrite Ha, Hb. apply Qle_refl.
Qed.

(** * The export pack *)

Lemma strptime_midnight (s : string) (release : datetime) :
  Calendar.strptime s = Some release ->
  s <> ""
  /\ exists y m d,
       Calendar.match_ymd (list_ascii_of_string s) = Some (y, m, d)
       /\ release = midnight (Calendar.ymd2ord y m d).
Proof.
  unfold Calendar.strptime. intros H. split.
  - intros ->. discriminate H.
  - destruct (Calendar.match_ymd _) as [[[y m] d] |]; [| discriminate].
    cbn [mbind option_bind] in H.
    destruct (_ && _); [| discriminate]. injection H as <-.
    exists y, m, d. split; reflexivity.
Qed.

Lemma truthy_text (s : string) : s <> "" -> truthy (PStr s) = true.
Proof.
  intros H. cbn [truthy]. destruct (String.eqb_spec s ""); [contradiction |].
  reflexivity.
Qed.

(** X16. For a release date that parses, the call to action follows the
    calendar: "Watch now" from the release day on, "Get tickets" before the
    release when it is at most 22 days ahead of today (21 when the clock
    reads exactly midnight), and "Coming" with the month and day of the
    release when it is further ahead. *)
Theorem cta_follows_release_window (s : string) (now release : datetime) :
  Calendar.strptime s = Some release ->
  let cta := ExportPack._cta_for_release (PStr s) now in
  let today := toordinal now in
  let release_day := toordinal release in
  let ahead := if now mod US_PER_DAY =? 0 then 21 else 22 in
  (cta = ExportPack.WatchNow <-> release_day <= today)
  /\ (cta = ExportPack.GetTickets <-> today < release_day <= today + ahead)
  /\ exists y m d,
       Calendar.match_ymd (list_ascii_of_string s) = Some (y, m, d)
       /\ (cta = ExportPack.Coming m d <-> today + ahead < release_day).
Proof.
  intros H. pose proof (strptime_midnight s release H)
    as (Hs & y & m & d & Hm & Hr).
  cbv zeta. unfold ExportPack._cta_for_release.
  rewrite (truthy_text s Hs), H, Hm. cbn [negb].
  set (r := Calendar.ymd2ord y m d) in *.
  assert (toordinal release = r) as ->
    by (rewrite Hr; unfold toordinal, midnight, US_PER_DAY;
        Z.div_mod_to_equations; lia).
  assert (release <= now <-> r <= toordinal now) as Hle
    by (rewrite Hr; unfold toordinal, midnight, US_PER_DAY;
        Z.div_mod_to_equations; lia).
  assert (td_days (release - now) <= 21
          <-> r <= toordinal now
                   + (if now mod US_PER_DAY =? 0 then 21 else 22)) as Hd.
  { rewrite Hr. unfold td_days, toordinal, midnight, US_PER_DAY.
    destruct (Z.eqb_spec (now mod 86400000000) 0);
      Z.div_mod_to_equations; lia. }
  assert (0 <= (if now mod US_PER_DAY =? 0 then 21 else 22)) as Hpos
    by (destruct (_ =? _); lia).
  destruct (Z.leb_spec release now) as [H1 | H1].
  - split; [| split].
    + split; [intros _; apply Hle, H1 | reflexivity].
    + split; [discriminate | lia].
    + exists y, m, d. split; [reflexivity |].
      split; [discriminate | lia].
  - destruct (Z.leb_spec (td_days (release - now)) 21) as [H2 | H2].
    + split; [| split].
      * split; [discriminate | lia].
      * split; [lia | reflexivity].
      * exists y, m, d. split; [reflexivity |].
        split; [discriminate | lia].
    + split; [| split].
      * split; [discriminate | lia].
      * split; [discriminate | lia].
      * exists y, m, d. split; [reflexivity |].
        split; [lia | reflexivity].
Qed.

Lemma cta_follows_release_window_witness :
  Calendar.strptime "2024-02-23" = Some (midnight 738939)
  /\ ExportPack._cta_for_release (PStr "2024-02-23") Sample.now
     = ExportPack.GetTickets.
Proof.
  split; [reflexivity |].
  apply (proj1 (proj2 (cta_follows_release_window "2024-02-23" Sample.now
                         (midnight 738939) eq_refl))).
  vm_compute. split; [reflexivity | discriminate].
Defined.

Lemma cta_truthy (v : PyVal) (now : datetime) :
  truthy v = true -> ExportPack._cta_for_release v now <> ExportPack.LearnMore.
Proof.
  intros H. unfold ExportPack._cta_for_release. rewrite H. cbn [negb].
  destruct v as [| | | | s |]; try discriminate.
  destruct (Calendar.strptime s); [| discriminate].
  destruct (Calendar.match_ymd _) as [[[y m] dd] |]; [| discriminate].
  destruct (_ <=? _); [discriminate |].
  destruct (_ <=? _); discriminate.
Qed.

(** X17. The email never says "Learn more", whenever it is written: for a
    movie without a release date (absent, None or empty) it says
    "Get tickets", where the thumbnail brief says "Learn more"; for a movie
    with a release date each of the two applies [_cta_for_release] to that
    date, with its own reading of the clock, and neither says
    "Learn more". *)
Theorem email_never_says_learn_more (movie : gmap string PyVal)
    (now_email now_brief : datetime) :
  let release_date := default PNone (movie !! "release_date") in
  ExportPack._email_markdown_cta movie now_email <> ExportPack.LearnMore
  /\ (truthy release_date = false ->
      ExportPack._email_markdown_cta movie now_email = ExportPack.GetTickets
      /\ ExportPack._thumbnail_brief_cta movie now_brief
         = ExportPack.LearnMore)
  /\ (truthy release_date = true ->
      ExportPack._email_markdown_cta movie now_email
      = ExportPack._cta_for_release release_date now_email
      /\ ExportPack._thumbnail_brief_cta movie now_brief
         = ExportPack._cta_for_release release_date now_brief
      /\ ExportPack._thumbnail_brief_cta movie now_brief
         <> ExportPack.LearnMore).
Proof.
  cbv zeta. unfold ExportPack._email_markdown_cta,
    ExportPack._thumbnail_brief_cta, py_or.
  destruct (truthy (default PNone (movie !! "release_date"))) eqn:E.
  - split; [apply cta_truthy, E |].
    split; [discriminate |]. intros _.
    split; [reflexivity |]. split; [reflexivity | apply cta_truthy, E].
  - split; [discriminate |].
    split; [split; reflexivity | discriminate].
Qed.

Lemma email_never_says_learn_more_witness :
  ExportPack._email_markdown_cta ∅ Sample.now = ExportPack.GetTickets
  /\ ExportPack._thumbnail_brief_cta ∅ (Sample.now + 1)
     = ExportPack.LearnMore.
Proof.
  apply (proj1 (proj2 (email_never_says_learn_more ∅ Sample.now
                         (Sample.now + 1)))).
  reflexivity.
Defined.

(** ** The title of the metadata *)

Lemma kept_space (c : ascii) :
  ExportPack.kept c = true -> ExportPack.isspace c = true -> c = " "%char.
Proof.
  destruct c as [[] [] [] [] [] [] [] []]; intros H1 H2;
    try reflexivity; try discriminate H1; discriminate H2.
Qed.

Lemma elem_of_rev {A : Type} (l : list A) (x : A) : x ∈ rev l <-> x ∈ l.
Proof. rewrite !list_elem_of_In. symmetry. apply in_rev. Qed.

Lemma last_rev {A : Type} (l : list A) : last (rev l) = head l.
Proof. destruct l as [| a l]; [reflexivity |]. cbn [rev]. apply last_snoc. Qed.

Lemma lstrip_head (s : list ascii) (c : ascii) :
  head (ExportPack.lstrip s) = Some c -> ExportPack.isspace c = false.
Proof.
  induction s as [| a s IH]; [discriminate |].
  cbn [ExportPack.lstrip]. destruct (ExportPack.isspace a) eqn:E; [exact IH |].
  intros [= <-]. exact E.
Qed.

Lemma lstrip_suffix (s : list ascii) :
  exists pre, s = pre ++ ExportPack.lstrip s.
Proof.
  induction s as [| a s [pre IH]]; [exists []; reflexivity |].
  cbn [ExportPack.lstrip]. destruct (ExportPack.isspace a).
  - exists (a :: pre). cbn [app]. rewrite <- IH. reflexivity.
  - exists []. reflexivity.
Qed.

Lemma lstrip_id (s : list ascii) :
  (forall c, head s = Some c -> ExportPack.isspace c = false) ->
  ExportPack.lstrip s = s.
Proof.
  destruct s as [| a s]; [reflexivity |]. intros H.
  cbn [ExportPack.lstrip]. rewrite (H a eq_refl). reflexivity.
Qed.

Lemma lstrip_snoc (u : list ascii) (c : ascii) :
  ExportPack.isspace c = false ->
  exists v, ExportPack.lstrip (u ++ [c]) = v ++ [c].
Proof.
  intros Hc. induction u as [| a u [v IH]].
  - exists []. cbn. rewrite Hc. reflexivity.
  - cbn [app ExportPack.lstrip]. destruct (ExportPack.isspace a).
    + exists v. exact IH.
    + exists (a :: u). reflexivity.
Qed.

Lemma lstrip_spaces (s : list ascii) :
  (forall c, c ∈ s -> ExportPack.isspace c = true) -> ExportPack.lstrip s = [].
Proof.
  induction s as [| a s IH]; [reflexivity |]. intros H.
  cbn [ExportPack.lstrip]. rewrite (H a) by apply list_elem_of_here.
  apply IH. intros c Hc. apply H. apply list_elem_of_further, Hc.
Qed.

Lemma strip_elem_of (s : list ascii) (c : ascii) :
  c ∈ ExportPack.strip s -> c ∈ s.
Proof.
  unfold ExportPack.strip, ExportPack.rstrip. intros H.
  apply (proj1 (elem_of_rev _ _)) in H.
  destruct (lstrip_suffix (rev (ExportPack.lstrip s))) as [p1 E1].
  assert (c ∈ rev (ExportPack.lstrip s)) as H1
    by (rewrite E1; apply elem_of_app; right; exact H).
  apply (proj1 (elem_of_rev _ _)) in H1.
  destruct (lstrip_suffix s) as [p2 E2].
  rewrite E2. apply elem_of_app. right. exact H1.
Qed.

Lemma strip_trimmed (s : list ascii) (c : ascii) :
  head (ExportPack.strip s) = Some c \/ last (ExportPack.strip s) = Some c ->
  ExportPack.isspace c = false.
Proof.
  unfold ExportPack.strip, ExportPack.rstrip.
  destruct (ExportPack.lstrip s) as [| a t] eqn:E.
  - cbn. intros [H | H]; discriminate H.
  - assert (ExportPack.isspace a = false) as Ha
      by (apply (lstrip_head s); rewrite E; reflexivity).
    cbn [rev]. destruct (lstrip_snoc (rev t) a Ha) as [v Hv].
    intros [H | H].
    + rewrite Hv, rev_app_distr in H. cbn in H. injection H as <-. exact Ha.
    + rewrite last_rev in H. apply (lstrip_head _ _ H).
Qed.

Lemma strip_id (s : list ascii) :
  (forall c, head s = Some c \/ last s = Some c ->
             ExportPack.isspace c = false) ->
  ExportPack.strip s = s.
Proof.
  intros H. unfold ExportPack.strip, ExportPack.rstrip.
  rewrite (lstrip_id s) by (intros c Hc; apply H; left; exact Hc).
  rewrite lstrip_id; [apply rev_involutive |].
  intros c Hc. apply H. right. rewrite <- (rev_involutive s), last_rev.
  exact Hc.
Qed.

Lemma filter_kept_id (s : list ascii) :
  (forall c, c ∈ s -> ExportPack.kept c = true) ->
  List.filter ExportPack.kept s = s.
Proof.
  induction s as [| a s IH]; [reflexivity |]. intros H.
  cbn [List.filter]. rewrite (H a) by apply list_elem_of_here.
  f_equal. apply IH. intros c Hc. apply H, list_elem_of_further, Hc.
Qed.

Lemma safe_title_of_kept (title : string) (c : ascii) :
  c ∈ list_ascii_of_string (ExportPack.safe_title_of title) ->
  ExportPack.kept c = true.
Proof.
  unfold ExportPack.safe_title_of. rewrite list_ascii_of_string_of_list_ascii.
  intros H. apply strip_elem_of in H.
  apply list_elem_of_In, filter_In in H as [_ H]. exact H.
Qed.

Lemma safe_title_of_trimmed (title : string) (c : ascii) :
  let t := list_ascii_of_string (ExportPack.safe_title_of title) in
  head t = Some c \/ last t = Some c -> ExportPack.isspace c = false.
Proof.
  cbv zeta. unfold ExportPack.safe_title_of.
  rewrite list_ascii_of_string_of_list_ascii. apply strip_trimmed.
Qed.

Lemma safe_title_of_id (t : string) :
  (forall c, c ∈ list_ascii_of_string t -> ExportPack.kept c = true) ->
  (forall c, head (list_ascii_of_string t) = Some c
             \/ last (list_ascii_of_string t) = Some c ->
             ExportPack.isspace c = false) ->
  ExportPack.safe_title_of t = t.
Proof.
  intros Hk Ht. unfold ExportPack.safe_title_of.
  rewrite (filter_kept_id _ Hk), (strip_id _ Ht).
  apply string_of_list_ascii_of_string.
Qed.

Lemma metadata_title_cases (movie : gmap string PyVal) (generated_at : PyVal)
    (now : datetime) (md : ExportPack.Metadata) :
  ExportPack._metadata movie generated_at now = Some md ->
  exists title,
    default (PStr "campaign") (movie !! "title") = PStr title
    /\ ExportPack.md_title md
       = str_or (ExportPack.safe_title_of title) "campaign".
Proof.
  unfold ExportPack._metadata.
  destruct (default (PStr "campaign") (movie !! "title"))
    as [| | | | title |]; try discriminate.
  intros [= <-]. exists title. split; reflexivity.
Qed.

Lemma str_or_cases (s d : string) :
  (s <> "" /\ str_or s d = s) \/ (s = "" /\ str_or s d = d).
Proof.
  unfold str_or. destruct (String.eqb_spec s ""); [right | left]; auto.
Qed.

Lemma metadata_title_facts (movie : gmap string PyVal)
    (generated_at : PyVal) (now : datetime) (md : ExportPack.Metadata) :
  ExportPack._metadata movie generated_at now = Some md ->
  let title := list_ascii_of_string (ExportPack.md_title md) in
  title <> []
  /\ (forall c, c ∈ title -> ExportPack.kept c = true)
  /\ ("-"%char ∉ title)
  /\ head title <> Some " "%char
  /\ last title <> Some " "%char.
Proof.
  intros H. apply metadata_title_cases in H as (t & _ & Ht). cbv zeta.
  rewrite Ht. clear Ht.
  assert (forall c,
            c ∈ list_ascii_of_string
                  (str_or (ExportPack.safe_title_of t) "campaign") ->
            ExportPack.kept c = true) as Hk.
  { destruct (str_or_cases (ExportPack.safe_title_of t) "campaign")
      as [[_ ->] | [_ ->]].
    - apply safe_title_of_kept.
    - intros c Hc. cbn in Hc. set_unfold in Hc.
      destruct Hc as [-> | [-> | [-> | [-> | [-> | [-> | [-> | [-> | []]]]]]]]];
        reflexivity. }
  assert (forall c,
            head (list_ascii_of_string
                    (str_or (ExportPack.safe_title_of t) "campaign")) = Some c
            \/ last (list_ascii_of_string
                       (str_or (ExportPack.safe_title_of t) "campaign"))
               = Some c ->
            ExportPack.isspace c = false) as Hs.
  { destruct (str_or_cases (ExportPack.safe_title_of t) "campaign")
      as [[_ ->] | [_ ->]].
    - apply safe_title_of_trimmed.
    - intros c [[= <-] | [= <-]]; reflexivity. }
  split; [| split; [exact Hk | split; [| split]]].
  - destruct (str_or_cases (ExportPack.safe_title_of t) "campaign")
      as [[Hne ->] | [_ ->]]; [| discriminate].
    intros E. apply Hne.
    rewrite <- (string_of_list_ascii_of_string (ExportPack.safe_title_of t)), E.
    reflexivity.
  - intros Hin. apply Hk in Hin. discriminate Hin.
  - intros E. pose proof (Hs _ (or_introl E)) as Hc. discriminate Hc.
  - intros E. pose proof (Hs _ (or_intror E)) as Hc. discriminate Hc.
Qed.

(** X18. The title of the metadata is never empty; it holds only letters,
    digits, spaces and the four characters from the backslash to the
    underscore, so no hyphen, although the pattern lists one; and it
    neither starts nor ends with a space. *)
Theorem metadata_title_is_safe (movie : gmap string PyVal)
    (generated_at : PyVal) (now : datetime) (md : ExportPack.Metadata) :
  ExportPack._metadata movie generated_at now = Some md ->
  let title := list_ascii_of_string (ExportPack.md_title md) in
  title <> []
  /\ (forall c, c ∈ title -> ExportPack.kept c = true)
  /\ ("-"%char ∉ title)
  /\ head title <> Some " "%char
  /\ last title <> Some " "%char.
Proof. apply metadata_title_facts. Qed.

Lemma metadata_title_is_safe_witness :
  exists md,
    ExportPack._metadata {[ "title" := PStr " Spider-Man: No Way Home " ]}
      PNone Sample.now = Some md
    /\ ExportPack.md_title md = "SpiderMan No Way Home"
    /\ ("-"%char ∉ list_ascii_of_string (ExportPack.md_title md)).
Proof.
  eexists. split; [vm_compute; reflexivity |]. split; [reflexivity |].
  refine (proj1 (proj2 (proj2 (metadata_title_is_safe
    {[ "title" := PStr " Spider-Man: No Way Home " ]} PNone Sample.now _ _)))).
  vm_compute. reflexivity.
Defined.

(** X19. Cleaning a title twice changes nothing: the metadata built
    later for the title of a metadata record has the same title and the
    same assets, and is that record when the campaign gives the time of
    generation; otherwise each call stamps its own reading of the clock.
    And a title without a letter, a digit or one of the characters from
    the backslash to the underscore gives the title "campaign". *)
Theorem metadata_title_is_stable (movie : gmap string PyVal)
    (generated_at : PyVal) (now later : datetime)
    (md : ExportPack.Metadata) :
  ExportPack._metadata movie generated_at now = Some md ->
  (exists md',
     ExportPack._metadata
       (<["title" := PStr (ExportPack.md_title md)]> movie) generated_at
       later = Some md'
     /\ ExportPack.md_title md' = ExportPack.md_title md
     /\ ExportPack.md_assets md' = ExportPack.md_assets md
     /\ (truthy generated_at = true -> md' = md)
     /\ (truthy generated_at = false ->
         ExportPack.md_generated_at md = ExportPack.IsoNow now
         /\ ExportPack.md_generated_at md' = ExportPack.IsoNow later))
  /\ (forall title,
        movie !! "title" = Some (PStr title) ->
        (forall c, c ∈ list_ascii_of_string title ->
                   ExportPack.kept c = true -> c = " "%char) ->
        ExportPack.md_title md = "campaign").
Proof.
  intros H. split.
  - pose proof (metadata_title_facts movie generated_at now md H)
      as (_ & Hk & _ & Hh & Hl). cbv zeta in *.
    assert (ExportPack.safe_title_of (ExportPack.md_title md)
            = ExportPack.md_title md) as Hid.
    { apply safe_title_of_id; [exact Hk |].
      intros c Hc. destruct (ExportPack.isspace c) eqn:E; [| reflexivity].
      assert (c ∈ list_ascii_of_string (ExportPack.md_title md)) as Hin.
      { destruct Hc as [Hc | Hc].
        - apply head_Some_elem_of, Hc.
        - apply last_Some_elem_of, Hc. }
      rewrite (kept_space c (Hk c Hin) E) in Hc.
      destruct Hc as [Hc | Hc]; contradiction. }
    assert (ExportPack.md_title md <> "") as Hne.
    { pose proof (metadata_title_facts movie generated_at now md H)
        as (Hn & _). cbv zeta in Hn. intros E. apply Hn. rewrite E.
      reflexivity. }
    unfold ExportPack._metadata in *. rewrite lookup_insert_eq.
    cbn -[ExportPack.safe_title_of str_or truthy].
    rewrite Hid.
    destruct (default (PStr "campaign") (movie !! "title"))
      as [| | | | title |]; try discriminate.
    injection H as <-. cbn [ExportPack.md_title] in *.
    assert (str_or (str_or (ExportPack.safe_title_of title) "campaign")
              "campaign"
            = str_or (ExportPack.safe_title_of title) "campaign") as Heq.
    { destruct (str_or_cases
                  (str_or (ExportPack.safe_title_of title) "campaign")
                  "campaign") as [[_ ->] | [E _]]; [reflexivity |].
      contradiction. }
    eexists. split; [reflexivity |].
    cbn [ExportPack.md_title ExportPack.md_assets
         ExportPack.md_generated_at].
    split; [exact Heq |]. split; [reflexivity |]. split.
    + intros ->. rewrite Heq. reflexivity.
    + intros ->. split; reflexivity.
  - intros title Ht Hsp.
    apply metadata_title_cases in H as (t & Hd & ->).
    rewrite Ht in Hd. cbn [default] in Hd. injection Hd as <-.
    unfold ExportPack.safe_title_of, ExportPack.strip.
    rewrite lstrip_spaces; [reflexivity |].
    intros c Hc. apply list_elem_of_In, filter_In in Hc as [Hin Hk].
    rewrite (Hsp c); [reflexivity | apply list_elem_of_In, Hin | exact Hk].
Qed.

Lemma metadata_title_is_stable_witness :
  exists md,
    ExportPack._metadata {[ "title" := PStr "... ---" ]} PNone Sample.now
    = Some md
    /\ ExportPack.md_title md = "campaign".
Proof.
  eexists. split; [vm_compute; reflexivity |].
  refine (proj2 (metadata_title_is_stable {[ "title" := PStr "... ---" ]}
                   PNone Sample.now (Sample.now + 1) _ _) "... ---" _ _).
  - vm_compute. reflexivity.
  - reflexivity.
  - intros c Hc. cbn in Hc. set_unfold in Hc.
    destruct Hc as [-> | [-> | [-> | [-> | [-> | [-> | [-> | []]]]]]]];
      intros Hk; first [reflexivity | cbv in Hk; discriminate Hk].
Defined.

(** ** The rows of the ad copy *)

Lemma replace_newlines_clean (text : string) :
  "010"%char ∉ list_ascii_of_string (ExportPack.replace_newlines text).
Proof.
  unfold ExportPack.replace_newlines.
  rewrite list_ascii_of_string_of_list_ascii. intros H.
  apply list_elem_of_fmap in H as (c & Hc & _).
  destruct (Ascii.eqb_spec c "010"); [discriminate Hc | congruence].
Qed.

Lemma variant_row_clean (label : string) (variant : gmap string PyVal)
    (r : ExportPack.AdRow) :
  ExportPack.variant_row label variant = Some r ->
  ExportPack.ad_label r = label
  /\ ("010"%char ∉ list_ascii_of_string (ExportPack.ad_text r)).
Proof.
  unfold ExportPack.variant_row.
  destruct (default (PStr "") (variant !! "text")) as [| | | | text |];
    try discriminate.
  intros [= <-]. split; [reflexivity | apply replace_newlines_clean].
Qed.

Lemma placeholder_row_clean (label : string) :
  "010"%char ∉ list_ascii_of_string
                 (ExportPack.ad_text (ExportPack.placeholder_row label)).
Proof.
  cbn. intros H. set_unfold in H.
  repeat (destruct H as [H | H]; [discriminate H |]). exact H.
Qed.

(** X20. When the ad copy is written there are exactly two rows, labelled
    A and B in this order. Row A comes from the first variant and row B
    from the second, the AI variants counted after the base ones; a row
    without a variant is the placeholder; later variants are dropped. No
    row has a line feed in its text. *)
Theorem ad_copy_has_two_rows (base_variants ai_variants :
      list (gmap string PyVal)) (rows : list ExportPack.AdRow) :
  ExportPack._ad_copy_csv base_variants ai_variants = Some rows ->
  ExportPack.ad_label <$> rows = ["A"; "B"]
  /\ (forall i label,
        ExportPack.labels !! i = Some label ->
        match (base_variants ++ ai_variants) !! i with
        | Some variant =>
            ExportPack.variant_row label variant = rows !! i
        | None => rows !! i = Some (ExportPack.placeholder_row label)
        end)
  /\ (forall r, r ∈ rows ->
        "010"%char ∉ list_ascii_of_string (ExportPack.ad_text r)).
Proof.
  unfold ExportPack._ad_copy_csv.
  destruct (base_variants ++ ai_variants) as [| v1 [| v2 rest]].
  - cbn. intros [= <-]. split; [reflexivity |]. split.
    + intros [| [| i]] label; cbn; intros [= <-]; reflexivity.
    + intros r Hr. set_unfold in Hr.
      destruct Hr as [-> | [-> | []]]; apply placeholder_row_clean.
  - cbn. destruct (ExportPack.variant_row "A" v1) as [r1 |] eqn:E1;
      [| discriminate].
    cbn. intros [= <-].
    destruct (variant_row_clean _ _ _ E1) as [L1 C1].
    split; [cbn; rewrite L1; reflexivity |]. split.
    + intros [| [| i]] label; cbn; intros [= <-];
        [exact E1 | reflexivity].
    + intros r Hr. set_unfold in Hr.
      destruct Hr as [-> | [-> | []]];
        [exact C1 | apply placeholder_row_clean].
  - cbn. destruct (ExportPack.variant_row "A" v1) as [r1 |] eqn:E1;
      [| discriminate].
    cbn. destruct (ExportPack.variant_row "B" v2) as [r2 |] eqn:E2;
      [| discriminate].
    cbn. intros [= <-].
    destruct (variant_row_clean _ _ _ E1) as [L1 C1].
    destruct (variant_row_clean _ _ _ E2) as [L2 C2].
    split; [cbn; rewrite L1, L2; reflexivity |]. split.
    + intros [| [| i]] label; cbn; intros [= <-]; [exact E1 | exact E2].
    + intros r Hr. set_unfold in Hr.
      destruct Hr as [-> | [-> | []]]; [exact C1 | exact C2].
Qed.

Lemma ad_copy_has_two_rows_witness :
  exists rows,
    ExportPack._ad_copy_csv [] [{[ "text" := PStr "Line one
line two" ]}] = Some rows
    /\ ExportPack.ad_label <$> rows = ["A"; "B"].
Proof.
  eexists. split; [vm_compute; reflexivity |].
  refine (proj1 (ad_copy_has_two_rows []
                   [{[ "text" := PStr "Line one
line two" ]}] _ _)).
  vm_compute. reflexivity.
Defined.

(** ** The storyboard *)

Lemma frames_from_length (title : PyVal) (idx : Z) (phs : list Phase) :
  length (ExportPack.frames_from title idx phs) = length phs.
Proof.
  revert idx. induction phs as [| p phs IH]; intros idx; [reflexivity |].
  cbn. rewrite IH. reflexivity.
Qed.

Lemma frames_from_lookup (title : PyVal) (idx : Z) (phs : list Phase)
    (i : nat) :
  ExportPack.frames_from title idx phs !! i
  = (fun p =>
       ExportPack.frame_of title (idx + Z.of_nat i) (ph_name p) (focus p)
         (Some (ph_start_date p)) (regions p) (Some (intensity p)))
    <$> phs !! i.
Proof.
  revert idx i. induction phs as [| p phs IH]; intros idx i; [reflexivity |].
  destruct i as [| i]; cbn [ExportPack.frames_from lookup list_lookup fmap
                             option_fmap option_map].
  - rewrite Z.add_0_r. reflexivity.
  - change (ExportPack.frames_from title (idx + 1) phs !! i
            = (fun p =>
                 ExportPack.frame_of title (idx + Z.of_nat (S i)) (ph_name p)
                   (focus p) (Some (ph_start_date p)) (regions p)
                   (Some (intensity p))) <$> phs !! i).
    rewrite IH. replace (idx + 1 + Z.of_nat i) with (idx + Z.of_nat (S i))
      by lia. reflexivity.
Qed.

(** X21. A storyboard has between one and four frames: one for each of
    the first four phases, or the single teaser frame when there is no
    phase. The frames are numbered from 1 in order, no two of them share a
    visual direction, and only the first one asks to watch the trailer:
    the others ask to get tickets. *)
Theorem storyboard_has_one_to_four_frames (movie : gmap string PyVal)
    (phases : list Phase) (target_regions : list string) :
  let frames := ExportPack._storyboard_json movie phases target_regions in
  length frames = Nat.max 1 (Nat.min 4 (length phases))
  /\ ExportPack.frame <$> frames = Z.of_nat <$> seq 1 (length frames)
  /\ NoDup (ExportPack.fr_visual_direction <$> frames)
  /\ ExportPack.fr_cta <$> frames
     = "Watch the trailer" :: replicate (length frames - 1) "Get tickets".
Proof.
  cbv zeta. unfold ExportPack._storyboard_json.
  destruct phases as [| p1 [| p2 [| p3 [| p4 rest]]]];
    cbn [take ExportPack.frames_from fmap list_fmap length
         ExportPack.frame ExportPack.fr_visual_direction ExportPack.fr_cta
         ExportPack.frame_of];
    (split; [reflexivity |]); (split; [reflexivity |]);
    (split; [| reflexivity]);
    apply (bool_decide_unpack _); vm_compute; reflexivity.
Qed.

(** ** The storyboard of a rollout plan *)

Lemma append_nonempty (a b : string) : a <> "" -> (a ++ b)%string <> "".
Proof. destruct a; [contradiction | discriminate]. Qed.

Lemma create_phases_focus (ranked : list RegionScore)
    (start_date release_date : datetime) (sg : MovieSignature) (w : Z) :
  Forall (fun p => focus p <> "")
    (_create_phases ranked start_date release_date sg w).
Proof.
  unfold _create_phases.
  destruct (in_tier TierA ranked) as [| a la],
    (in_tier TierB ranked) as [| b lb],
    (in_tier TierC ranked) as [| c lc];
    cbv zeta;
    repeat match goal with
           | |- context [if ?b then _ else _] => destruct b
           end;
    repeat (apply Forall_app; split);
    repeat first [apply Forall_nil_2 | apply Forall_cons_2];
    cbn [focus]; apply append_nonempty; discriminate.
Qed.

Lemma frames_from_plan (title : PyVal) (idx : nat) (phs : list Phase) :
  (1 <= idx)%nat ->
  Forall (fun p => focus p <> "") phs ->
  phase <$> phs = seq idx (length phs) ->
  ExportPack.frames_from title (Z.of_nat idx) phs
  = (fun p =>
       {| ExportPack.frame := Z.of_nat (phase p);
          ExportPack.fr_title := ph_name p;
          ExportPack.fr_visual_direction :=
            ExportPack._visual_direction (Z.of_nat (phase p));
          ExportPack.fr_copy := ExportPack.Focus (focus p);
          ExportPack.fr_cta :=
            if (phase p =? 1)%nat then "Watch the trailer"
            else "Get tickets";
          ExportPack.fr_start_date := Some (ph_start_date p);
          ExportPack.fr_regions := regions p;
          ExportPack.fr_intensity := Some (intensity p) |}) <$> phs.
Proof.
  revert idx. induction phs as [| p phs IH]; intros idx H1 Hf Hn;
    [reflexivity |].
  apply Forall_cons in Hf as [Hp Hf].
  cbn [fmap list_fmap length seq] in Hn. injection Hn as Hi Hn.
  cbn [ExportPack.frames_from fmap list_fmap].
  replace (Z.of_nat idx + 1) with (Z.of_nat (S idx)) by lia.
  rewrite (IH (S idx) (Nat.le_le_succ_r _ _ H1) Hf Hn). f_equal.
  unfold ExportPack.frame_of. rewrite Hi.
  destruct (String.eqb_spec (focus p) ""); [contradiction |].
  f_equal.
  destruct (Nat.eqb_spec idx 1), (Z.leb_spec 2 (Z.of_nat idx));
    try reflexivity; lia.
Qed.

Section StoryboardProperties.

Variable float_of_str : string -> option Q.
Variable int_of_str : string -> option Z.
Variable compare_regions : gmap string (gmap string PyVal) -> Comparison.
Variable _extract_movie_signature :
  option (gmap string PyVal) -> result MovieSignature.

#[local] Abbreviation rollout :=
  (create_rollout_plan float_of_str int_of_str compare_regions
     _extract_movie_signature).

(** X22. The storyboard of a rollout plan has one frame for each phase of
    the plan, none cut off: the frame has the number, the name, the start
    date, the regions and the intensity of its phase, and its copy is the
    focus of the phase, never the fallback line. A plan has no phase
    exactly when it has no target region; its storyboard is then the
    single teaser frame. *)
Theorem storyboard_follows_plan regional_data release_date budget_total
    campaign_weeks movie_profile precomputed now0 now1 plan
    (movie : gmap string PyVal) (target : list string) :
  rollout regional_data release_date budget_total campaign_weeks
    movie_profile precomputed now0 now1 = Ok plan ->
  let frames := ExportPack._storyboard_json movie (phases plan) target in
  (phases plan = [] <-> target_regions (campaign_overview plan) = 0%nat)
  /\ (phases plan = [] ->
      ExportPack.fr_title <$> frames = ["Teaser Drop"]
      /\ ExportPack.fr_regions <$> frames = [target])
  /\ (phases plan <> [] ->
      frames
      = (fun p =>
           {| ExportPack.frame := Z.of_nat (phase p);
              ExportPack.fr_title := ph_name p;
              ExportPack.fr_visual_direction :=
                ExportPack._visual_direction (Z.of_nat (phase p));
              ExportPack.fr_copy := ExportPack.Focus (focus p);
              ExportPack.fr_cta :=
                if (phase p =? 1)%nat then "Watch the trailer"
                else "Get tickets";
              ExportPack.fr_start_date := Some (ph_start_date p);
              ExportPack.fr_regions := regions p;
              ExportPack.fr_intensity := Some (intensity p) |})
        <$> phases plan).
Proof.
  intros H frames. subst frames.
  pose proof (create_rollout_plan_channels _ _ _ _ _ _ _ _ _ _ _ _ _ H)
    as [_ Htr].
  pose proof (create_rollout_plan_Ok _ _ _ _ _ _ _ _ _ _ _ _ _ H)
    as (rd & ms & _ & _ & _ & _ & _ & Hph & _).
  cbv zeta in Hph.
  pose proof (plan_phase_schedule _ _ _ _ _ _ _ _ _ _ _ _ _ H)
    as (release_dt & _ & _ & _ & Hn & Hv).
  cbv zeta in Hv.
  set (ranked := ranked_regions _) in *.
  assert (length (phases plan) <= 3)%nat as Hlen.
  { rewrite <- (length_fmap phase_schedule), Hv, length_fmap.
    apply present_length. }
  split; [| split].
  - rewrite Htr. split.
    + intros E. rewrite E in Hv. cbn [fmap list_fmap] in Hv.
      symmetry in Hv. apply fmap_nil_inv in Hv.
      pose proof (in_tier_partition ranked) as Hp.
      unfold Spec.present, Spec.has_regions in Hv. cbn [List.filter] in Hv.
      destruct (in_tier TierA ranked), (in_tier TierB ranked),
        (in_tier TierC ranked); try discriminate Hv.
      cbn [app] in Hp. apply Permutation_nil in Hp. rewrite Hp. reflexivity.
    + intros E. apply length_zero_iff_nil in E.
      apply fmap_nil_inv with (f := phase_schedule). rewrite Hv, E.
      reflexivity.
  - intros ->. split; reflexivity.
  - intros Hne. unfold ExportPack._storyboard_json.
    destruct (phases plan) as [| p0 rest] eqn:E; [contradiction |].
    rewrite <- E in *. rewrite take_ge by lia.
    apply (frames_from_plan _ 1); [lia | | exact Hn].
    rewrite Hph. apply create_phases_focus.
Qed.

End StoryboardProperties.

Lemma storyboard_follows_plan_witness :
  exists plan,
    Sample.plan "2024-06-01" None None None (Some Sample.comparison) = Ok plan
    /\ ExportPack.fr_title
         <$> ExportPack._storyboard_json ∅ (phases plan) ["US"]
       = ph_name <$> phases plan
    /\ length (phases plan) = 3%nat.
Proof.
  eexists. split; [vm_compute; reflexivity |]. split; [| reflexivity].
  match goal with
  | |- context [phases ?p] =>
      pose proof (proj2 (proj2 (storyboard_follows_plan
        Sample.float_of_str Sample.int_of_str Sample.compare_regions
        Sample.signature None "2024-06-01" None None None
        (Some Sample.comparison) Sample.now Sample.now p ∅ ["US"] eq_refl)))
        as H
  end.
  cbv zeta in H. rewrite H by discriminate.
  rewrite <- list_fmap_compose. reflexivity.
Defined.
